(** * EvalAI grading engine: a shallow embedding of the Python backend

    The development follows the layout of [backend/app]:
    - [model.py]        the sentence encoder (an external capability),
    - [scorer.py]       the basic similarity scorer,
    - [enhanced_scorer.py] concept matching, rubric scoring, feedback,
    - [services/*.py]   single-answer, batch and paper grading,
    - [crud/paper_crud.py] letter grades.

    Modelling conventions.
    - Python [int] is [Z].  Python [float] is a rational [Q].  The band
      products of the basic scorer ([int(0.7 * max_score)]), the batch
      averages and the percentages of paper totals are computed in binary64
      with [Float64]: every operation is the exact one followed by rounding
      to the nearest double.  The rubric scorer, the enhanced assessment
      and the paper statistics use exact rational arithmetic, where a
      decimal literal such as [0.65] denotes 65/100: what is proved of them
      are bounds and relations that rounding preserves, not the last digit
      of a reported value.
    - Python [str] is [string], read as a sequence of code points below 256.
    - A Python [dict] is an association list kept in insertion order.
    - Calls to the encoder are effects: every function that may reach the
      encoder, or may raise, lives in the monad [M], which carries the list
      of encoder calls made so far and either an exception or a value.
    - The database is read through the results of its queries, which are
      arguments of the functions that issue them; writes to the database,
      logging and wall-clock timing are not part of the embedding. *)

From Stdlib Require Import ZArith QArith Qround Qabs Qminmax Qpower.
From Stdlib Require Import List String Ascii Bool Lia Lqa DecimalString.
Import ListNotations.

Local Open Scope string_scope.
Local Open Scope list_scope.
Local Open Scope Z_scope.

(* ================================================================== *)
(** ** Python numbers *)
(* ================================================================== *)

Module Py.

(** [int(x)] on a float: truncation toward zero. *)
Definition int (x : Q) : Z := Z.quot (Qnum x) (Zpos (Qden x)).

(** [round(x)] with no digit count: nearest integer, ties to even. *)
Definition round (x : Q) : Z :=
  let f := Qfloor x in
  match Qcompare (x - inject_Z f) (1 # 2) with
  | Lt => f
  | Gt => f + 1
  | Eq => if Z.even f then f else f + 1
  end.

(** [round(x, n)]: the same rounding applied at the n-th decimal. *)
Definition round_ndigits (x : Q) (n : nat) : Q :=
  let scale := inject_Z (10 ^ Z.of_nat n) in
  (inject_Z (round (x * scale)) / scale)%Q.

(** [a / b] on two ints (true division); the caller guards [b <> 0]. *)
Definition truediv (a b : Z) : Q := (inject_Z a / inject_Z b)%Q.

(** [str(n)] for an int, as used by f-strings. *)
Definition str_of_int (n : Z) : string := NilZero.string_of_int (Z.to_int n).

End Py.

(* ================================================================== *)
(** ** Binary64 floats *)
(* ================================================================== *)

(** A double is the rational it denotes.  Every operation computes the
    exact result and rounds it to the nearest double, ties to even, with
    53 significant bits.  The exponent range is not modelled: overflow
    (from 2^1024) and subnormal results (below 2^-1022) do not arise from
    the scores, marks and percentages of the engine. *)
Module Float64.

(** For [0 < x], the [e] with [2^e <= x < 2^(e+1)]. *)
Definition exponent (x : Q) : Z :=
  let e := Z.log2 (Qnum x) - Z.log2 (Zpos (Qden x)) in
  if Qle_bool (2 ^ e) x then e else e - 1.

(** The double nearest to [0 < x]: [x] in units of the last place, rounded
    to an integer. *)
Definition nearest (x : Q) : Q :=
  let ulp := (2 ^ (exponent x - 52))%Q in
  (inject_Z (Py.round (x / ulp)) * ulp)%Q.

Definition b64 (x : Q) : Q :=
  match Qnum x with
  | Z0 => 0%Q
  | Zpos _ => nearest x
  | Zneg _ => (- nearest (- x))%Q
  end.

(** A decimal literal of the source. *)
Definition lit (x : Q) : Q := b64 x.

(** [float(n)], also the implicit conversion of an int operand. *)
Definition of_int (n : Z) : Q := b64 (inject_Z n).

(** [x * y] *)
Definition mul (x y : Q) : Q := b64 (x * y).

(** [a / b] on two ints: the quotient, correctly rounded; the caller
    guards [b <> 0]. *)
Definition truediv (a b : Z) : Q := b64 (inject_Z a / inject_Z b).

(** [round(x, n)] on a float: the decimal rounding of the double's exact
    value, converted back to a double. *)
Definition round_ndigits (x : Q) (n : nat) : Q := b64 (Py.round_ndigits x n).

(** [int(c * n)] for a decimal literal [c] and an int [n]. *)
Definition int_mul (c : Q) (n : Z) : Z := Py.int (mul (lit c) (of_int n)).

(** The relative error of one rounding: 2^-53. *)
Definition eps : Q := 1 # 9007199254740992.

End Float64.

(* ================================================================== *)
(** ** Python strings *)
(* ================================================================== *)

Module Str.

(** [c.isspace()] for a code point below 256. *)
Definition is_space (c : ascii) : bool :=
  let n := nat_of_ascii c in
  (((9 <=? n) && (n <=? 13)) || ((28 <=? n) && (n <=? 32))
   || (n =? 133) || (n =? 160))%nat.

Definition is_empty (s : string) : bool :=
  match s with EmptyString => true | String _ _ => false end.

Fixpoint lstrip (s : string) : string :=
  match s with
  | EmptyString => EmptyString
  | String c r => if is_space c then lstrip r else s
  end.

Fixpoint rstrip (s : string) : string :=
  match s with
  | EmptyString => EmptyString
  | String c r =>
      let r' := rstrip r in
      if is_space c && is_empty r' then EmptyString else String c r'
  end.

(** [s.strip()] *)
Definition strip (s : string) : string := rstrip (lstrip s).

(** [s.split(sep)] for a one-character separator: every occurrence cuts,
    empty pieces are kept. *)
Fixpoint split_on (sep : ascii) (s : string) : list string :=
  match s with
  | EmptyString => [EmptyString]
  | String c r =>
      if Ascii.eqb c sep then EmptyString :: split_on sep r
      else match split_on sep r with
           | [] => [String c EmptyString]
           | h :: t => String c h :: t
           end
  end.

(** Scan for [s.split()]: the word that starts at the head of [s] (empty if
    [s] starts with white space) and the words after it. *)
Fixpoint split_scan (s : string) : string * list string :=
  match s with
  | EmptyString => (EmptyString, [])
  | String c r =>
      let (w, ws) := split_scan r in
      if is_space c then (EmptyString, if is_empty w then ws else w :: ws)
      else (String c w, ws)
  end.

(** [s.split()]: maximal runs of non-space characters. *)
Definition split (s : string) : list string :=
  let (w, ws) := split_scan s in
  if is_empty w then ws else w :: ws.

(** [len(s.split())] *)
Definition word_count (s : string) : Z := Z.of_nat (List.length (split s)).

Fixpoint existsb_char (p : ascii -> bool) (s : string) : bool :=
  match s with
  | EmptyString => false
  | String c r => p c || existsb_char p r
  end.

(** [sep.join(l)] *)
Fixpoint join (sep : string) (l : list string) : string :=
  match l with
  | [] => EmptyString
  | [x] => x
  | x :: t => (x ++ sep ++ join sep t)%string
  end.

End Str.

(* ================================================================== *)
(** ** Effects: encoder calls and exceptions *)
(* ================================================================== *)

Inductive exn : Type :=
| TypeError
| KeyError (key : string)
| IndexError
| ValueError (msg : string)
| ZeroDivisionError
| AttributeError (attribute : string).

(** One entry per call that reaches the sentence encoder. *)
Inductive call : Type :=
| EncodeText (text : string)
| EncodeTexts (texts : list string).

(** A computation: the encoder calls it made, and how it ended. *)
Definition M (A : Type) : Type := list call * (exn + A).

Definition ret {A} (a : A) : M A := ([], inr a).

Definition raise {A} (e : exn) : M A := ([], inl e).

Definition bind {A B} (m : M A) (k : A -> M B) : M B :=
  match m with
  | (log, inl e) => (log, inl e)
  | (log, inr a) => let (log', r) := k a in (log ++ log', r)
  end.

Notation "x <- m ;; k" := (bind m (fun x => k))
  (at level 61, m at next level, right associativity).
Notation "' pat <- m ;; k" := (bind m (fun x => match x with pat => k end))
  (at level 61, pat pattern, m at next level, right associativity).

Definition calls {A} (m : M A) : list call := fst m.
Definition outcome {A} (m : M A) : exn + A := snd m.

(** [for x in xs: acc = body(acc, x)] *)
Fixpoint for_each {A S} (xs : list A) (body : S -> A -> M S) (acc : S) : M S :=
  match xs with
  | [] => ret acc
  | x :: t => acc' <- body acc x ;; for_each t body acc'
  end.

(** [l[i]] for a list and a non-negative index. *)
Definition getitem {A} (l : list A) (i : nat) : M A :=
  match nth_error l i with
  | Some x => ret x
  | None => raise IndexError
  end.

(* ================================================================== *)
(** ** Dictionaries in insertion order *)
(* ================================================================== *)

Module Dict.
Section WithKey.
Context {K A : Type} (eqb : K -> K -> bool).

Definition t := list (K * A).

Fixpoint get (d : t) (k : K) : option A :=
  match d with
  | [] => None
  | (k', v) :: r => if eqb k k' then Some v else get r k
  end.

(** [d[k] = v]: overwrite in place, or append a new key. *)
Fixpoint set (d : t) (k : K) (v : A) : t :=
  match d with
  | [] => [(k, v)]
  | (k', v') :: r =>
      if eqb k k' then (k', v) :: r else (k', v') :: set r k v
  end.

Definition keys (d : t) : list K := map fst d.
Definition values (d : t) : list A := map snd d.

(** [{key(x): val(x) for x in xs}] *)
Definition comprehension {X} (key : X -> K) (val : X -> A) (xs : list X) : t :=
  fold_left (fun d x => set d (key x) (val x)) xs [].
End WithKey.
End Dict.

(* ================================================================== *)
(** ** Dynamically typed values *)
(* ================================================================== *)

(** The few Python values that [assess_single_answer] passes around
    untyped: it subscripts the value returned by [assess_answer]. *)
#[warnings="-register-all"]
Inductive pyval : Type :=
| PyFloat (x : Q)
| PyInt (n : Z)
| PyStr (s : string)
| PyTuple (items : list pyval)
| PyDict (entries : list (string * pyval)).

(** [obj[key]] *)
Definition subscript (obj key : pyval) : M pyval :=
  match obj, key with
  | PyTuple items, PyInt i =>
      let n := Z.of_nat (List.length items) in
      let j := if i <? 0 then i + n else i in
      if (j <? 0) || (n <=? j) then raise IndexError
      else getitem items (Z.to_nat j)
  | PyTuple _, _ => raise TypeError
  | PyDict entries, PyStr k =>
      match Dict.get String.eqb entries k with
      | Some v => ret v
      | None => raise (KeyError k)
      end
  | PyDict _, _ => raise (KeyError "")
  | _, _ => raise TypeError
  end.

(** [round(x, ndigits)] on an untyped number. *)
Definition round_value (x : pyval) (ndigits : nat) : M pyval :=
  match x with
  | PyFloat q => ret (PyFloat (Py.round_ndigits q ndigits))
  | PyInt n => ret (PyInt n)
  | _ => raise TypeError
  end.

(* ================================================================== *)
(** ** Request and response records (schemas/assessment.py) *)
(* ================================================================== *)

Module AssessmentResponse.
Record t : Type := make {
  similarity_score : Q;
  awarded_score : Z;
  feedback : string
}.
End AssessmentResponse.

Module BatchAnswerItem.
Record t : Type := make {
  student_id : string;
  model_answer : string;
  student_answer : string;
  max_score : Z
}.
End BatchAnswerItem.

Module BatchAssessmentResult.
Record t : Type := make {
  student_id : string;
  similarity_score : Q;
  awarded_score : Z;
  feedback : string
}.
End BatchAssessmentResult.

(* ================================================================== *)
(** ** Result records of the enhanced scorer (enhanced_scorer.py) *)
(* ================================================================== *)

Module ConceptMatch.
Record t : Type := make {
  matched : bool;
  score : Q;
  matched_phrase : option string
}.
End ConceptMatch.

Module Accuracy.
Record t : Type := make { score : Q; similarity : Q }.
End Accuracy.

Module Completeness.
Record t : Type := make {
  score : Q;
  length_ratio : Q;
  concept_coverage : Q;
  concepts_found : Z;
  total_concepts : Z
}.
End Completeness.

Module Clarity.
Record t : Type := make {
  score : Q;
  avg_sentence_length : Q;
  has_punctuation : bool;
  word_count : Z
}.
End Clarity.

Module Components.
Record t : Type := make {
  accuracy : Accuracy.t;
  completeness : Completeness.t;
  clarity : Clarity.t
}.
End Components.

Module RubricResult.
Record t : Type := make {
  total_score : Q;
  components : Components.t;
  rubric_weights : list (string * Q)
}.
End RubricResult.

Module DetailedFeedback.
Record t : Type := make {
  overall : string;
  accuracy : string;
  completeness : string;
  clarity : string;
  improvements : list string;
  strengths : list string
}.
End DetailedFeedback.

Module RubricEntry.
Record t : Type := make { score : Q; weight : Q; weighted_contribution : Q }.
End RubricEntry.

Module RubricBreakdown.
Record t : Type := make {
  accuracy : RubricEntry.t;
  completeness : RubricEntry.t;
  clarity : RubricEntry.t
}.
End RubricBreakdown.

Module ConceptDetail.
Record t : Type := make {
  concept : string;
  found : bool;
  confidence : Q;
  matched_phrase : option string
}.
End ConceptDetail.

Module ConceptAnalysis.
Record t : Type := make {
  total_concepts : Z;
  concepts_found : Z;
  concept_details : list ConceptDetail.t
}.
End ConceptAnalysis.

Module EnhancedAssessment.
Record t : Type := make {
  awarded_score : Z;
  max_score : Z;
  percentage : Q;
  rubric_breakdown : RubricBreakdown.t;
  concept_analysis : ConceptAnalysis.t;
  feedback : DetailedFeedback.t
}.
End EnhancedAssessment.

(** [l[:n]] *)
Definition slice_to {A} (l : list A) (n : Z) : list A :=
  if n <? 0 then firstn (Z.to_nat (Z.of_nat (List.length l) + n)) l
  else firstn (Z.to_nat n) l.

(** [len(l)] *)
Definition len {A} (l : list A) : Z := Z.of_nat (List.length l).

(** [np.argmax]: scan keeping the first position of the largest value. *)
Fixpoint argmax_from (best : Q) (best_idx idx : nat) (row : list Q) : nat :=
  match row with
  | [] => best_idx
  | x :: t =>
      if Qle_bool x best then argmax_from best best_idx (S idx) t
      else argmax_from x idx (S idx) t
  end.

Definition argmax (row : list Q) : M nat :=
  match row with
  | [] => raise (ValueError "attempt to get argmax of an empty sequence")
  | x :: t => ret (argmax_from x 0 1 t)
  end.

(** [enumerate(l)] *)
Definition enumerate {A} (l : list A) : list (nat * A) :=
  combine (seq 0 (List.length l)) l.

(* ================================================================== *)
(** ** Papers, submissions and grading results (schemas/paper.py) *)
(* ================================================================== *)

(** One entry of [paper_details["questions"]]; the keys the grader never
    reads (question_id, is_required, subject, topic) are left out. *)
Module Question.
Record t : Type := make {
  question_number : Z;
  question_text : string;
  model_answer : string;
  marks_allocated : Z
}.
End Question.

(** What [get_paper_with_questions] hands to the grader. *)
Module PaperDetails.
Record t : Type := make {
  title : string;
  total_marks : Z;
  questions : list Question.t
}.
End PaperDetails.

Module AnswerSubmission.
Record t : Type := make { question_number : Z; answer : string }.
End AnswerSubmission.

(** Feedback is a plain string in basic mode and a dict in enhanced mode. *)
Inductive Feedback : Type :=
| PlainText (text : string)
| Structured (detail : DetailedFeedback.t).

(** A question result dict.  A key that a scoring method does not set is
    [None]; [similarity_score] in enhanced mode is present with value
    [None], which is rendered the same way. *)
Module QuestionResult.
Record t : Type := make {
  question_number : Z;
  question_text : string;
  student_answer : string;
  marks_allocated : Z;
  awarded_score : Z;
  similarity_score : option Q;
  percentage : option Q;
  rubric_breakdown : option RubricBreakdown.t;
  concept_analysis : option ConceptAnalysis.t;
  feedback : Feedback
}.
End QuestionResult.

(** The parts from which the overall feedback text is laid out: the banded
    message, the statistics block, the first three strong and weak
    questions, and in enhanced mode the three rubric averages.  Only the
    layout of these parts into one string is left out. *)
Module OverallFeedback.
Record t : Type := make {
  message : string;
  total_questions : Z;
  attempted : Z;
  percentage : Q;
  strong_areas : list QuestionResult.t;
  weak_areas : list QuestionResult.t;
  rubric_analysis : option (Q * Q * Q)
}.
End OverallFeedback.

(** The dict returned by the graders, without the database ids and the
    timestamps. *)
Module PaperGradingResult.
Record t : Type := make {
  paper_id : Z;
  paper_title : string;
  total_score : Z;
  total_marks : Z;
  percentage : Q;
  grade : string;
  overall_feedback : OverallFeedback.t;
  question_results : list QuestionResult.t
}.
End PaperGradingResult.

(** [[x for x in xs if keep(x)]] where [keep] may raise. *)
Fixpoint filter_m {A} (keep : A -> M bool) (xs : list A) : M (list A) :=
  match xs with
  | [] => ret []
  | x :: t =>
      b <- keep x ;;
      r <- filter_m keep t ;;
      ret (if b then x :: r else r)
  end.

(** [a / b] on two ints, raising on a zero divisor. *)
Definition truediv_m (a b : Z) : M Q :=
  if b =? 0 then raise ZeroDivisionError else ret (Py.truediv a b).

(** [sum(xs)] on floats *)
Definition sum_Q (xs : list Q) : Q := fold_left Qplus xs 0%Q.

(** [sum(xs)] on ints *)
Definition sum_Z (xs : list Z) : Z := fold_left Z.add xs 0.

(* ------------------------------------------------------------------ *)
(** *** crud/paper_crud.py *)

Definition assign_grade (percentage : Q) : string :=
  if Qle_bool 90 percentage then "A+"
  else if Qle_bool 85 percentage then "A"
  else if Qle_bool 80 percentage then "A-"
  else if Qle_bool 75 percentage then "B+"
  else if Qle_bool 70 percentage then "B"
  else if Qle_bool 65 percentage then "B-"
  else if Qle_bool 60 percentage then "C+"
  else if Qle_bool 55 percentage then "C"
  else if Qle_bool 50 percentage then "C-"
  else if Qle_bool 45 percentage then "D"
  else "F".

(* ================================================================== *)
(** ** Further requests, responses and stored rows *)
(* ================================================================== *)

(** One dict of [student_answers] in a single-model batch; each key may be
    missing. *)
Module StudentAnswerDict.
Record t : Type := make {
  student_id : option string;
  answer : option string;
  max_score : option Z
}.
End StudentAnswerDict.

(** schemas/assessment.py: [AnswerRequest] *)
Module AnswerRequest.
Record t : Type := make {
  model_answer : string;
  student_answer : string;
  max_score : Z
}.
End AnswerRequest.

(** schemas/paper.py: [PaperSubmitRequest], without the student's name. *)
Module PaperSubmitRequest.
Record t : Type := make {
  paper_id : Z;
  answers : list AnswerSubmission.t;
  use_enhanced_scoring : bool;
  rubric_weights : option (list (string * Q))
}.
End PaperSubmitRequest.

(** The dict returned by [compare_assessment_methods]. *)
Module MethodComparison.
Record t : Type := make {
  basic_score : Z;
  basic_max_score : Z;
  basic_similarity : Q;
  basic_feedback : string;
  enhanced_method : EnhancedAssessment.t;
  score_difference : Z;
  basic_description : string;
  enhanced_description : string
}.
End MethodComparison.

(** What a route answers: a body, or an [HTTPException] whose detail is a
    literal message or [str(e)] of the exception it wraps. *)
Inductive http_detail : Type :=
| Message (text : string)
| StrOf (e : exn)
| StrOfValidationError.

Inductive http (A : Type) : Type :=
| Ok200 (body : A)
| HTTPException (status_code : Z) (detail : http_detail).

Arguments Ok200 {A} body.
Arguments HTTPException {A} status_code detail.

(** A route run: the encoder calls made, and the answer. *)
Definition Route (A : Type) : Type := list call * http A.

(** models/paper.py: the columns of a [PaperSubmission] row that grading
    writes and statistics read; a column that may be NULL is an option. *)
Module PaperSubmission.
Record t : Type := make {
  total_score : option Z;
  total_marks : Z;
  percentage : option Q;
  grade : option string;
  overall_feedback : option OverallFeedback.t
}.
End PaperSubmission.

(** models/paper.py: the columns of a [Paper] row that statistics report. *)
Module Paper.
Record t : Type := make {
  title : string;
  subject : string;
  total_marks : Z
}.
End Paper.

(** schemas/paper.py: [PaperStatistics]; a grade key may be [None]. *)
Module PaperStatistics.
Record t : Type := make {
  paper_id : Z;
  title : string;
  subject : string;
  total_marks : Z;
  total_submissions : Z;
  graded_submissions : Z;
  pending_submissions : Z;
  average_score : Q;
  average_percentage : Q;
  highest_score : Z;
  lowest_score : Z;
  median_score : Q;
  grade_distribution : list (option string * Z);
  excellent_count : Z;
  good_count : Z;
  satisfactory_count : Z;
  needs_improvement_count : Z
}.
End PaperStatistics.

(** [sorted(xs)] on ints, by insertion. *)
Fixpoint insert_sorted (x : Z) (xs : list Z) : list Z :=
  match xs with
  | [] => [x]
  | y :: t => if x <=? y then x :: y :: t else y :: insert_sorted x t
  end.

Definition sorted (xs : list Z) : list Z := fold_right insert_sorted [] xs.

(** [max(xs)] and [min(xs)] on a non-empty list of ints. *)
Definition max_of (x : Z) (xs : list Z) : Z := fold_left Z.max xs x.
Definition min_of (x : Z) (xs : list Z) : Z := fold_left Z.min xs x.

(** Equality of dict keys that may be [None]. *)
Definition grade_eqb (a b : option string) : bool :=
  match a, b with
  | None, None => true
  | Some x, Some y => String.eqb x y
  | _, _ => false
  end.

(* ------------------------------------------------------------------ *)
(** *** crud/paper_crud.py: fetching a paper *)

(** [sorted(paper.paper_questions, key=lambda x: x.question_number)]; the
    sort is stable. *)
Fixpoint insert_question (q : Question.t) (qs : list Question.t)
  : list Question.t :=
  match qs with
  | [] => [q]
  | q' :: t =>
      if Question.question_number q <=? Question.question_number q'
      then q :: q' :: t
      else q' :: insert_question q t
  end.

Definition sort_questions (qs : list Question.t) : list Question.t :=
  fold_right insert_question [] qs.

(** [paper.is_active] on a [Paper] instance: models/paper.py declares no
    such column or attribute on the class, so reading it raises. *)
Definition paper_is_active (paper : Paper.t) : M bool :=
  raise (AttributeError "is_active").

(** [paper] is the row that [get_paper] finds, if any, and
    [paper_questions] its [paper_questions], each joined with its question.
    The dict display evaluates its values in order: id, title, description,
    subject, total_marks, duration_minutes and difficulty are columns of
    the row; then comes [bool(paper.is_active)]. *)
Definition get_paper_with_questions (paper : option Paper.t)
    (paper_questions : list Question.t) : M (option PaperDetails.t) :=
  match paper with
  | None => ret None
  | Some paper =>
      let questions := sort_questions paper_questions in
      is_active <- paper_is_active paper ;;
      ret (Some (PaperDetails.make (Paper.title paper)
                   (Paper.total_marks paper) questions))
  end.

(** A deterministic test double for the encoder: a text is its own vector,
    and two vectors are as similar as 1.0 when equal and 0.5 otherwise. *)
Module TestEncoder.
Definition Vec : Type := string.
Definition encode (text : string) : Vec := text.
Definition cosine (a b : Vec) : Q := if String.eqb a b then 1.0%Q else 0.5%Q.
End TestEncoder.

(** Sample requests, graded with the test double. *)
Module Sample.

Definition osmosis : Question.t :=
  Question.make 1 "Define osmosis."
    "Osmosis is the movement of water across a membrane." 3.

Definition diffusion : Question.t :=
  Question.make 2 "Define diffusion."
    "Diffusion is the movement of particles, from high to low concentration." 10.


Definition blank_second_answer : list AnswerSubmission.t :=
  [AnswerSubmission.make 1 "Water moves through a membrane.";
   AnswerSubmission.make 2 "   "].

Definition blank_item : BatchAnswerItem.t :=
  BatchAnswerItem.make "s1" "Osmosis is the movement of water." "   " 10.


End Sample.

(* ================================================================== *)
(** ** The engine, over an abstract encoder *)
(* ================================================================== *)

Section Engine.

(** [model.py]: the SBERT model maps a text to a vector; scikit-learn's
    [cosine_similarity] compares two vectors.  Both are external. *)
Variable Vec : Type.
Variable model_encode : string -> Vec.
Variable cosine : Vec -> Vec -> Q.

Definition encode_text (text : string) : M Vec :=
  ([EncodeText text], inr (model_encode text)).

(** A batch is encoded text by text, in order. *)
Definition encode_texts (texts : list string) : M (list Vec) :=
  ([EncodeTexts texts], inr (map model_encode texts)).

(** [cosine_similarity(X, Y)]: the matrix of pairwise similarities. *)
Definition cosine_similarity (X Y : list Vec) : list (list Q) :=
  map (fun x => map (fun y => cosine x y) Y) X.

(* ------------------------------------------------------------------ *)
(** *** scorer.py *)

Definition compute_similarity (vec1 vec2 : Vec) : Q :=
  Qmax 0 (Qmin 1 (cosine vec1 vec2)).

Definition map_similarity_to_score (similarity : Q) (max_score : Z) : Z :=
  if Qle_bool 0.80 similarity then max_score
  else if Qle_bool 0.60 similarity then Float64.int_mul 0.7 max_score
  else if Qle_bool 0.40 similarity then Float64.int_mul 0.4 max_score
  else 0.

Definition generate_feedback (similarity : Q) : string :=
  if Qle_bool 0.80 similarity then
    "Excellent answer. High semantic similarity to the model answer."
  else if Qle_bool 0.60 similarity then
    "Good answer, but missing some important concepts."
  else if Qle_bool 0.40 similarity then
    "Fair attempt, but the answer lacks clarity and key ideas."
  else
    "Poor answer. The response is semantically different from the expected answer.".

Definition assess_answer (student_answer model_answer : string) (max_score : Z)
  : M (Q * Z) :=
  vec_student <- encode_text student_answer ;;
  vec_model <- encode_text model_answer ;;
  let similarity := compute_similarity vec_student vec_model in
  let score := map_similarity_to_score similarity max_score in
  ret (similarity, score).

(* ------------------------------------------------------------------ *)
(** *** enhanced_scorer.py: ConceptMatcher *)

Definition concept_threshold : Q := 0.65.

Definition extract_key_phrases (text : string) (min_words : Z) : list string :=
  let sentences :=
    map Str.strip
      (filter (fun s => negb (Str.is_empty (Str.strip s)))
         (Str.split_on "." text)) in
  fold_left
    (fun phrases sent =>
       let phrases :=
         if Str.word_count sent <=? 15 then phrases ++ [sent] else phrases in
       fold_left
         (fun phrases phrase =>
            let phrase := Str.strip phrase in
            if min_words <=? Str.word_count phrase then phrases ++ [phrase]
            else phrases)
         (Str.split_on "," sent) phrases)
    sentences [].

Definition identify_key_concepts (model_answer : string) (top_n : Z)
  : list string :=
  let phrases := extract_key_phrases model_answer 2 in
  if top_n <? len phrases then slice_to phrases top_n else phrases.

(** The loop body of [match_concepts]. *)
Definition match_step (similarity_matrix : list (list Q))
    (student_phrases : list string)
    (results : list (string * ConceptMatch.t)) (entry : nat * string)
  : M (list (string * ConceptMatch.t)) :=
  let (i, concept) := entry in
  row <- getitem similarity_matrix i ;;
  best_match_idx <- argmax row ;;
  best_score <- getitem row best_match_idx ;;
  matched_phrase <-
    (if Qle_bool concept_threshold best_score then
       phrase <- getitem student_phrases best_match_idx ;; ret (Some phrase)
     else ret None) ;;
  ret (Dict.set String.eqb results concept
         (ConceptMatch.make (Qle_bool concept_threshold best_score)
            best_score matched_phrase)).

Definition match_concepts (key_concepts : list string)
    (student_answer : string) : M (list (string * ConceptMatch.t)) :=
  match key_concepts with
  | [] => ret []
  | _ =>
      let student_phrases := extract_key_phrases student_answer 2 in
      match student_phrases with
      | [] =>
          ret (Dict.comprehension String.eqb (fun concept => concept)
                 (fun _ => ConceptMatch.make false 0.0 None) key_concepts)
      | _ =>
          concept_embeddings <- encode_texts key_concepts ;;
          student_embeddings <- encode_texts student_phrases ;;
          let similarity_matrix :=
            cosine_similarity concept_embeddings student_embeddings in
          for_each (enumerate key_concepts)
            (match_step similarity_matrix student_phrases) []
      end
  end.

(* ------------------------------------------------------------------ *)
(** *** enhanced_scorer.py: RubricScorer *)

Definition matched_count (concept_matches : list (string * ConceptMatch.t)) : Z :=
  len (filter ConceptMatch.matched (Dict.values concept_matches)).

Definition score_completeness (model_answer student_answer : string)
  : M Completeness.t :=
  let model_len := Str.word_count model_answer in
  let student_len := Str.word_count student_answer in
  let length_ratio :=
    if 0 <? model_len then Qmin (Py.truediv student_len model_len) 1.0
    else 0.0%Q in
  let key_concepts := identify_key_concepts model_answer 5 in
  concept_matches <- match_concepts key_concepts student_answer ;;
  let matched_count := matched_count concept_matches in
  let concept_coverage :=
    match key_concepts with
    | [] => 0.0%Q
    | _ => Py.truediv matched_count (len key_concepts)
    end in
  let completeness := (length_ratio * 0.3 + concept_coverage * 0.7)%Q in
  ret (Completeness.make completeness length_ratio concept_coverage
         matched_count (len key_concepts)).

Definition score_accuracy (model_answer student_answer : string)
  : M Accuracy.t :=
  model_vec <- encode_text model_answer ;;
  student_vec <- encode_text student_answer ;;
  let similarity := cosine model_vec student_vec in
  ret (Accuracy.make (Qmax 0.0 (Qmin 1.0 similarity)) similarity).

Definition is_punctuation (c : ascii) : bool :=
  existsb (Ascii.eqb c) ["."; "!"; "?"; ","; ";"; ":"]%char.

Definition score_clarity (student_answer : string) : Clarity.t :=
  let sentences :=
    filter (fun s => negb (Str.is_empty (Str.strip s)))
      (Str.split_on "." student_answer) in
  let words := Str.split student_answer in
  let avg_sent_len :=
    match sentences with
    | [] => 0%Q
    | _ => Py.truediv (len words) (len sentences)
    end in
  let sentence_score :=
    if Qle_bool 10 avg_sent_len && Qle_bool avg_sent_len 20 then 1.0%Q
    else Qmax 0.5 (1.0 - Qabs (avg_sent_len - 15) / 30)%Q in
  let has_punctuation := Str.existsb_char is_punctuation student_answer in
  let punctuation_score := if has_punctuation then 1.0%Q else 0.5%Q in
  let length_score := Qmin (Py.truediv (len words) 20) 1.0 in
  let clarity :=
    (sentence_score * 0.4 + punctuation_score * 0.3 + length_score * 0.3)%Q in
  Clarity.make clarity avg_sent_len has_punctuation (len words).

Definition default_rubric_weights : list (string * Q) :=
  [("accuracy", 0.5%Q); ("completeness", 0.35%Q); ("clarity", 0.15%Q)].

(** [weights[key]] *)
Definition weight_of (weights : list (string * Q)) (key : string) : M Q :=
  match Dict.get String.eqb weights key with
  | Some w => ret w
  | None => raise (KeyError key)
  end.

Definition score_with_rubric (model_answer student_answer : string)
    (rubric_weights : option (list (string * Q))) : M RubricResult.t :=
  let rubric_weights :=
    match rubric_weights with
    | None => default_rubric_weights
    | Some w => w
    end in
  accuracy <- score_accuracy model_answer student_answer ;;
  completeness <- score_completeness model_answer student_answer ;;
  let clarity := score_clarity student_answer in
  w_accuracy <- weight_of rubric_weights "accuracy" ;;
  w_completeness <- weight_of rubric_weights "completeness" ;;
  w_clarity <- weight_of rubric_weights "clarity" ;;
  let total_score :=
    (Accuracy.score accuracy * w_accuracy
     + Completeness.score completeness * w_completeness
     + Clarity.score clarity * w_clarity)%Q in
  ret (RubricResult.make total_score
         (Components.make accuracy completeness clarity) rubric_weights).

(* ------------------------------------------------------------------ *)
(** *** enhanced_scorer.py: FeedbackGenerator *)

(** [max(components.items(), key=score)]: the first of the largest. *)
Definition best_component (components : Components.t) : string * Q :=
  let items :=
    [("accuracy", Accuracy.score (Components.accuracy components));
     ("completeness", Completeness.score (Components.completeness components));
     ("clarity", Clarity.score (Components.clarity components))] in
  fold_left
    (fun best item => if Qle_bool (snd item) (snd best) then best else item)
    items ("accuracy", Accuracy.score (Components.accuracy components)).

Definition _identify_strengths (rubric_result : RubricResult.t) : list string :=
  let components := RubricResult.components rubric_result in
  let strengths := [] in
  let strengths :=
    if Qle_bool 0.8 (Accuracy.score (Components.accuracy components))
    then strengths ++ ["Strong conceptual accuracy"] else strengths in
  let strengths :=
    if Qle_bool 0.8 (Completeness.score (Components.completeness components))
    then strengths ++ ["Comprehensive coverage of key points"]
    else strengths in
  let strengths :=
    if Qle_bool 0.8 (Clarity.score (Components.clarity components))
    then strengths ++ ["Clear and well-structured writing"] else strengths in
  match strengths with
  | [] =>
      let best := best_component components in
      if Qle_bool 0.6 (snd best) then [("Good " ++ fst best)%string] else []
  | _ => strengths
  end.

Definition generate_detailed_feedback (rubric_result : RubricResult.t)
    (model_answer student_answer : string) : M DetailedFeedback.t :=
  let components := RubricResult.components rubric_result in
  let total := RubricResult.total_score rubric_result in
  let overall :=
    if Qle_bool 0.9 total then
      "Excellent work! Your answer demonstrates comprehensive understanding."
    else if Qle_bool 0.8 total then
      "Very good! Your answer is strong with minor areas for improvement."
    else if Qle_bool 0.7 total then
      "Good effort! Your answer captures the main ideas but could be enhanced."
    else if Qle_bool 0.6 total then
      "Fair attempt. Your answer shows some understanding but misses key elements."
    else
      "Your answer needs significant improvement. Please review the material carefully." in
  let accuracy_score := Accuracy.score (Components.accuracy components) in
  let accuracy_fb :=
    if Qle_bool 0.85 accuracy_score then
      "Your answer is semantically accurate and aligns well with the model answer."
    else if Qle_bool 0.7 accuracy_score then
      "Your answer is mostly accurate but contains some imprecise statements."
    else
      "Your answer has significant accuracy issues. Review the core concepts." in
  let comp := Components.completeness components in
  let completeness_score := Completeness.score comp in
  let found_of_total :=
    (Py.str_of_int (Completeness.concepts_found comp) ++ "/"
     ++ Py.str_of_int (Completeness.total_concepts comp))%string in
  let completeness_fb :=
    if Qle_bool 0.85 completeness_score then
      ("Your answer is comprehensive, covering " ++ found_of_total
       ++ " key concepts.")%string
    else if Qle_bool 0.6 completeness_score then
      ("Your answer covers " ++ found_of_total
       ++ " key concepts. Consider expanding on missing points.")%string
    else
      ("Your answer is incomplete, covering only " ++ found_of_total
       ++ " key concepts. Add more detail.")%string in
  let clarity_score := Clarity.score (Components.clarity components) in
  let word_count := Clarity.word_count (Components.clarity components) in
  let clarity_fb :=
    if Qle_bool 0.8 clarity_score then
      "Your answer is well-structured and clearly written."
    else if Qle_bool 0.6 clarity_score then
      "Your answer could be clearer. Consider improving sentence structure and punctuation."
    else if word_count <? 15 then
      "Your answer is too brief. Provide more detail and explanation."
    else
      "Your answer lacks clarity. Break complex ideas into clear sentences." in
  let improvements := [] in
  let key_concepts := identify_key_concepts model_answer 5 in
  concept_matches <- match_concepts key_concepts student_answer ;;
  let missing_concepts :=
    map fst (filter (fun cm => negb (ConceptMatch.matched (snd cm)))
               concept_matches) in
  let improvements :=
    match missing_concepts with
    | [] => improvements
    | _ =>
        if len missing_concepts <=? 3 then
          improvements ++
          [("Consider including: "
            ++ Str.join ", " (slice_to missing_concepts 3))%string]
        else
          improvements ++
          ["Several key concepts are missing. Review the material for completeness."]
    end in
  let improvements :=
    if word_count <? 20 then
      improvements ++ ["Provide more detailed explanations."]
    else improvements in
  let improvements :=
    if Qle_bool 0.7 accuracy_score then improvements
    else improvements ++
         ["Review the fundamental concepts to improve accuracy."] in
  ret (DetailedFeedback.make overall accuracy_fb completeness_fb clarity_fb
         improvements (_identify_strengths rubric_result)).

(* ------------------------------------------------------------------ *)
(** *** enhanced_scorer.py: enhanced_assessment *)

Definition enhanced_assessment (model_answer student_answer : string)
    (max_score : Z) (rubric_weights : option (list (string * Q)))
  : M EnhancedAssessment.t :=
  rubric_result <- score_with_rubric model_answer student_answer rubric_weights ;;
  let total_score := RubricResult.total_score rubric_result in
  let awarded_score := Py.round (total_score * inject_Z max_score) in
  detailed_feedback <-
    generate_detailed_feedback rubric_result model_answer student_answer ;;
  let key_concepts := identify_key_concepts model_answer 5 in
  concept_matches <- match_concepts key_concepts student_answer ;;
  let components := RubricResult.components rubric_result in
  let weights := RubricResult.rubric_weights rubric_result in
  w_accuracy <- weight_of weights "accuracy" ;;
  w_completeness <- weight_of weights "completeness" ;;
  w_clarity <- weight_of weights "clarity" ;;
  let entry (score weight : Q) :=
    RubricEntry.make score weight (score * weight)%Q in
  ret (EnhancedAssessment.make awarded_score max_score
         (Py.round_ndigits (total_score * 100) 1)
         (RubricBreakdown.make
            (entry (Accuracy.score (Components.accuracy components)) w_accuracy)
            (entry (Completeness.score (Components.completeness components))
               w_completeness)
            (entry (Clarity.score (Components.clarity components)) w_clarity))
         (ConceptAnalysis.make (len key_concepts) (matched_count concept_matches)
            (map (fun cm =>
                    ConceptDetail.make (fst cm)
                      (ConceptMatch.matched (snd cm))
                      (Py.round_ndigits (ConceptMatch.score (snd cm)) 3)
                      (ConceptMatch.matched_phrase (snd cm)))
               concept_matches))
         detailed_feedback).

(* ------------------------------------------------------------------ *)
(** *** services/assessment_service.py *)

(** [assess_answer] is called with the model answer first, and its result,
    a pair, is then subscripted with string keys. *)
Definition assess_single_answer (model_answer student_answer : string)
    (max_score : Z) : M pyval :=
  '(similarity, score) <- assess_answer model_answer student_answer max_score ;;
  let result := PyTuple [PyFloat similarity; PyInt score] in
  similarity_value <- subscript result (PyStr "similarity") ;;
  similarity_score <- round_value similarity_value 3 ;;
  awarded_score <- subscript result (PyStr "score") ;;
  feedback <- subscript result (PyStr "feedback") ;;
  ret (PyDict [("similarity_score", similarity_score);
               ("awarded_score", awarded_score);
               ("feedback", feedback)]).

Definition assess_with_vectors (model_vector : Vec) (student_answer : string)
    (max_score : Z) : M AssessmentResponse.t :=
  student_vec <- encode_text student_answer ;;
  let similarity := compute_similarity model_vector student_vec in
  let score := map_similarity_to_score similarity max_score in
  let feedback := generate_feedback similarity in
  ret (AssessmentResponse.make (Py.round_ndigits similarity 3) score feedback).


(* ------------------------------------------------------------------ *)
(** *** services/batch_service.py *)

(** The loop body of [process_batch_assessments]; the accumulator is
    [(results, total_score)]. *)
Definition batch_step (acc : list BatchAssessmentResult.t * Z)
    (item : BatchAnswerItem.t)
  : M (list BatchAssessmentResult.t * Z) :=
  let (results, total_score) := acc in
  if Str.is_empty (Str.strip (BatchAnswerItem.model_answer item))
     || Str.is_empty (Str.strip (BatchAnswerItem.student_answer item))
  then
    ret (results ++
         [BatchAssessmentResult.make (BatchAnswerItem.student_id item)
            0.0%Q 0 "Invalid answer: empty text provided"],
         total_score)
  else
    model_vec <- encode_text (BatchAnswerItem.model_answer item) ;;
    student_vec <- encode_text (BatchAnswerItem.student_answer item) ;;
    let similarity := compute_similarity model_vec student_vec in
    let score :=
      map_similarity_to_score similarity (BatchAnswerItem.max_score item) in
    let feedback := generate_feedback similarity in
    ret (results ++
         [BatchAssessmentResult.make (BatchAnswerItem.student_id item)
            (Py.round_ndigits similarity 3) score feedback],
         total_score + score).

(** Returns [(results, round(avg_score, 2))]; the elapsed time is not
    modelled. *)
Definition process_batch_assessments (answers : list BatchAnswerItem.t)
  : M (list BatchAssessmentResult.t * Q) :=
  '(results, total_score) <- for_each answers batch_step ([], 0) ;;
  let avg_score :=
    match results with
    | [] => 0.0%Q
    | _ => Float64.truediv total_score (Z.of_nat (List.length results))
    end in
  ret (results, Float64.round_ndigits avg_score 2).

(* ------------------------------------------------------------------ *)
(** *** services/paper_service.py: PaperGrader *)

Definition _create_unanswered_result (question : Question.t) : QuestionResult.t :=
  QuestionResult.make
    (Question.question_number question)
    (Question.question_text question)
    ""
    (Question.marks_allocated question)
    0
    (Some 0.0%Q)
    None None None
    (PlainText "Question not attempted.").

Definition _score_question_basic (question : Question.t)
    (student_answer : string) : M QuestionResult.t :=
  model_vec <- encode_text (Question.model_answer question) ;;
  student_vec <- encode_text student_answer ;;
  let similarity := compute_similarity model_vec student_vec in
  let score :=
    map_similarity_to_score similarity (Question.marks_allocated question) in
  let feedback := generate_feedback similarity in
  ret (QuestionResult.make
         (Question.question_number question)
         (Question.question_text question)
         student_answer
         (Question.marks_allocated question)
         score
         (Some (Py.round_ndigits similarity 3))
         None None None
         (PlainText feedback)).

Definition _score_question_enhanced (question : Question.t)
    (student_answer : string) (rubric_weights : option (list (string * Q)))
  : M QuestionResult.t :=
  assessment <-
    enhanced_assessment (Question.model_answer question) student_answer
      (Question.marks_allocated question) rubric_weights ;;
  ret (QuestionResult.make
         (Question.question_number question)
         (Question.question_text question)
         student_answer
         (Question.marks_allocated question)
         (EnhancedAssessment.awarded_score assessment)
         None
         (Some (EnhancedAssessment.percentage assessment))
         (Some (EnhancedAssessment.rubric_breakdown assessment))
         (Some (EnhancedAssessment.concept_analysis assessment))
         (Structured (EnhancedAssessment.feedback assessment))).

(** [q["awarded_score"] / q["marks_allocated"]] *)
Definition score_ratio (q : QuestionResult.t) : M Q :=
  truediv_m (QuestionResult.awarded_score q) (QuestionResult.marks_allocated q).

Definition _generate_overall_feedback (percentage : Q)
    (question_results : list QuestionResult.t) : M OverallFeedback.t :=
  let total_questions := len question_results in
  let attempted :=
    len (filter (fun q => 0 <? QuestionResult.awarded_score q)
           question_results) in
  let message :=
    if Qle_bool 85 percentage then
      "Outstanding performance! You demonstrated comprehensive understanding across all topics."
    else if Qle_bool 70 percentage then
      "Very good work! You showed strong grasp of most concepts."
    else if Qle_bool 60 percentage then
      "Good effort! You understood key concepts but could improve in some areas."
    else if Qle_bool 50 percentage then
      "Satisfactory performance. Review areas where you lost marks and strengthen your understanding."
    else
      "Your performance needs significant improvement. Please review all topics carefully." in
  strong_areas <-
    filter_m (fun q => r <- score_ratio q ;; ret (Qle_bool 0.75 r))
      question_results ;;
  weak_areas <-
    filter_m (fun q => r <- score_ratio q ;; ret (negb (Qle_bool 0.5 r)))
      question_results ;;
  ret (OverallFeedback.make message total_questions attempted percentage
         (slice_to strong_areas 3) (slice_to weak_areas 3) None).

(** The rubric scores of the results that carry a breakdown. *)
Definition rubric_scores (pick : RubricBreakdown.t -> RubricEntry.t)
    (question_results : list QuestionResult.t) : list Q :=
  flat_map
    (fun q =>
       match QuestionResult.rubric_breakdown q with
       | Some rb => [RubricEntry.score (pick rb)]
       | None => []
       end)
    question_results.

Definition _generate_overall_feedback_enhanced (percentage : Q)
    (question_results : list QuestionResult.t) : M OverallFeedback.t :=
  feedback <- _generate_overall_feedback percentage question_results ;;
  let accuracy_scores := rubric_scores RubricBreakdown.accuracy question_results in
  let completeness_scores :=
    rubric_scores RubricBreakdown.completeness question_results in
  let clarity_scores := rubric_scores RubricBreakdown.clarity question_results in
  match accuracy_scores with
  | [] => ret feedback
  | _ =>
      let mean (xs : list Q) := (sum_Q xs / inject_Z (len xs))%Q in
      ret (OverallFeedback.make
             (OverallFeedback.message feedback)
             (OverallFeedback.total_questions feedback)
             (OverallFeedback.attempted feedback)
             (OverallFeedback.percentage feedback)
             (OverallFeedback.strong_areas feedback)
             (OverallFeedback.weak_areas feedback)
             (Some (mean accuracy_scores, mean completeness_scores,
                    mean clarity_scores)))
  end.

(** [{ans["question_number"]: ans["answer"] for ans in answers}] *)
Definition answer_map_of (answers : list AnswerSubmission.t) : list (Z * string) :=
  Dict.comprehension Z.eqb AnswerSubmission.question_number
    AnswerSubmission.answer answers.

(** [answer_map.get(q_num, "").strip()] *)
Definition submitted_answer (answer_map : list (Z * string)) (q : Question.t)
  : string :=
  Str.strip
    match Dict.get Z.eqb answer_map (Question.question_number q) with
    | Some a => a
    | None => ""
    end.

(** The body of the grading loop; the accumulator is
    [(question_results, total_score)] and [score] is the scoring method. *)
Definition grade_step (score : Question.t -> string -> M QuestionResult.t)
    (answer_map : list (Z * string))
    (acc : list QuestionResult.t * Z) (q : Question.t)
  : M (list QuestionResult.t * Z) :=
  let (question_results, total_score) := acc in
  let student_answer := submitted_answer answer_map q in
  if Str.is_empty student_answer then
    ret (question_results ++ [_create_unanswered_result q], total_score)
  else
    result <- score q student_answer ;;
    ret (question_results ++ [result],
         total_score + QuestionResult.awarded_score result).

(** What the two graders share once [paper_details] is bound: the check
    that a paper was found, the grading loop, the totals and the result.
    The writes to the database in between are not modelled. *)
Definition grade_paper_with (score : Question.t -> string -> M QuestionResult.t)
    (overall : Q -> list QuestionResult.t -> M OverallFeedback.t)
    (paper_id : Z) (paper_details : option PaperDetails.t)
    (answers : list AnswerSubmission.t) : M PaperGradingResult.t :=
  match paper_details with
  | None =>
      raise (ValueError ("Paper " ++ Py.str_of_int paper_id ++ " not found"))
  | Some paper_details =>
      let answer_map := answer_map_of answers in
      '(question_results, total_score) <-
        for_each (PaperDetails.questions paper_details)
          (grade_step score answer_map) ([], 0) ;;
      let total_marks := PaperDetails.total_marks paper_details in
      let percentage :=
        if 0 <? total_marks then
          Float64.mul (Float64.truediv total_score total_marks)
            (Float64.of_int 100)
        else 0%Q in
      overall_feedback <- overall percentage question_results ;;
      ret (PaperGradingResult.make paper_id
             (PaperDetails.title paper_details)
             total_score total_marks
             (Float64.round_ndigits percentage 2)
             (assign_grade percentage)
             overall_feedback question_results)
  end.

(** Both graders start by fetching the paper; [paper] and
    [paper_questions] are what the database holds under [paper_id].  The
    handler [except Exception: ...; raise] passes every exception on. *)
Definition grade_paper_basic (paper_id : Z) (paper : option Paper.t)
    (paper_questions : list Question.t)
    (answers : list AnswerSubmission.t) : M PaperGradingResult.t :=
  paper_details <- get_paper_with_questions paper paper_questions ;;
  grade_paper_with _score_question_basic _generate_overall_feedback
    paper_id paper_details answers.

Definition grade_paper_enhanced (paper_id : Z) (paper : option Paper.t)
    (paper_questions : list Question.t)
    (answers : list AnswerSubmission.t)
    (rubric_weights : option (list (string * Q))) : M PaperGradingResult.t :=
  paper_details <- get_paper_with_questions paper paper_questions ;;
  grade_paper_with
    (fun q student_answer =>
       _score_question_enhanced q student_answer rubric_weights)
    _generate_overall_feedback_enhanced
    paper_id paper_details answers.


(* ------------------------------------------------------------------ *)
(** *** services/batch_service.py: process_single_model_batch *)

(** The loop body of [process_single_model_batch]. *)
Definition single_model_step (model_vec : Vec)
    (acc : list BatchAssessmentResult.t * Z) (item : StudentAnswerDict.t)
  : M (list BatchAssessmentResult.t * Z) :=
  let (results, total_score) := acc in
  let student_id :=
    match StudentAnswerDict.student_id item with
    | Some i => i
    | None => "unknown"
    end in
  let answer :=
    match StudentAnswerDict.answer item with
    | Some a => a
    | None => ""
    end in
  let max_score :=
    match StudentAnswerDict.max_score item with
    | Some m => m
    | None => 10
    end in
  if Str.is_empty (Str.strip answer) then
    ret (results ++
         [BatchAssessmentResult.make student_id 0.0%Q 0
            "Invalid answer: empty text provided"],
         total_score)
  else
    student_vec <- encode_text answer ;;
    let similarity := compute_similarity model_vec student_vec in
    let score := map_similarity_to_score similarity max_score in
    let feedback := generate_feedback similarity in
    ret (results ++
         [BatchAssessmentResult.make student_id
            (Py.round_ndigits similarity 3) score feedback],
         total_score + score).

Definition process_single_model_batch (model_answer : string)
    (student_answers : list StudentAnswerDict.t)
  : M (list BatchAssessmentResult.t * Q) :=
  model_vec <- encode_text model_answer ;;
  '(results, total_score) <-
    for_each student_answers (single_model_step model_vec) ([], 0) ;;
  let avg_score :=
    match results with
    | [] => 0.0%Q
    | _ => Float64.truediv total_score (Z.of_nat (List.length results))
    end in
  ret (results, Float64.round_ndigits avg_score 2).

(* ------------------------------------------------------------------ *)
(** *** services/analytics_service.py *)

Definition perform_enhanced_assessment (model_answer student_answer : string)
    (max_score : Z) (rubric_weights : option (list (string * Q)))
  : M EnhancedAssessment.t :=
  enhanced_assessment model_answer student_answer max_score rubric_weights.

Definition compare_assessment_methods (model_answer student_answer : string)
    (max_score : Z) : M MethodComparison.t :=
  model_vec <- encode_text model_answer ;;
  student_vec <- encode_text student_answer ;;
  let similarity := compute_similarity model_vec student_vec in
  let basic_score := map_similarity_to_score similarity max_score in
  let basic_feedback := generate_feedback similarity in
  enhanced_result <-
    enhanced_assessment model_answer student_answer max_score None ;;
  ret (MethodComparison.make basic_score max_score
         (Py.round_ndigits similarity 3) basic_feedback enhanced_result
         (EnhancedAssessment.awarded_score enhanced_result - basic_score)
         "Simple cosine similarity between full answers"
         "Multi-criteria rubric: accuracy, completeness, and clarity with key concept detection").

(* ------------------------------------------------------------------ *)
(** *** api/routes: the single-answer and the paper submission routes *)

Section Routes.

(** The route unpacks the service's dict into an [AssessmentResponse]:
    pydantic builds the response or fails to validate it.  The validator
    is external. *)
Variable validate_response : pyval -> option AssessmentResponse.t.

Definition assess_answer_endpoint (data : AnswerRequest.t)
  : Route AssessmentResponse.t :=
  if Str.is_empty (Str.strip (AnswerRequest.model_answer data)) then
    ([], HTTPException 400 (Message "model_answer cannot be empty"))
  else
    match assess_single_answer (AnswerRequest.model_answer data)
            (AnswerRequest.student_answer data) (AnswerRequest.max_score data)
    with
    | (log, inr result) =>
        match validate_response result with
        | Some response => (log, Ok200 response)
        | None => (log, HTTPException 500 StrOfValidationError)
        end
    | (log, inl e) => (log, HTTPException 500 (StrOf e))
    end.

End Routes.

(** [except ValueError] answers 404, any other exception 500. *)
Definition grading_response {A} (m : M A) : Route A :=
  match m with
  | (log, inr result) => (log, Ok200 result)
  | (log, inl (ValueError msg)) => (log, HTTPException 404 (StrOf (ValueError msg)))
  | (log, inl e) => (log, HTTPException 500 (StrOf e))
  end.

Definition submit_and_grade_paper (submission : PaperSubmitRequest.t)
    (paper : option Paper.t) (paper_questions : list Question.t)
  : Route PaperGradingResult.t :=
  let answers :=
    map (fun ans =>
           AnswerSubmission.make (AnswerSubmission.question_number ans)
             (AnswerSubmission.answer ans))
      (PaperSubmitRequest.answers submission) in
  grading_response
    (if PaperSubmitRequest.use_enhanced_scoring submission then
       grade_paper_enhanced (PaperSubmitRequest.paper_id submission)
         paper paper_questions answers
         (PaperSubmitRequest.rubric_weights submission)
     else
       grade_paper_basic (PaperSubmitRequest.paper_id submission)
         paper paper_questions answers).

(* ------------------------------------------------------------------ *)
(** *** crud/paper_crud.py: finalising and statistics *)

Definition finalize_paper_submission (submission_id : Z)
    (submission : option PaperSubmission.t) (total_score : Z)
    (overall_feedback : OverallFeedback.t) : M PaperSubmission.t :=
  match submission with
  | None =>
      raise (ValueError
               ("Submission " ++ Py.str_of_int submission_id ++ " not found"))
  | Some submission =>
      let percentage :=
        if 0 <? PaperSubmission.total_marks submission then
          Float64.mul
            (Float64.truediv total_score
               (PaperSubmission.total_marks submission))
            (Float64.of_int 100)
        else 0%Q in
      let grade := assign_grade percentage in
      ret (PaperSubmission.make (Some total_score)
             (PaperSubmission.total_marks submission)
             (Some (Float64.round_ndigits percentage 2))
             (Some grade) (Some overall_feedback))
  end.

Definition calculate_grade_distribution (submissions : list PaperSubmission.t)
  : list (option string * Z) :=
  fold_left
    (fun grades sub =>
       let grade := PaperSubmission.grade sub in
       Dict.set grade_eqb grades grade
         (match Dict.get grade_eqb grades grade with
          | Some n => n
          | None => 0
          end + 1))
    submissions [].

(** [[s.percentage for s in completed]], used in comparisons and sums: a
    NULL percentage raises TypeError there. *)
Fixpoint percentages_of (completed : list PaperSubmission.t) : M (list Q) :=
  match completed with
  | [] => ret []
  | s :: t =>
      match PaperSubmission.percentage s with
      | Some p => ps <- percentages_of t ;; ret (p :: ps)
      | None => raise TypeError
      end
  end.

Definition count_if {A} (p : A -> bool) (xs : list A) : Z := len (filter p xs).

Definition empty_statistics (paper_id : Z) (paper : Paper.t)
    (total pending : Z) : PaperStatistics.t :=
  PaperStatistics.make paper_id (Paper.title paper) (Paper.subject paper)
    (Paper.total_marks paper) total 0 pending 0 0 0 0 0 [] 0 0 0 0.

Definition get_paper_statistics (paper_id : Z) (paper : option Paper.t)
    (submissions : list PaperSubmission.t) : M (option PaperStatistics.t) :=
  match paper with
  | None => ret None
  | Some paper =>
      match submissions with
      | [] => ret (Some (empty_statistics paper_id paper 0 0))
      | _ =>
          let completed :=
            filter
              (fun s =>
                 match PaperSubmission.total_score s with
                 | Some _ => true
                 | None => false
                 end)
              submissions in
          let scores :=
            flat_map
              (fun s =>
                 match PaperSubmission.total_score s with
                 | Some x => [x]
                 | None => []
                 end)
              completed in
          match scores with
          | [] =>
              ret (Some (empty_statistics paper_id paper (len submissions)
                           (len submissions)))
          | first :: others =>
              percentages <- percentages_of completed ;;
              let excellent := count_if (fun p => Qle_bool 85 p) percentages in
              let good :=
                count_if (fun p => Qle_bool 70 p && negb (Qle_bool 85 p))
                  percentages in
              let satisfactory :=
                count_if (fun p => Qle_bool 50 p && negb (Qle_bool 70 p))
                  percentages in
              let needs_improvement :=
                count_if (fun p => negb (Qle_bool 50 p)) percentages in
              let sorted_scores := sorted scores in
              let n := List.length sorted_scores in
              median <-
                (if (n mod 2 =? 1)%nat then
                   m <- getitem sorted_scores (n / 2) ;; ret (inject_Z m)
                 else
                   a <- getitem sorted_scores (n / 2 - 1) ;;
                   b <- getitem sorted_scores (n / 2) ;;
                   ret (Py.truediv (a + b) 2)) ;;
              ret (Some
                     (PaperStatistics.make paper_id (Paper.title paper)
                        (Paper.subject paper) (Paper.total_marks paper)
                        (len submissions) (len completed)
                        (len submissions - len completed)
                        (Py.round_ndigits
                           (Py.truediv (sum_Z scores) (len scores)) 2)
                        (Py.round_ndigits
                           (sum_Q percentages / inject_Z (len percentages)) 2)
                        (max_of first others) (min_of first others)
                        (Py.round_ndigits median 2)
                        (calculate_grade_distribution completed)
                        excellent good satisfactory needs_improvement))
          end
      end
  end.


(** The keys of [{c: ... for c in l}] in insertion order: the first
    occurrence of each element of [l]. *)
Definition distinct_keys (l : list string) : list string :=
  fold_left
    (fun ks c => if existsb (String.eqb c) ks then ks else ks ++ [c]) l [].

(** What [match_concepts] computes for one concept, written without the
    loop: the row of similarities to the student's phrases, the first
    position of its largest entry, and the resulting match record. *)
Definition similarity_row (concept : string) (phrases : list string) : list Q :=
  map (fun y => cosine (model_encode concept) y) (map model_encode phrases).

Definition best_index (concept : string) (phrases : list string) : nat :=
  match similarity_row concept phrases with
  | [] => 0%nat
  | x :: t => argmax_from x 0 1 t
  end.

Definition best_score (concept : string) (phrases : list string) : Q :=
  nth (best_index concept phrases) (similarity_row concept phrases) 0%Q.

Definition concept_match_of (phrases : list string) (concept : string)
  : ConceptMatch.t :=
  let best := best_score concept phrases in
  ConceptMatch.make (Qle_bool concept_threshold best) best
    (if Qle_bool concept_threshold best
     then nth_error phrases (best_index concept phrases) else None).

(** Phrase extraction without the loop: the sentences of a text, and
    what one sentence contributes. *)
Definition sentences_of (text : string) : list string :=
  map Str.strip
    (filter (fun s => negb (Str.is_empty (Str.strip s)))
       (Str.split_on "." text)).

Definition phrases_of_sentence (min_words : Z) (sent : string) : list string :=
  (if Str.word_count sent <=? 15 then [sent] else [])
  ++ filter (fun p => min_words <=? Str.word_count p)
       (map Str.strip (Str.split_on "," sent)).

Definition unmatched : ConceptMatch.t := ConceptMatch.make false 0.0 None.

(** The dict [match_concepts] returns, and the encoder calls it makes. *)
Definition concept_matches_of (key_concepts : list string)
    (student_answer : string) : list (string * ConceptMatch.t) :=
  let phrases := extract_key_phrases student_answer 2 in
  Dict.comprehension String.eqb (fun c => c)
    (match phrases with
     | [] => fun _ => unmatched
     | _ => concept_match_of phrases
     end)
    key_concepts.

Definition match_calls (key_concepts : list string) (student_answer : string)
  : list call :=
  match key_concepts, extract_key_phrases student_answer 2 with
  | [], _ | _, [] => []
  | _, phrases => [EncodeTexts key_concepts; EncodeTexts phrases]
  end.

(** The two ingredients of the completeness score. *)
Definition length_ratio_of (model_answer student_answer : string) : Q :=
  if 0 <? Str.word_count model_answer then
    Qmin (Py.truediv (Str.word_count student_answer)
            (Str.word_count model_answer)) 1.0
  else 0.0%Q.

Definition concept_coverage_of (model_answer student_answer : string) : Q :=
  let key_concepts := identify_key_concepts model_answer 5 in
  match key_concepts with
  | [] => 0.0%Q
  | _ =>
      Py.truediv (matched_count (concept_matches_of key_concepts student_answer))
        (len key_concepts)
  end.



(** The result that the batch services record for one item, and the
    encoder calls they make for it. *)
Definition blank (text : string) : bool := Str.is_empty (Str.strip text).

Definition invalid_result (student_id : string) : BatchAssessmentResult.t :=
  BatchAssessmentResult.make student_id 0.0%Q 0
    "Invalid answer: empty text provided".

Definition scored_result (student_id model_answer student_answer : string)
    (max_score : Z) : BatchAssessmentResult.t :=
  let similarity :=
    compute_similarity (model_encode model_answer)
      (model_encode student_answer) in
  BatchAssessmentResult.make student_id (Py.round_ndigits similarity 3)
    (map_similarity_to_score similarity max_score)
    (generate_feedback similarity).

Definition batch_entry (item : BatchAnswerItem.t) : BatchAssessmentResult.t :=
  if blank (BatchAnswerItem.model_answer item)
     || blank (BatchAnswerItem.student_answer item)
  then invalid_result (BatchAnswerItem.student_id item)
  else scored_result (BatchAnswerItem.student_id item)
         (BatchAnswerItem.model_answer item)
         (BatchAnswerItem.student_answer item)
         (BatchAnswerItem.max_score item).

Definition batch_calls (item : BatchAnswerItem.t) : list call :=
  if blank (BatchAnswerItem.model_answer item)
     || blank (BatchAnswerItem.student_answer item)
  then []
  else [EncodeText (BatchAnswerItem.model_answer item);
        EncodeText (BatchAnswerItem.student_answer item)].

(** A dict of a single-model batch read as an item of the general batch,
    with the defaults of the [get] calls. *)
Definition as_batch_item (model_answer : string) (item : StudentAnswerDict.t)
  : BatchAnswerItem.t :=
  BatchAnswerItem.make
    match StudentAnswerDict.student_id item with
    | Some i => i
    | None => "unknown"
    end
    model_answer
    match StudentAnswerDict.answer item with
    | Some a => a
    | None => ""
    end
    match StudentAnswerDict.max_score item with
    | Some m => m
    | None => 10
    end.

Definition single_entry (model_answer : string) (item : StudentAnswerDict.t)
  : BatchAssessmentResult.t :=
  let item := as_batch_item model_answer item in
  if blank (BatchAnswerItem.student_answer item)
  then invalid_result (BatchAnswerItem.student_id item)
  else scored_result (BatchAnswerItem.student_id item) model_answer
         (BatchAnswerItem.student_answer item)
         (BatchAnswerItem.max_score item).

Definition single_calls (item : StudentAnswerDict.t) : list call :=
  match StudentAnswerDict.answer item with
  | Some a => if blank a then [] else [EncodeText a]
  | None => []
  end.

(** [round(total / len(results), 2)], or 0.0 for no result. *)
Definition batch_average (results : list BatchAssessmentResult.t) : Q :=
  Float64.round_ndigits
    match results with
    | [] => 0.0%Q
    | _ =>
        Float64.truediv
          (sum_Z (map BatchAssessmentResult.awarded_score results))
          (len results)
    end 2.

(** The weighted total that the rubric scorer computes with the default
    weights. *)
Definition default_total (model_answer student_answer : string) : Q :=
  (Qmax 0.0
     (Qmin 1.0
        (cosine (model_encode model_answer) (model_encode student_answer)))
   * 0.5
   + (length_ratio_of model_answer student_answer * 0.3
      + concept_coverage_of model_answer student_answer * 0.7) * 0.35
   + Clarity.score (score_clarity student_answer) * 0.15)%Q.

(** The number of submissions that carry a given grade. *)
Definition count_grade (grade : option string)
    (submissions : list PaperSubmission.t) : Z :=
  count_if (fun s => grade_eqb grade (PaperSubmission.grade s)) submissions.

(** A string all of whose characters are white space. *)
Fixpoint all_space (s : string) : bool :=
  match s with
  | EmptyString => true
  | String c r => Str.is_space c && all_space r
  end.


(* ================================================================== *)
(** * Properties *)
(* ================================================================== *)


Lemma Qle_bool_false (x y : Q) : Qle_bool x y = false <-> (y < x)%Q.
Proof.
  split; intros H.
  - apply Qnot_le_lt. intros Hle. apply Qle_bool_iff in Hle. congruence.
  - destruct (Qle_bool x y) eqn:E; [|reflexivity].
    apply Qle_bool_iff in E. exfalso. apply (Qlt_not_le _ _ H E).
Qed.

(* ------------------------------------------------------------------ *)
(** ** Rounding to an integer *)

Lemma inject_Z_pos (b : Z) : 0 < b -> (0 < inject_Z b)%Q.
Proof. intros H. unfold Qlt. cbn. lia. Qed.

Lemma inject_Z_nonneg (a : Z) : 0 <= a -> (0 <= inject_Z a)%Q.
Proof. intros H. unfold Qle. cbn. lia. Qed.

Lemma inject_Z_le (a b : Z) : a <= b -> (inject_Z a <= inject_Z b)%Q.
Proof. intros H. unfold Qle. cbn. lia. Qed.

Lemma inject_Z_lt (a b : Z) : a < b -> (inject_Z a < inject_Z b)%Q.
Proof. intros H. unfold Qlt. cbn. lia. Qed.

Lemma round_cases (x : Q) :
  let f := Qfloor x in
  (Py.round x = f /\ (x - inject_Z f <= 1 # 2)%Q) \/
  (Py.round x = f + 1 /\ (1 # 2 <= x - inject_Z f)%Q).
Proof.
  cbv zeta. unfold Py.round.
  destruct (Qcompare_spec (x - inject_Z (Qfloor x)) (1 # 2)) as [H|H|H].
  - destruct (Z.even (Qfloor x)); [left | right]; split; try reflexivity;
      rewrite H; apply Qle_refl.
  - left. split; [reflexivity | now apply Qlt_le_weak].
  - right. split; [reflexivity | now apply Qlt_le_weak].
Qed.

Lemma round_Z (n : Z) : Py.round (inject_Z n) = n.
Proof.
  unfold Py.round. rewrite Qfloor_Z.
  assert (H : (inject_Z n - inject_Z n == 0)%Q) by ring.
  rewrite (Qcompare_comp _ _ H (1 # 2) (1 # 2) (Qeq_refl _)).
  reflexivity.
Qed.

Lemma round_mono (x y : Q) : (x <= y)%Q -> Py.round x <= Py.round y.
Proof.
  intros Hxy.
  assert (Hf := Qfloor_resp_le x y Hxy).
  destruct (Z.eq_dec (Qfloor x) (Qfloor y)) as [E|E].
  - unfold Py.round. rewrite <- E.
    destruct (Qcompare_spec (x - inject_Z (Qfloor x)) (1 # 2)) as [Hx|Hx|Hx];
    destruct (Qcompare_spec (y - inject_Z (Qfloor x)) (1 # 2)) as [Hy|Hy|Hy];
    destruct (Z.even (Qfloor x)); try lia; exfalso; lra.
  - destruct (round_cases x) as [[-> _]|[-> _]];
    destruct (round_cases y) as [[-> _]|[-> _]]; lia.
Qed.

Lemma round_error (y : Q) :
  (inject_Z (Py.round y) - (1 # 2) <= y <= inject_Z (Py.round y) + (1 # 2))%Q.
Proof.
  assert (Hlo := Qfloor_le y). assert (Hhi := Qlt_floor y).
  rewrite inject_Z_plus in Hhi. change (inject_Z 1) with 1%Q in Hhi.
  destruct (round_cases y) as [[-> H]|[-> H]].
  - split; lra.
  - rewrite inject_Z_plus. change (inject_Z 1) with 1%Q. split; lra.
Qed.

Lemma int_floor (x : Q) : (0 <= x)%Q -> Py.int x = Qfloor x.
Proof.
  intros H. destruct x as [p q]. unfold Py.int, Qfloor. cbn [Qnum Qden].
  apply Z.quot_div_nonneg; [unfold Qle in H; cbn in H; lia | lia].
Qed.


(* ------------------------------------------------------------------ *)
(** ** Binary64: error bounds *)

Lemma pow2_pos (e : Z) : (0 < 2 ^ e)%Q.
Proof. apply Qpower_0_lt. reflexivity. Qed.

Lemma pow2_inject (n : Z) : 0 <= n -> (2 ^ n == inject_Z (2 ^ n))%Q.
Proof. intros H. symmetry. apply (Zpower_Qpower 2 n H). Qed.

Lemma pow2_double (e : Z) : (2 ^ e == 2 * 2 ^ (e - 1))%Q.
Proof.
  replace e with (1 + (e - 1)) at 1 by lia.
  rewrite Qpower_plus by discriminate. reflexivity.
Qed.

Lemma exponent_le (x : Q) : (0 < x)%Q -> (2 ^ Float64.exponent x <= x)%Q.
Proof.
  intros Hx. unfold Float64.exponent.
  set (e := Z.log2 (Qnum x) - Z.log2 (Z.pos (Qden x))).
  destruct (Qle_bool (2 ^ e) x) eqn:E; [now apply Qle_bool_iff in E|].
  destruct x as [p q]. cbn [Qnum Qden] in *.
  assert (Hp : 0 < p) by (unfold Qlt in Hx; cbn in Hx; lia).
  assert (Hlp := Z.log2_spec p Hp).
  assert (Hlq := Z.log2_spec (Z.pos q) ltac:(lia)).
  assert (Lp := Z.log2_nonneg p). assert (Lq := Z.log2_nonneg (Z.pos q)).
  unfold e. replace (Z.log2 p - Z.log2 (Z.pos q) - 1)
    with (Z.log2 p - (Z.log2 (Z.pos q) + 1)) by lia.
  rewrite Qpower_minus by discriminate.
  rewrite !pow2_inject by lia.
  rewrite (Qmake_Qdiv p q).
  apply Qle_shift_div_r; [apply inject_Z_pos; lia|].
  unfold Qdiv. rewrite <- Qmult_assoc, (Qmult_comm (/ _)), Qmult_assoc.
  apply Qle_shift_div_l; [apply inject_Z_pos; lia|].
  rewrite <- !inject_Z_mult. apply inject_Z_le. nia.
Qed.

Lemma nearest_error (x : Q) :
  (0 < x)%Q ->
  (x - 2 ^ (Float64.exponent x - 53) <= Float64.nearest x
   <= x + 2 ^ (Float64.exponent x - 53))%Q.
Proof.
  intros Hx. unfold Float64.nearest.
  set (e := Float64.exponent x).
  assert (Hu := pow2_pos (e - 52)).
  assert (Hd : (2 ^ (e - 52) == 2 * 2 ^ (e - 53))%Q).
  { rewrite (pow2_double (e - 52)). now replace (e - 52 - 1) with (e - 53) by lia. }
  set (u := (2 ^ (e - 52))%Q) in *. set (h := (2 ^ (e - 53))%Q) in *.
  assert (Hr := round_error (x / u)).
  set (r := inject_Z (Py.round (x / u))) in *.
  assert (Hxu : (x == (x / u) * u)%Q).
  { field. intros H. rewrite H in Hu. discriminate. }
  set (y := (x / u)%Q) in *.
  destruct Hr as [Hr1 Hr2].
  assert (A : ((r - (1#2)) * u <= y * u)%Q)
    by (apply Qmult_le_compat_r; [exact Hr1 | now apply Qlt_le_weak]).
  assert (B : (y * u <= (r + (1#2)) * u)%Q)
    by (apply Qmult_le_compat_r; [exact Hr2 | now apply Qlt_le_weak]).
  rewrite <- Hxu in A, B.
  assert (E1 : ((r - (1 # 2)) * u == r * u - h)%Q) by (rewrite Hd; ring).
  assert (E2 : ((r + (1 # 2)) * u == r * u + h)%Q) by (rewrite Hd; ring).
  rewrite E1 in A. rewrite E2 in B. split; lra.
Qed.

Lemma half_ulp_le (x : Q) :
  (0 < x)%Q -> (2 ^ (Float64.exponent x - 53) <= x * Float64.eps)%Q.
Proof.
  intros Hx. assert (H := exponent_le x Hx).
  rewrite Qpower_minus by discriminate.
  unfold Qdiv. change (/ 2 ^ 53)%Q with Float64.eps.
  apply Qmult_le_compat_r; [exact H | discriminate].
Qed.

Lemma b64_pos_eq (x : Q) : (0 < x)%Q -> Float64.b64 x = Float64.nearest x.
Proof.
  intros Hx. unfold Float64.b64. destruct x as [[|p|p] q]; try reflexivity;
    unfold Qlt in Hx; cbn in Hx; lia.
Qed.

Lemma b64_relative (x : Q) :
  (0 < x)%Q -> (x * (1 - Float64.eps) <= Float64.b64 x <= x * (1 + Float64.eps))%Q.
Proof.
  intros Hx. rewrite (b64_pos_eq x Hx).
  assert (H := nearest_error x Hx). assert (H' := half_ulp_le x Hx).
  split; lra.
Qed.

Lemma exponent_small (x : Q) :
  (0 < x)%Q -> (x < inject_Z (2 ^ 53))%Q -> Float64.exponent x <= 52.
Proof.
  intros Hx Hlt. assert (H := exponent_le x Hx).
  rewrite <- (pow2_inject 53) in Hlt by lia.
  assert (L : (2 ^ Float64.exponent x < 2 ^ 53)%Q) by (eapply Qle_lt_trans; eauto).
  apply Qpower_lt_compat_l_inv in L; [lia | reflexivity].
Qed.

Lemma nearest_fence (x : Q) (n : Z) :
  (0 < x)%Q -> (x < inject_Z (2 ^ 53))%Q ->
  ((inject_Z n <= x)%Q -> (inject_Z n <= Float64.nearest x)%Q) /\
  ((x <= inject_Z n)%Q -> (Float64.nearest x <= inject_Z n)%Q).
Proof.
  intros Hx Hlt. assert (He := exponent_small x Hx Hlt).
  unfold Float64.nearest. set (e := Float64.exponent x) in *.
  set (k := 52 - e).
  assert (Hu := pow2_pos (e - 52)).
  assert (HP : (0 < inject_Z (2 ^ k))%Q)
    by (apply inject_Z_pos, Z.pow_pos_nonneg; lia).
  assert (Huk : (2 ^ (e - 52) == / inject_Z (2 ^ k))%Q).
  { replace (e - 52) with (- k) by lia.
    rewrite Qpower_opp, pow2_inject by lia. reflexivity. }
  set (u := (2 ^ (e - 52))%Q) in *. set (P := inject_Z (2 ^ k)) in *.
  assert (HPu : (P * u == 1)%Q).
  { rewrite Huk. apply Qmult_inv_r. intros H. rewrite H in HP. discriminate. }
  assert (Hscale : (inject_Z (n * 2 ^ k) == inject_Z n / u)%Q).
  { rewrite inject_Z_mult. fold P. rewrite Huk. unfold Qdiv.
    now rewrite Qinv_involutive. }
  assert (Hback : (inject_Z (n * 2 ^ k) * u == inject_Z n)%Q).
  { rewrite inject_Z_mult. fold P. rewrite <- Qmult_assoc, HPu. ring. }
  assert (Hiu : (0 <= / u)%Q) by (apply Qlt_le_weak, Qinv_lt_0_compat, Hu).
  split; intros H.
  - rewrite <- Hback. apply Qmult_le_compat_r; [|now apply Qlt_le_weak].
    apply inject_Z_le. rewrite <- (round_Z (n * 2 ^ k)).
    apply round_mono. rewrite Hscale. unfold Qdiv.
    now apply Qmult_le_compat_r.
  - rewrite <- Hback. apply Qmult_le_compat_r; [|now apply Qlt_le_weak].
    apply inject_Z_le. rewrite <- (round_Z (n * 2 ^ k)).
    apply round_mono. rewrite Hscale. unfold Qdiv.
    now apply Qmult_le_compat_r.
Qed.

Lemma b64_zero (x : Q) : (x == 0)%Q -> Float64.b64 x = 0%Q.
Proof.
  intros H. unfold Float64.b64. destruct x as [[|p|p] q]; try reflexivity;
    unfold Qeq in H; cbn in H; lia.
Qed.

(** Between two integers below 2^53 the nearest double stays between
    them. *)
Lemma b64_between (x : Q) (lo hi : Z) :
  0 <= lo -> hi < 2 ^ 53 ->
  (inject_Z lo <= x <= inject_Z hi)%Q ->
  (inject_Z lo <= Float64.b64 x <= inject_Z hi)%Q.
Proof.
  intros Hlo Hhi [H1 H2].
  assert (L0 : (0 <= inject_Z lo)%Q) by (apply (inject_Z_le 0), Hlo).
  destruct (Qlt_le_dec 0 x) as [Hx|Hx].
  - rewrite (b64_pos_eq x Hx).
    assert (Hlt : (x < inject_Z (2 ^ 53))%Q).
    { eapply Qle_lt_trans; [exact H2|]. now apply inject_Z_lt. }
    destruct (nearest_fence x lo Hx Hlt) as [F1 _].
    destruct (nearest_fence x hi Hx Hlt) as [_ F2]. auto.
  - assert (E : (x == 0)%Q) by lra. rewrite (b64_zero x E). split; lra.
Qed.

Lemma b64_int (n : Z) :
  0 <= n < 2 ^ 53 -> (Float64.b64 (inject_Z n) == inject_Z n)%Q.
Proof.
  intros [H0 H1].
  destruct (b64_between (inject_Z n) n n H0 H1) as [A B];
    [split; apply Qle_refl|]. lra.
Qed.


(* ------------------------------------------------------------------ *)
(** ** The products [0.7 * max_score] and [0.4 * max_score] *)

Lemma lit_07 : (Float64.lit 0.7 == 3152519739159347 # 4503599627370496)%Q.
Proof. unfold Qeq. vm_compute. reflexivity. Qed.

Lemma lit_04 : (Float64.lit 0.4 == 3602879701896397 # 9007199254740992)%Q.
Proof. unfold Qeq. vm_compute. reflexivity. Qed.

(** The product [c * m] as the interpreter computes it, for a literal [c]
    whose double is [v]: within two roundings of [v * m]. *)
Lemma product_bounds (c v : Q) (m : Z) :
  (Float64.lit c == v)%Q -> (0 < v)%Q -> 0 < m ->
  let p := Float64.mul (Float64.lit c) (Float64.of_int m) in
  (v * inject_Z m * (1 - Float64.eps) * (1 - Float64.eps) <= p
   <= v * inject_Z m * (1 + Float64.eps) * (1 + Float64.eps))%Q.
Proof.
  intros Hc Hv Hm. cbv zeta. unfold Float64.mul, Float64.of_int.
  assert (Im : (0 < inject_Z m)%Q) by now apply inject_Z_pos.
  assert (HM := b64_relative (inject_Z m) Im).
  set (M := Float64.b64 (inject_Z m)) in *.
  assert (M0 : (0 < M)%Q).
  { eapply Qlt_le_trans; [|apply HM].
    apply Qmult_lt_0_compat; [exact Im | reflexivity]. }
  assert (Y0 : (0 < Float64.lit c * M)%Q).
  { rewrite Hc. now apply Qmult_lt_0_compat. }
  assert (HF := b64_relative _ Y0).
  set (F := Float64.b64 (Float64.lit c * M)) in *.
  rewrite Hc in HF.
  assert (A : (v * (inject_Z m * (1 - Float64.eps)) <= v * M)%Q).
  { rewrite !(Qmult_comm v). apply Qmult_le_compat_r; [apply HM|].
    now apply Qlt_le_weak. }
  assert (B : (v * M <= v * (inject_Z m * (1 + Float64.eps)))%Q).
  { rewrite !(Qmult_comm v). apply Qmult_le_compat_r; [apply HM|].
    now apply Qlt_le_weak. }
  assert (A' : (v * (inject_Z m * (1 - Float64.eps)) * (1 - Float64.eps)
                <= v * M * (1 - Float64.eps))%Q)
    by (apply Qmult_le_compat_r; [exact A | discriminate]).
  assert (B' : (v * M * (1 + Float64.eps)
                <= v * (inject_Z m * (1 + Float64.eps)) * (1 + Float64.eps))%Q)
    by (apply Qmult_le_compat_r; [exact B | discriminate]).
  split.
  - eapply Qle_trans; [|apply HF]. eapply Qle_trans; [|exact A'].
    apply Qle_lteq; right. ring.
  - eapply Qle_trans; [apply HF|]. eapply Qle_trans; [exact B'|].
    apply Qle_lteq; right. ring.
Qed.

Lemma band_zero (c : Q) : Float64.int_mul c 0 = 0.
Proof.
  unfold Float64.int_mul, Float64.mul, Float64.of_int.
  rewrite (b64_zero (inject_Z 0)) by reflexivity.
  rewrite (b64_zero (Float64.lit c * 0)) by ring. reflexivity.
Qed.

Lemma band_values (m : Z) :
  0 <= m ->
  0 <= Float64.int_mul 0.4 m <= Float64.int_mul 0.7 m /\
  Float64.int_mul 0.7 m <= m /\
  (0 < m -> Float64.int_mul 0.7 m < m).
Proof.
  intros Hm. destruct (Z.eq_dec m 0) as [->|Hne].
  { rewrite !band_zero. lia. }
  assert (Hpos : 0 < m) by lia.
  assert (Im : (0 < inject_Z m)%Q) by now apply inject_Z_pos.
  destruct (product_bounds 0.7 _ m lit_07 eq_refl Hpos) as [L7 U7].
  destruct (product_bounds 0.4 _ m lit_04 eq_refl Hpos) as [L4 U4].
  cbv zeta in *. unfold Float64.int_mul.
  set (p7 := Float64.mul (Float64.lit 0.7) (Float64.of_int m)) in *.
  set (p4 := Float64.mul (Float64.lit 0.4) (Float64.of_int m)) in *.
  unfold Float64.eps in *.
  assert (P4 : (0 <= p4)%Q) by lra.
  assert (P7 : (0 <= p7)%Q) by lra.
  assert (P47 : (p4 <= p7)%Q) by lra.
  assert (P7m : (p7 < inject_Z m)%Q) by lra.
  rewrite !int_floor by assumption.
  assert (F7 : Qfloor p7 < m).
  { assert (A := Qfloor_le p7).
    assert (B : (inject_Z (Qfloor p7) < inject_Z m)%Q)
      by (eapply Qle_lt_trans; eauto).
    now rewrite <- Zlt_Qlt in B. }
  assert (F4 : 0 <= Qfloor p4).
  { assert (A := Qfloor_resp_le _ _ P4). exact A. }
  assert (F47 := Qfloor_resp_le _ _ P47).
  lia.
Qed.





(* ------------------------------------------------------------------ *)
(** ** The monad *)

Lemma bind_ret_l {A B} (a : A) (k : A -> M B) : bind (ret a) k = k a.
Proof. unfold bind, ret. destruct (k a); reflexivity. Qed.

Lemma bind_value {A B} (m : M A) (k : A -> M B) log a :
  m = (log, inr a) -> bind m k = (log ++ fst (k a), snd (k a)).
Proof. intros ->. unfold bind. destruct (k a); reflexivity. Qed.

Lemma getitem_some {A} (l : list A) i x :
  nth_error l i = Some x -> getitem l i = ret x.
Proof. unfold getitem. now intros ->. Qed.

(* ------------------------------------------------------------------ *)
(** ** Dictionaries built by comprehension *)

Section DictFacts.
Context {A : Type}.
Variable g : string -> A.

Let entry (c : string) : string * A := (c, g c).

Lemma set_known (ks : list string) (c : string) :
  Dict.set String.eqb (map entry ks) c (g c)
  = map entry (if existsb (String.eqb c) ks then ks else ks ++ [c]).
Proof.
  induction ks as [|k ks IH]; cbn; [reflexivity|].
  destruct (String.eqb c k) eqn:E; cbn.
  - apply String.eqb_eq in E. now subst.
  - rewrite IH. now destruct (existsb (String.eqb c) ks).
Qed.

Lemma comprehension_from (l ks : list string) :
  fold_left (fun d c => Dict.set String.eqb d c (g c)) l (map entry ks)
  = map entry
      (fold_left
         (fun ks c => if existsb (String.eqb c) ks then ks else ks ++ [c])
         l ks).
Proof.
  revert ks. induction l as [|c l IH]; intros ks; cbn; [reflexivity|].
  now rewrite set_known, IH.
Qed.

Lemma comprehension_distinct (l : list string) :
  Dict.comprehension String.eqb (fun c => c) g l
  = map entry (distinct_keys l).
Proof. apply (comprehension_from l []). Qed.

Lemma get_entries (ks : list string) (c : string) :
  Dict.get String.eqb (map entry ks) c
  = if existsb (String.eqb c) ks then Some (g c) else None.
Proof.
  induction ks as [|k ks IH]; cbn; [reflexivity|].
  destruct (String.eqb c k) eqn:E; cbn; [|exact IH].
  apply String.eqb_eq in E. now subst.
Qed.

End DictFacts.

Lemma existsb_eqb_In (c : string) (ks : list string) :
  existsb (String.eqb c) ks = true <-> In c ks.
Proof.
  rewrite existsb_exists. split.
  - intros (x & Hx & E). apply String.eqb_eq in E. now subst.
  - intros H. exists c. split; [exact H | apply String.eqb_refl].
Qed.

Lemma distinct_from_In (l ks : list string) (c : string) :
  In c (fold_left
          (fun ks c => if existsb (String.eqb c) ks then ks else ks ++ [c])
          l ks)
  <-> In c ks \/ In c l.
Proof.
  revert ks. induction l as [|x l IH]; intros ks; cbn.
  - tauto.
  - rewrite IH. destruct (existsb (String.eqb x) ks) eqn:E.
    + apply existsb_eqb_In in E. split; [tauto|].
      intros [H|[H|H]]; subst; tauto.
    + rewrite in_app_iff. cbn. tauto.
Qed.

Lemma distinct_keys_In (l : list string) (c : string) :
  In c (distinct_keys l) <-> In c l.
Proof. unfold distinct_keys. rewrite distinct_from_In. cbn. tauto. Qed.

Lemma get_comprehension {A} (g : string -> A) (l : list string) (c : string) :
  In c l ->
  Dict.get String.eqb (Dict.comprehension String.eqb (fun c => c) g l) c
  = Some (g c).
Proof.
  intros H. rewrite comprehension_distinct, get_entries.
  apply distinct_keys_In, existsb_eqb_In in H. now rewrite H.
Qed.

(* ------------------------------------------------------------------ *)
(** ** argmax *)

Lemma argmax_from_spec (row pre : list Q) (best : Q) (best_idx idx : nat) :
  List.length pre = idx ->
  nth_error pre best_idx = Some best ->
  (forall y, In y pre -> (y <= best)%Q) ->
  exists b,
    nth_error (pre ++ row) (argmax_from best best_idx idx row) = Some b /\
    forall y, In y (pre ++ row) -> (y <= b)%Q.
Proof.
  revert pre best best_idx idx.
  induction row as [|x t IH]; intros pre best best_idx idx Hlen Hbest Hmax.
  - cbn. rewrite app_nil_r. eauto.
  - cbn [argmax_from].
    replace (pre ++ x :: t) with ((pre ++ [x]) ++ t)
      by (now rewrite <- app_assoc).
    destruct (Qle_bool x best) eqn:E.
    + apply Qle_bool_iff in E. apply IH.
      * rewrite length_app. cbn. lia.
      * rewrite nth_error_app1; [exact Hbest|].
        apply nth_error_Some. congruence.
      * intros y Hy. apply in_app_iff in Hy. destruct Hy as [Hy|[<-|[]]]; auto.
    + apply Qle_bool_false in E. apply IH.
      * rewrite length_app. cbn. lia.
      * rewrite nth_error_app2 by lia. subst idx.
        now rewrite Nat.sub_diag.
      * intros y Hy. apply in_app_iff in Hy. destruct Hy as [Hy|[<-|[]]].
        -- apply Qlt_le_weak. eapply Qle_lt_trans; [apply Hmax, Hy | exact E].
        -- apply Qle_refl.
Qed.

Lemma argmax_spec (x : Q) (t : list Q) :
  exists b,
    nth_error (x :: t) (argmax_from x 0 1 t) = Some b /\
    forall y, In y (x :: t) -> (y <= b)%Q.
Proof.
  apply (argmax_from_spec t [x] x 0 1); try reflexivity.
  intros y [<-|[]]. apply Qle_refl.
Qed.

(* ------------------------------------------------------------------ *)
(** ** Concept matching *)

Lemma similarity_row_length concept phrases :
  List.length (similarity_row concept phrases) = List.length phrases.
Proof. unfold similarity_row. now rewrite !length_map. Qed.

(** The best score is attained by the phrase at the best index and bounds
    the similarity to every phrase. *)
Lemma best_score_spec (concept : string) (phrases : list string) :
  phrases <> [] ->
  exists p,
    nth_error phrases (best_index concept phrases) = Some p /\
    nth_error (similarity_row concept phrases) (best_index concept phrases)
    = Some (best_score concept phrases) /\
    best_score concept phrases
    = cosine (model_encode concept) (model_encode p) /\
    forall p', In p' phrases ->
      (cosine (model_encode concept) (model_encode p')
       <= best_score concept phrases)%Q.
Proof.
  intros Hne. unfold best_score, best_index.
  destruct (similarity_row concept phrases) as [|x t] eqn:Erow.
  - apply (f_equal (@List.length Q)) in Erow.
    rewrite similarity_row_length in Erow.
    destruct phrases; [congruence | discriminate].
  - destruct (argmax_spec x t) as (b & Hb & Hmax).
    set (i := argmax_from x 0 1 t) in *.
    assert (Hlt : (i < List.length phrases)%nat).
    { rewrite <- similarity_row_length with (concept := concept), Erow.
      apply nth_error_Some. congruence. }
    destruct (nth_error phrases i) as [p|] eqn:Ep;
      [|apply nth_error_None in Ep; lia].
    exists p. rewrite (nth_error_nth _ _ 0%Q Hb).
    assert (Hbp : b = cosine (model_encode concept) (model_encode p)).
    { rewrite <- Erow in Hb. unfold similarity_row in Hb.
      rewrite map_map in Hb.
      rewrite (map_nth_error _ _ _ Ep) in Hb. congruence. }
    repeat split; auto.
    intros p' Hp'. apply Hmax. rewrite <- Erow. unfold similarity_row.
    rewrite map_map. apply in_map_iff. eauto.
Qed.

Lemma match_step_run (matrix : list (list Q)) (phrases : list string)
    (acc : list (string * ConceptMatch.t)) (i : nat) (concept : string) :
  phrases <> [] ->
  nth_error matrix i = Some (similarity_row concept phrases) ->
  match_step matrix phrases acc (i, concept)
  = ret (Dict.set String.eqb acc concept (concept_match_of phrases concept)).
Proof.
  intros Hne Hrow.
  destruct (best_score_spec concept phrases Hne) as (p & Hp & Hb & _ & _).
  unfold match_step. rewrite (getitem_some _ _ _ Hrow), bind_ret_l.
  assert (Harg : argmax (similarity_row concept phrases)
                 = ret (best_index concept phrases)).
  { unfold argmax, best_index.
    destruct (similarity_row concept phrases) eqn:Erow; [|reflexivity].
    now rewrite nth_error_nil in Hb. }
  rewrite Harg, bind_ret_l, (getitem_some _ _ _ Hb), bind_ret_l.
  unfold concept_match_of.
  destruct (Qle_bool concept_threshold (best_score concept phrases)).
  - now rewrite (getitem_some _ _ _ Hp), !bind_ret_l, Hp.
  - now rewrite bind_ret_l.
Qed.

Lemma match_loop_run (matrix : list (list Q)) (phrases : list string)
    (l : list string) (k : nat) (acc : list (string * ConceptMatch.t)) :
  phrases <> [] ->
  (forall j c, nth_error l j = Some c ->
     nth_error matrix (k + j) = Some (similarity_row c phrases)) ->
  for_each (combine (seq k (List.length l)) l) (match_step matrix phrases) acc
  = ret (fold_left
           (fun d c => Dict.set String.eqb d c (concept_match_of phrases c))
           l acc).
Proof.
  intros Hne. revert k acc.
  induction l as [|c l IH]; intros k acc Hrows;
    cbn [combine seq List.length for_each fold_left]; [reflexivity|].
  rewrite (match_step_run _ _ _ _ _ Hne); [|].
  - rewrite bind_ret_l. apply IH. intros j c' Hj.
    replace (S k + j)%nat with (k + S j)%nat by lia. now apply Hrows.
  - specialize (Hrows 0%nat c eq_refl). now rewrite Nat.add_0_r in Hrows.
Qed.

(** [match_concepts] always returns.  With no student phrase it calls no
    encoder; otherwise it encodes the concepts and the phrases in two
    batches, and in both cases the dict is the comprehension over the
    concepts. *)
Lemma match_concepts_run (key_concepts : list string) (student_answer : string) :
  match_concepts key_concepts student_answer
  = (match_calls key_concepts student_answer,
     inr (concept_matches_of key_concepts student_answer)).
Proof.
  unfold match_concepts, match_calls, concept_matches_of.
  destruct key_concepts as [|c0 kc]; [reflexivity|].
  destruct (extract_key_phrases student_answer 2) as [|p0 ps] eqn:Ep;
    [reflexivity|].
  set (kcs := c0 :: kc). set (phrases := p0 :: ps).
  unfold encode_texts, bind.
  rewrite (match_loop_run _ phrases kcs 0 []).
  - reflexivity.
  - discriminate.
  - intros j c Hj. cbn [Nat.add]. unfold cosine_similarity.
    rewrite map_map. now rewrite (map_nth_error _ _ _ Hj).
Qed.

(** C5: for a non-empty list of key concepts [match_concepts] returns a
    dict in which, when the answer yields no phrase, every concept is
    unmatched with score 0 and no phrase; and otherwise every concept is
    paired with a student phrase whose cosine similarity to it is the
    largest over all student phrases, is matched exactly when that largest
    similarity is at least 0.65, and carries the phrase only when matched. *)
Theorem C5_match_concepts (key_concepts : list string) (student_answer : string)
    (Hne : key_concepts <> []) :
  let phrases := extract_key_phrases student_answer 2 in
  exists results,
    outcome (match_concepts key_concepts student_answer) = inr results /\
    (phrases = [] ->
     forall concept, In concept key_concepts ->
       Dict.get String.eqb results concept
       = Some (ConceptMatch.make false 0.0 None)) /\
    (phrases <> [] ->
     forall concept, In concept key_concepts ->
       exists phrase best,
         In phrase phrases /\
         best = cosine (model_encode concept) (model_encode phrase) /\
         (forall p, In p phrases ->
            (cosine (model_encode concept) (model_encode p) <= best)%Q) /\
         (Qle_bool 0.65 best = true <-> (0.65 <= best)%Q) /\
         Dict.get String.eqb results concept
         = Some (ConceptMatch.make (Qle_bool 0.65 best) best
                   (if Qle_bool 0.65 best then Some phrase else None))).
Proof.
  cbv zeta. exists (concept_matches_of key_concepts student_answer).
  rewrite match_concepts_run. split; [reflexivity|].
  unfold concept_matches_of. split.
  - intros -> concept Hin. now rewrite get_comprehension.
  - intros Hp concept Hin. rewrite get_comprehension by exact Hin.
    destruct (best_score_spec concept _ Hp) as (p & Hnth & _ & Hbest & Hmax).
    exists p, (best_score concept (extract_key_phrases student_answer 2)).
    split; [eapply nth_error_In; eassumption|].
    split; [exact Hbest|]. split; [exact Hmax|].
    split; [apply Qle_bool_iff|].
    destruct (extract_key_phrases student_answer 2); [congruence|].
    unfold concept_match_of, concept_threshold. now rewrite Hnth.
Qed.

(* ------------------------------------------------------------------ *)
(** ** Phrase extraction *)

Lemma lstrip_no_char (p : ascii -> bool) (s : string) :
  Str.existsb_char p s = false -> Str.existsb_char p (Str.lstrip s) = false.
Proof.
  induction s as [|c r IH]; cbn [Str.existsb_char Str.lstrip];
    [reflexivity|].
  intros H. destruct (Str.is_space c); [|exact H].
  apply orb_false_iff in H. now apply IH.
Qed.

Lemma rstrip_no_char (p : ascii -> bool) (s : string) :
  Str.existsb_char p s = false -> Str.existsb_char p (Str.rstrip s) = false.
Proof.
  induction s as [|c r IH]; cbn [Str.existsb_char Str.rstrip];
    [reflexivity|].
  intros H. apply orb_false_iff in H. destruct H as (Hc & Hr).
  destruct (Str.is_space c && Str.is_empty (Str.rstrip r)); [reflexivity|].
  cbn [Str.existsb_char]. now rewrite Hc, (IH Hr).
Qed.

Lemma strip_no_char (p : ascii -> bool) (s : string) :
  Str.existsb_char p s = false -> Str.existsb_char p (Str.strip s) = false.
Proof. intros H. now apply rstrip_no_char, lstrip_no_char. Qed.

Lemma split_on_no_char (p : ascii -> bool) (sep : ascii) (s piece : string) :
  Str.existsb_char p s = false -> In piece (Str.split_on sep s) ->
  Str.existsb_char p piece = false.
Proof.
  revert piece. induction s as [|c r IH]; intros piece Hs Hin.
  - cbn in Hin. destruct Hin as [<-|[]]. reflexivity.
  - cbn [Str.existsb_char] in Hs. apply orb_false_iff in Hs.
    destruct Hs as (Hc & Hr). cbn [Str.split_on] in Hin.
    destruct (Ascii.eqb c sep).
    + destruct Hin as [<-|Hin]; [reflexivity | now apply IH].
    + destruct (Str.split_on sep r) as [|h t] eqn:E.
      * destruct Hin as [<-|[]]. cbn. now rewrite Hc.
      * destruct Hin as [<-|Hin].
        -- cbn. rewrite Hc. apply IH; [exact Hr | now left].
        -- apply IH; [exact Hr | now right].
Qed.

Lemma sub_phrases_fold (min_words : Z) (pieces acc : list string) :
  fold_left
    (fun phrases phrase =>
       let phrase := Str.strip phrase in
       if min_words <=? Str.word_count phrase then phrases ++ [phrase]
       else phrases)
    pieces acc
  = acc ++ filter (fun p => min_words <=? Str.word_count p)
             (map Str.strip pieces).
Proof.
  revert acc. induction pieces as [|x t IH]; intros acc; cbn.
  - now rewrite app_nil_r.
  - rewrite IH. destruct (min_words <=? Str.word_count (Str.strip x)).
    + now rewrite <- app_assoc.
    + reflexivity.
Qed.

Lemma extract_key_phrases_flat (text : string) (min_words : Z) :
  extract_key_phrases text min_words
  = flat_map (phrases_of_sentence min_words) (sentences_of text).
Proof.
  unfold extract_key_phrases. fold (sentences_of text).
  enough (H : forall sentences acc,
             fold_left
               (fun phrases sent =>
                  let phrases :=
                    if Str.word_count sent <=? 15 then phrases ++ [sent]
                    else phrases in
                  fold_left
                    (fun phrases phrase =>
                       let phrase := Str.strip phrase in
                       if min_words <=? Str.word_count phrase
                       then phrases ++ [phrase] else phrases)
                    (Str.split_on "," sent) phrases)
               sentences acc
             = acc ++ flat_map (phrases_of_sentence min_words) sentences)
    by apply (H _ []).
  induction sentences as [|sent t IH]; intros acc; cbn.
  - now rewrite app_nil_r.
  - rewrite sub_phrases_fold, IH. unfold phrases_of_sentence.
    destruct (Str.word_count sent <=? 15); now rewrite <- !app_assoc.
Qed.

(** C6, as stated, fails: the one-word sentence of "Yes." is extracted
    although it has fewer than 2 words. *)
Lemma C6_one_word_phrase_counterexample :
  extract_key_phrases "Yes." 2 = ["Yes"] /\
  Str.word_count "Yes" = 1 /\
  ~ (forall p, In p (extract_key_phrases "Yes." 2) -> 2 <= Str.word_count p).
Proof.
  repeat split; try reflexivity.
  intros H. specialize (H "Yes" (or_introl eq_refl)). vm_compute in H.
  now apply H.
Qed.

Lemma sentences_no_char (p : ascii -> bool) (text sent : string) :
  Str.existsb_char p text = false -> In sent (sentences_of text) ->
  Str.existsb_char p sent = false.
Proof.
  intros Ht Hin. unfold sentences_of in Hin.
  apply in_map_iff in Hin. destruct Hin as (piece & <- & Hin).
  apply filter_In in Hin. destruct Hin as (Hin & _).
  apply strip_no_char. eapply split_on_no_char; eauto.
Qed.

(** C6 (amended): for a text without a semicolon, phrase extraction
    lists, sentence by sentence in the order of the text, the stripped
    sentence itself when it has at most 15 words, whatever its word count
    below that, followed by those of its comma-delimited pieces, stripped,
    that have at least 2 words; no phrase contains a semicolon; and
    [identify_key_concepts] returns the first [top_n] (5 by default) of
    these phrases in that order. *)
Theorem C6_extract_key_phrases_order (text : string)
    (Hsemicolon : Str.existsb_char (fun c => Ascii.eqb c ";") text = false) :
  extract_key_phrases text 2
  = flat_map (phrases_of_sentence 2) (sentences_of text) /\
  (forall p, In p (extract_key_phrases text 2) ->
     Str.existsb_char (fun c => Ascii.eqb c ";") p = false /\
     ((In p (sentences_of text) /\ Str.word_count p <= 15) \/
      (2 <= Str.word_count p /\
       exists sent, In sent (sentences_of text) /\
                    In p (map Str.strip (Str.split_on "," sent))))) /\
  (forall top_n, 0 <= top_n ->
     identify_key_concepts text top_n
     = firstn (Z.to_nat top_n) (extract_key_phrases text 2)) /\
  identify_key_concepts text 5 = firstn 5 (extract_key_phrases text 2).
Proof.
  assert (Hid : forall top_n, 0 <= top_n ->
            identify_key_concepts text top_n
            = firstn (Z.to_nat top_n) (extract_key_phrases text 2)).
  { intros n Hn. unfold identify_key_concepts, slice_to, len.
    destruct (n <? Z.of_nat _) eqn:E.
    - destruct (n <? 0) eqn:E0; [lia | reflexivity].
    - symmetry. apply firstn_all2. lia. }
  split; [apply extract_key_phrases_flat|].
  split; [|split; [exact Hid | apply (Hid 5); lia]].
  intros p Hp. rewrite extract_key_phrases_flat in Hp.
  apply in_flat_map in Hp. destruct Hp as (sent & Hsent & Hp).
  assert (Hs := sentences_no_char _ text sent Hsemicolon Hsent).
  unfold phrases_of_sentence in Hp. apply in_app_iff in Hp.
  destruct Hp as [Hp|Hp].
  - destruct (Str.word_count sent <=? 15) eqn:E; [|contradiction].
    destruct Hp as [<-|[]]. split; [exact Hs|]. left.
    split; [exact Hsent | lia].
  - apply filter_In in Hp. destruct Hp as (Hin & Hw). split.
    + apply in_map_iff in Hin. destruct Hin as (piece & <- & Hpiece).
      apply strip_no_char. eapply split_on_no_char; eauto.
    + right. split; [lia | eauto].
Qed.

(** Some values, as the interpreter prints them: [int(0.7 * 90)] is 62
    and [int(0.7 * 170)] is 118; [round(1 / 40, 2)] is 0.03; and
    [round(23 / 160 * 100, 2)] is 14.37. *)
Lemma binary64_values :
  Float64.int_mul 0.7 90 = 62 /\
  Float64.int_mul 0.7 170 = 118 /\
  Float64.int_mul 0.7 10 = 7 /\
  (Float64.round_ndigits (Float64.truediv 1 40) 2 == Float64.lit 0.03)%Q /\
  (Float64.round_ndigits
     (Float64.mul (Float64.truediv 23 160) (Float64.of_int 100)) 2
   == Float64.lit 14.37)%Q /\
  (Float64.lit 0.5 == 0.5)%Q.
Proof. repeat split; vm_compute; reflexivity. Qed.

(* ------------------------------------------------------------------ *)
(** ** Arithmetic on ratios *)




Lemma truediv_bounds (a b : Z) :
  0 <= a <= b -> 0 < b -> (0 <= Py.truediv a b <= 1)%Q.
Proof.
  intros Ha Hb. unfold Py.truediv.
  assert (Hb' := inject_Z_pos b Hb).
  split.
  - apply Qle_shift_div_l; [exact Hb'|]. rewrite Qmult_0_l.
    apply inject_Z_nonneg. lia.
  - apply Qle_shift_div_r; [exact Hb'|]. rewrite Qmult_1_l.
    apply inject_Z_le. lia.
Qed.

Lemma truediv_nonneg (a b : Z) : 0 <= a -> 0 < b -> (0 <= Py.truediv a b)%Q.
Proof.
  intros Ha Hb. unfold Py.truediv.
  apply Qle_shift_div_l; [apply inject_Z_pos, Hb|].
  rewrite Qmult_0_l. apply inject_Z_nonneg, Ha.
Qed.

Lemma truediv_mono (a1 a2 b : Z) :
  a1 <= a2 -> 0 < b -> (Py.truediv a1 b <= Py.truediv a2 b)%Q.
Proof.
  intros Ha Hb. unfold Py.truediv, Qdiv.
  apply Qmult_le_compat_r; [apply inject_Z_le, Ha|].
  apply Qlt_le_weak, Qinv_lt_0_compat, inject_Z_pos, Hb.
Qed.

Lemma Qmin_bounds (x : Q) : (0 <= x)%Q -> (0 <= Qmin x 1.0 <= 1)%Q.
Proof.
  intros Hx. split.
  - apply Q.min_glb; [exact Hx | discriminate].
  - eapply Qle_trans; [apply Q.le_min_r | discriminate].
Qed.

Lemma len_nonneg {A} (l : list A) : 0 <= len l.
Proof. unfold len. lia. Qed.

Lemma len_pos {A} (x : A) (l : list A) : 0 < len (x :: l).
Proof. unfold len. cbn [List.length]. lia. Qed.

(* ------------------------------------------------------------------ *)
(** ** Counting matched concepts *)

Lemma distinct_from_length (l ks : list string) :
  (List.length
     (fold_left
        (fun ks c => if existsb (String.eqb c) ks then ks else ks ++ [c])
        l ks)
   <= List.length ks + List.length l)%nat.
Proof.
  revert ks. induction l as [|x l IH]; intros ks; cbn; [lia|].
  etransitivity; [apply IH|].
  destruct (existsb (String.eqb x) ks); rewrite ?length_app; cbn; lia.
Qed.

Lemma matched_count_comprehension (g : string -> ConceptMatch.t)
    (l : list string) :
  matched_count (Dict.comprehension String.eqb (fun c => c) g l)
  = len (filter (fun c => ConceptMatch.matched (g c)) (distinct_keys l)).
Proof.
  rewrite comprehension_distinct. unfold matched_count, Dict.values, len.
  rewrite map_map. cbn [snd]. f_equal.
  induction (distinct_keys l) as [|c ks IH]; cbn; [reflexivity|].
  destruct (ConceptMatch.matched (g c)); cbn; now rewrite IH.
Qed.

Lemma matched_count_bounds (g : string -> ConceptMatch.t) (l : list string) :
  0 <= matched_count (Dict.comprehension String.eqb (fun c => c) g l) <= len l.
Proof.
  rewrite matched_count_comprehension. split; [apply len_nonneg|].
  unfold len. apply inj_le.
  etransitivity; [apply filter_length_le|].
  apply (distinct_from_length l []).
Qed.

Lemma filter_length_mono {A} (f g : A -> bool) (l : list A) :
  (forall x, f x = true -> g x = true) ->
  (List.length (filter f l) <= List.length (filter g l))%nat.
Proof.
  intros H. induction l as [|x l IH]; cbn; [lia|].
  destruct (f x) eqn:Ef.
  - rewrite (H _ Ef). cbn. lia.
  - destruct (g x); cbn; lia.
Qed.

(* ------------------------------------------------------------------ *)
(** ** Rubric scoring *)

Lemma length_ratio_bounds (model_answer student_answer : string) :
  (0 <= length_ratio_of model_answer student_answer <= 1)%Q.
Proof.
  unfold length_ratio_of.
  destruct (0 <? Str.word_count model_answer) eqn:E.
  - apply Qmin_bounds, truediv_nonneg; [|lia].
    unfold Str.word_count. lia.
  - split; discriminate.
Qed.

Lemma concept_coverage_bounds (model_answer student_answer : string) :
  (0 <= concept_coverage_of model_answer student_answer <= 1)%Q.
Proof.
  unfold concept_coverage_of.
  destruct (identify_key_concepts model_answer 5) as [|c kc];
    [split; discriminate|].
  apply truediv_bounds; [apply matched_count_bounds | apply len_pos].
Qed.

Lemma score_completeness_run (model_answer student_answer : string) :
  score_completeness model_answer student_answer
  = (match_calls (identify_key_concepts model_answer 5) student_answer,
     inr (Completeness.make
            (length_ratio_of model_answer student_answer * 0.3
             + concept_coverage_of model_answer student_answer * 0.7)%Q
            (length_ratio_of model_answer student_answer)
            (concept_coverage_of model_answer student_answer)
            (matched_count
               (concept_matches_of (identify_key_concepts model_answer 5)
                  student_answer))
            (len (identify_key_concepts model_answer 5)))).
Proof.
  unfold score_completeness.
  rewrite (bind_value _ _ _ _ (match_concepts_run _ _)).
  cbn [fst snd ret]. now rewrite app_nil_r.
Qed.

Lemma score_accuracy_run (model_answer student_answer : string) :
  score_accuracy model_answer student_answer
  = ([EncodeText model_answer; EncodeText student_answer],
     inr (Accuracy.make
            (Qmax 0.0
               (Qmin 1.0
                  (cosine (model_encode model_answer)
                     (model_encode student_answer))))
            (cosine (model_encode model_answer)
               (model_encode student_answer)))).
Proof. reflexivity. Qed.

Lemma accuracy_bounds (x : Q) : (0 <= Qmax 0.0 (Qmin 1.0 x) <= 1)%Q.
Proof.
  split.
  - apply Qle_trans with 0.0%Q; [discriminate | apply Q.le_max_l].
  - apply Q.max_lub; [discriminate|].
    apply Qle_trans with 1.0%Q; [apply Q.le_min_l | discriminate].
Qed.

(** The clarity score lies between 0.35 and 1 for every string. *)
Lemma clarity_bounds (student_answer : string) :
  (0.35 <= Clarity.score (score_clarity student_answer) <= 1)%Q.
Proof.
  unfold score_clarity. cbn [Clarity.score].
  set (sentences := filter _ _).
  set (words := Str.split student_answer).
  set (avg := match sentences with [] => 0%Q | _ => _ end).
  set (ss := if _ && _ then 1.0%Q else _).
  set (ps := if Str.existsb_char _ _ then 1.0%Q else 0.5%Q).
  set (ls := Qmin _ 1.0).
  assert (Hss : (0.5 <= ss <= 1)%Q).
  { subst ss. destruct (_ && _); [split; discriminate|]. split.
    - apply Q.le_max_l.
    - apply Q.max_lub; [discriminate|].
      assert (H := Qabs_nonneg (avg - 15)).
      assert (H30 : (0 <= Qabs (avg - 15) / 30)%Q).
      { apply Qle_shift_div_l; [reflexivity|]. now rewrite Qmult_0_l. }
      lra. }
  assert (Hps : (0.5 <= ps <= 1)%Q).
  { subst ps. destruct (Str.existsb_char _ _); split; discriminate. }
  assert (Hls : (0 <= ls <= 1)%Q).
  { subst ls. apply Qmin_bounds, truediv_nonneg; [apply len_nonneg | lia]. }
  lra.
Qed.

Lemma score_with_rubric_default_run (model_answer student_answer : string) :
  score_with_rubric model_answer student_answer None
  = ([EncodeText model_answer; EncodeText student_answer]
     ++ match_calls (identify_key_concepts model_answer 5) student_answer,
     inr (RubricResult.make
            (Qmax 0.0
               (Qmin 1.0
                  (cosine (model_encode model_answer)
                     (model_encode student_answer))) * 0.5
             + (length_ratio_of model_answer student_answer * 0.3
                + concept_coverage_of model_answer student_answer * 0.7) * 0.35
             + Clarity.score (score_clarity student_answer) * 0.15)%Q
            (Components.make
               (Accuracy.make
                  (Qmax 0.0
                     (Qmin 1.0
                        (cosine (model_encode model_answer)
                           (model_encode student_answer))))
                  (cosine (model_encode model_answer)
                     (model_encode student_answer)))
               (Completeness.make
                  (length_ratio_of model_answer student_answer * 0.3
                   + concept_coverage_of model_answer student_answer * 0.7)%Q
                  (length_ratio_of model_answer student_answer)
                  (concept_coverage_of model_answer student_answer)
                  (matched_count
                     (concept_matches_of
                        (identify_key_concepts model_answer 5) student_answer))
                  (len (identify_key_concepts model_answer 5)))
               (score_clarity student_answer))
            default_rubric_weights)).
Proof.
  unfold score_with_rubric.
  rewrite (bind_value _ _ _ _ (score_accuracy_run _ _)).
  rewrite (bind_value _ _ _ _ (score_completeness_run _ _)).
  cbn [fst snd]. unfold weight_of, default_rubric_weights. cbn.
  now rewrite app_nil_r.
Qed.

Lemma best_score_mono (concept : string) (phrases1 phrases2 : list string) :
  phrases1 <> [] -> incl phrases1 phrases2 ->
  (best_score concept phrases1 <= best_score concept phrases2)%Q.
Proof.
  intros Hne Hsub.
  destruct (best_score_spec concept phrases1 Hne) as (p & Hp & _ & -> & _).
  assert (Hin : In p phrases2) by (eapply Hsub, nth_error_In, Hp).
  assert (Hne2 : phrases2 <> []) by (intros ->; destruct Hin).
  destruct (best_score_spec concept phrases2 Hne2) as (_ & _ & _ & _ & Hmax).
  now apply Hmax.
Qed.

Lemma concept_coverage_mono (model_answer answer1 answer2 : string) :
  incl (extract_key_phrases answer1 2) (extract_key_phrases answer2 2) ->
  (concept_coverage_of model_answer answer1
   <= concept_coverage_of model_answer answer2)%Q.
Proof.
  intros Hsub. unfold concept_coverage_of.
  destruct (identify_key_concepts model_answer 5) as [|c0 kc] eqn:Ekc;
    [apply Qle_refl|].
  apply truediv_mono; [|apply len_pos].
  unfold concept_matches_of. rewrite !matched_count_comprehension.
  unfold len. apply inj_le, filter_length_mono. intros c.
  destruct (extract_key_phrases answer1 2) as [|p1 ps1] eqn:E1;
    [discriminate|].
  assert (Hne1 : p1 :: ps1 <> []) by discriminate.
  assert (Hb := best_score_mono c _ _ Hne1 Hsub).
  destruct (extract_key_phrases answer2 2) as [|p2 ps2] eqn:E2.
  { destruct (Hsub p1 (or_introl eq_refl)). }
  unfold concept_match_of. cbn [ConceptMatch.matched].
  intros H. apply Qle_bool_iff in H. apply Qle_bool_iff.
  eapply Qle_trans; eassumption.
Qed.

(** C7: for a fixed model answer, when every phrase extracted from a first
    candidate answer is also extracted from a second one, both answers are
    scored for completeness and the concept coverage of the second is at
    least that of the first. *)
Theorem C7_concept_coverage_monotone (model_answer answer1 answer2 : string)
    (Hsub : incl (extract_key_phrases answer1 2)
              (extract_key_phrases answer2 2)) :
  exists c1 c2,
    outcome (score_completeness model_answer answer1) = inr c1 /\
    outcome (score_completeness model_answer answer2) = inr c2 /\
    (Completeness.concept_coverage c1 <= Completeness.concept_coverage c2)%Q.
Proof.
  rewrite !score_completeness_run. cbn [outcome snd].
  eexists _, _. split; [reflexivity|]. split; [reflexivity|].
  cbn [Completeness.concept_coverage].
  now apply concept_coverage_mono.
Qed.

(** C4: with the default weights the rubric scorer returns a result whose
    total is 0.5 * accuracy + 0.35 * completeness + 0.15 * clarity, and
    each of the three sub-scores lies between 0 and 1. *)
Theorem C4_rubric_total_default_weights (model_answer student_answer : string) :
  exists r,
    outcome (score_with_rubric model_answer student_answer None) = inr r /\
    let accuracy :=
      Accuracy.score (Components.accuracy (RubricResult.components r)) in
    let completeness :=
      Completeness.score (Components.completeness (RubricResult.components r)) in
    let clarity :=
      Clarity.score (Components.clarity (RubricResult.components r)) in
    (RubricResult.total_score r
     == 0.5 * accuracy + 0.35 * completeness + 0.15 * clarity)%Q /\
    (0 <= accuracy <= 1)%Q /\
    (0 <= completeness <= 1)%Q /\
    (0 <= clarity <= 1)%Q.
Proof.
  rewrite score_with_rubric_default_run. cbn [outcome snd].
  eexists. split; [reflexivity|].
  cbn [RubricResult.total_score RubricResult.components Components.accuracy
       Components.completeness Components.clarity Accuracy.score
       Completeness.score].
  assert (Ha := accuracy_bounds
                  (cosine (model_encode model_answer)
                     (model_encode student_answer))).
  assert (Hl := length_ratio_bounds model_answer student_answer).
  assert (Hc := concept_coverage_bounds model_answer student_answer).
  assert (Hk := clarity_bounds student_answer).
  repeat split; lra.
Qed.

(** C10: the clarity score of every student answer, empty and one-word
    answers included, is at least 0.35; hence with the default weights
    every scored answer gets a weighted total of at least 0.0525. *)
Theorem C10_clarity_floor (model_answer student_answer : string) :
  (0.35 <= Clarity.score (score_clarity student_answer))%Q /\
  exists r,
    outcome (score_with_rubric model_answer student_answer None) = inr r /\
    (0.0525 <= RubricResult.total_score r)%Q.
Proof.
  split; [apply clarity_bounds|].
  rewrite score_with_rubric_default_run. cbn [outcome snd].
  eexists. split; [reflexivity|].
  cbn [RubricResult.total_score].
  assert (Ha := accuracy_bounds
                  (cosine (model_encode model_answer)
                     (model_encode student_answer))).
  assert (Hl := length_ratio_bounds model_answer student_answer).
  assert (Hc := concept_coverage_bounds model_answer student_answer).
  assert (Hk := clarity_bounds student_answer).
  lra.
Qed.

(* ------------------------------------------------------------------ *)
(** ** Sums of ints *)

Lemma sum_Z_from (xs : list Z) (a : Z) : fold_left Z.add xs a = a + sum_Z xs.
Proof.
  unfold sum_Z. revert a. induction xs as [|x xs IH]; intros a; cbn; [lia|].
  rewrite IH, (IH x). lia.
Qed.

Lemma sum_Z_cons (x : Z) (xs : list Z) : sum_Z (x :: xs) = x + sum_Z xs.
Proof. unfold sum_Z at 1. cbn. apply sum_Z_from. Qed.

(* ------------------------------------------------------------------ *)
(** ** The overall feedback *)

Lemma filter_m_pure {A} (keep : A -> M bool) (f : A -> bool) (xs : list A) :
  Forall (fun x => keep x = ret (f x)) xs ->
  filter_m keep xs = ret (filter f xs).
Proof.
  induction 1 as [|x xs Hx _ IH]; cbn; [reflexivity|].
  now rewrite Hx, bind_ret_l, IH, !bind_ret_l.
Qed.

Lemma score_ratio_run (q : QuestionResult.t) :
  QuestionResult.marks_allocated q <> 0 ->
  score_ratio q
  = ret (Py.truediv (QuestionResult.awarded_score q)
           (QuestionResult.marks_allocated q)).
Proof.
  intros H. unfold score_ratio, truediv_m.
  destruct (Z.eqb_spec (QuestionResult.marks_allocated q) 0);
    [contradiction | reflexivity].
Qed.

(** With no zero mark allocation the overall feedback is produced, and it
    never calls the encoder. *)
Lemma overall_feedback_returns (percentage : Q)
    (question_results : list QuestionResult.t) :
  Forall (fun q => QuestionResult.marks_allocated q <> 0) question_results ->
  exists fb, _generate_overall_feedback percentage question_results = ret fb.
Proof.
  intros H. unfold _generate_overall_feedback.
  rewrite (filter_m_pure _
             (fun q => Qle_bool 0.75
                         (Py.truediv (QuestionResult.awarded_score q)
                            (QuestionResult.marks_allocated q)))).
  2:{ eapply Forall_impl; [|exact H]. intros q Hq. cbn beta.
      now rewrite (score_ratio_run q Hq), bind_ret_l. }
  rewrite bind_ret_l.
  rewrite (filter_m_pure _
             (fun q => negb (Qle_bool 0.5
                               (Py.truediv (QuestionResult.awarded_score q)
                                  (QuestionResult.marks_allocated q))))).
  2:{ eapply Forall_impl; [|exact H]. intros q Hq. cbn beta.
      now rewrite (score_ratio_run q Hq), bind_ret_l. }
  rewrite bind_ret_l. eauto.
Qed.

Lemma overall_feedback_enhanced_returns (percentage : Q)
    (question_results : list QuestionResult.t) :
  Forall (fun q => QuestionResult.marks_allocated q <> 0) question_results ->
  exists fb,
    _generate_overall_feedback_enhanced percentage question_results = ret fb.
Proof.
  intros H. unfold _generate_overall_feedback_enhanced.
  destruct (overall_feedback_returns percentage _ H) as (fb & ->).
  rewrite bind_ret_l.
  destruct (rubric_scores RubricBreakdown.accuracy question_results); eauto.
Qed.

Lemma round_ndigits_zero (n : nat) : (Py.round_ndigits 0 n == 0)%Q.
Proof.
  unfold Py.round_ndigits.
  change (Py.round (0 * inject_Z (10 ^ Z.of_nat n))) with 0.
  apply Qmult_0_l.
Qed.

(* ------------------------------------------------------------------ *)
(** ** Scoring one question *)

Lemma score_question_basic_run (q : Question.t) (student_answer : string) :
  _score_question_basic q student_answer
  = ([EncodeText (Question.model_answer q); EncodeText student_answer],
     inr (QuestionResult.make
            (Question.question_number q) (Question.question_text q)
            student_answer (Question.marks_allocated q)
            (map_similarity_to_score
               (compute_similarity (model_encode (Question.model_answer q))
                  (model_encode student_answer))
               (Question.marks_allocated q))
            (Some (Py.round_ndigits
                     (compute_similarity
                        (model_encode (Question.model_answer q))
                        (model_encode student_answer)) 3))
            None None None
            (PlainText
               (generate_feedback
                  (compute_similarity
                     (model_encode (Question.model_answer q))
                     (model_encode student_answer)))))).
Proof. reflexivity. Qed.

Lemma weight_of_returns (weights : list (string * Q)) (key : string) :
  Dict.get String.eqb weights key <> None ->
  exists w, weight_of weights key = ret w.
Proof.
  unfold weight_of. destruct (Dict.get String.eqb weights key); [eauto|].
  congruence.
Qed.

Lemma generate_detailed_feedback_returns (rubric_result : RubricResult.t)
    (model_answer student_answer : string) :
  exists fb,
    generate_detailed_feedback rubric_result model_answer student_answer
    = (match_calls (identify_key_concepts model_answer 5) student_answer,
       inr fb).
Proof.
  unfold generate_detailed_feedback.
  rewrite (bind_value _ _ _ _ (match_concepts_run _ _)).
  cbn [fst snd ret]. rewrite app_nil_r. eauto.
Qed.

(* ------------------------------------------------------------------ *)
(** ** Letter grades *)

Ltac grade_band a p :=
  let E := fresh "E" in
  destruct (Qle_bool a p) eqn:E;
  [ apply Qle_bool_iff in E;
    repeat split; intros; try reflexivity; exfalso; lra
  | apply Qle_bool_false in E ].

Lemma assign_grade_bands (p : Q) :
  ((90 <= p)%Q -> assign_grade p = "A+") /\
  ((85 <= p < 90)%Q -> assign_grade p = "A") /\
  ((80 <= p < 85)%Q -> assign_grade p = "A-") /\
  ((75 <= p < 80)%Q -> assign_grade p = "B+") /\
  ((70 <= p < 75)%Q -> assign_grade p = "B") /\
  ((65 <= p < 70)%Q -> assign_grade p = "B-") /\
  ((60 <= p < 65)%Q -> assign_grade p = "C+") /\
  ((55 <= p < 60)%Q -> assign_grade p = "C") /\
  ((50 <= p < 55)%Q -> assign_grade p = "C-") /\
  ((45 <= p < 50)%Q -> assign_grade p = "D") /\
  ((p < 45)%Q -> assign_grade p = "F").
Proof.
  unfold assign_grade.
  grade_band 90%Q p. grade_band 85%Q p. grade_band 80%Q p.
  grade_band 75%Q p. grade_band 70%Q p. grade_band 65%Q p.
  grade_band 60%Q p. grade_band 55%Q p. grade_band 50%Q p.
  grade_band 45%Q p.
  repeat split; intros; try reflexivity; exfalso; lra.
Qed.

(* ------------------------------------------------------------------ *)
(** ** Claims on paper grading *)

Lemma is_empty_true (s : string) : Str.is_empty s = true <-> s = "".
Proof. destruct s; cbn; split; congruence. Qed.


Lemma insert_question_In (q x : Question.t) (qs : list Question.t) :
  In x (insert_question q qs) <-> x = q \/ In x qs.
Proof.
  induction qs as [|q' t IH]; cbn.
  - intuition.
  - destruct (_ <=? _); cbn; [intuition | rewrite IH; intuition].
Qed.

Lemma sort_questions_In (x : Question.t) (qs : list Question.t) :
  In x qs -> In x (sort_questions qs).
Proof.
  unfold sort_questions. induction qs as [|q t IH]; cbn; [auto|].
  intros [->|H]; apply insert_question_In; [now left | right; auto].
Qed.

(** Fetching a paper answers [None] when the paper is unknown and raises
    AttributeError for every stored paper. *)
Lemma get_paper_with_questions_run (paper : option Paper.t)
    (paper_questions : list Question.t) :
  get_paper_with_questions paper paper_questions
  = match paper with
    | None => ret None
    | Some _ => raise (AttributeError "is_active")
    end.
Proof. destruct paper; reflexivity. Qed.

Lemma grade_paper_basic_run (paper_id : Z) (paper : option Paper.t)
    (paper_questions : list Question.t) (answers : list AnswerSubmission.t) :
  grade_paper_basic paper_id paper paper_questions answers
  = ([],
     inl match paper with
         | None =>
             ValueError ("Paper " ++ Py.str_of_int paper_id ++ " not found")
         | Some _ => AttributeError "is_active"
         end).
Proof.
  unfold grade_paper_basic. rewrite get_paper_with_questions_run.
  destruct paper; reflexivity.
Qed.

Lemma grade_paper_enhanced_run (paper_id : Z) (paper : option Paper.t)
    (paper_questions : list Question.t) (answers : list AnswerSubmission.t)
    (rubric_weights : option (list (string * Q))) :
  grade_paper_enhanced paper_id paper paper_questions answers rubric_weights
  = ([],
     inl match paper with
         | None =>
             ValueError ("Paper " ++ Py.str_of_int paper_id ++ " not found")
         | Some _ => AttributeError "is_active"
         end).
Proof.
  unfold grade_paper_enhanced. rewrite get_paper_with_questions_run.
  destruct paper; reflexivity.
Qed.

(** C3 fails on the code: neither grader ever reports a total score, a
    percentage or a grade.  Whatever the submission and the weights, a
    grader raises ValueError when the paper is unknown and AttributeError
    when it is stored, because fetching a stored paper reads
    [paper.is_active], an attribute that the [Paper] model does not
    define; no answer is encoded or scored before.  Only [assign_grade],
    taken by itself, maps a percentage to the letter grades by the bands
    of the claim. *)
Theorem C3_graders_never_return (paper_id : Z) (paper : option Paper.t)
    (paper_questions : list Question.t) (answers : list AnswerSubmission.t)
    (rubric_weights : option (list (string * Q))) :
  let basic := grade_paper_basic paper_id paper paper_questions answers in
  let enhanced :=
    grade_paper_enhanced paper_id paper paper_questions answers
      rubric_weights in
  let not_found :=
    ValueError ("Paper " ++ Py.str_of_int paper_id ++ " not found") in
  (paper = None ->
   basic = ([], inl not_found) /\ enhanced = ([], inl not_found)) /\
  (paper <> None ->
   basic = ([], inl (AttributeError "is_active")) /\
   enhanced = ([], inl (AttributeError "is_active"))) /\
  (forall r, outcome basic <> inr r) /\
  (forall r, outcome enhanced <> inr r) /\
  (forall p : Q,
     ((90 <= p)%Q -> assign_grade p = "A+") /\
     ((85 <= p < 90)%Q -> assign_grade p = "A") /\
     ((80 <= p < 85)%Q -> assign_grade p = "A-") /\
     ((75 <= p < 80)%Q -> assign_grade p = "B+") /\
     ((70 <= p < 75)%Q -> assign_grade p = "B") /\
     ((65 <= p < 70)%Q -> assign_grade p = "B-") /\
     ((60 <= p < 65)%Q -> assign_grade p = "C+") /\
     ((55 <= p < 60)%Q -> assign_grade p = "C") /\
     ((50 <= p < 55)%Q -> assign_grade p = "C-") /\
     ((45 <= p < 50)%Q -> assign_grade p = "D") /\
     ((p < 45)%Q -> assign_grade p = "F")).
Proof.
  cbv zeta. rewrite grade_paper_basic_run, grade_paper_enhanced_run.
  destruct paper as [p|]; cbn [outcome snd].
  - split; [discriminate|]. split; [now split|].
    split; [discriminate|]. split; [discriminate|].
    apply assign_grade_bands.
  - split; [now split|]. split; [congruence|].
    split; [discriminate|]. split; [discriminate|].
    apply assign_grade_bands.
Qed.

(** C8 fails on the code: the step of the grading loop does record a
    blank or missing answer as the "Question not attempted." result with
    score 0 and similarity 0.0 and without calling a scoring method; but
    for a stored paper neither grader reaches the loop, so no result is
    recorded for the question: both raise AttributeError while fetching
    the paper. *)
Theorem C8_unanswered_question_not_recorded (paper_id : Z) (paper : Paper.t)
    (paper_questions : list Question.t) (answers : list AnswerSubmission.t)
    (rubric_weights : option (list (string * Q))) (q : Question.t)
    (Hq : In q paper_questions)
    (Hblank :
       Dict.get Z.eqb (answer_map_of answers) (Question.question_number q)
       = None \/
       exists a,
         Dict.get Z.eqb (answer_map_of answers) (Question.question_number q)
         = Some a /\ Str.strip a = "") :
  let unanswered := _create_unanswered_result q in
  QuestionResult.awarded_score unanswered = 0 /\
  QuestionResult.similarity_score unanswered = Some 0.0%Q /\
  QuestionResult.feedback unanswered = PlainText "Question not attempted." /\
  (forall score question_results total,
     grade_step score (answer_map_of answers) (question_results, total) q
     = ([], inr (question_results ++ [unanswered], total))) /\
  In q (sort_questions paper_questions) /\
  grade_paper_basic paper_id (Some paper) paper_questions answers
  = ([], inl (AttributeError "is_active")) /\
  grade_paper_enhanced paper_id (Some paper) paper_questions answers
    rubric_weights
  = ([], inl (AttributeError "is_active")).
Proof.
  cbv zeta.
  assert (Hempty : Str.is_empty (submitted_answer (answer_map_of answers) q)
                   = true).
  { apply is_empty_true. unfold submitted_answer.
    destruct Hblank as [-> | (a & -> & Ha)]; [reflexivity | exact Ha]. }
  split; [reflexivity|]. split; [reflexivity|]. split; [reflexivity|].
  split.
  { intros score rs total. unfold grade_step. now rewrite Hempty. }
  split; [now apply sort_questions_In|].
  split; [apply grade_paper_basic_run | apply grade_paper_enhanced_run].
Qed.

(* ------------------------------------------------------------------ *)
(** ** Claims on validation and on the single-answer service *)



(** C2 fails on the code: whatever the answers and the maximum, the
    single-answer service encodes both texts and then raises TypeError,
    because it subscripts the pair returned by [assess_answer] with the
    string key "similarity". *)
Theorem C2_assess_single_answer_raises (model_answer student_answer : string)
    (max_score : Z) :
  assess_single_answer model_answer student_answer max_score
  = ([EncodeText model_answer; EncodeText student_answer], inl TypeError).
Proof. reflexivity. Qed.








(* ================================================================== *)
(** * Further properties of the code *)
(* ================================================================== *)

(* ------------------------------------------------------------------ *)
(** ** Rounding *)




Lemma round_ndigits_mono (x y : Q) (n : nat) :
  (x <= y)%Q -> (Py.round_ndigits x n <= Py.round_ndigits y n)%Q.
Proof.
  intros Hxy. unfold Py.round_ndigits.
  assert (Hs : (0 < inject_Z (10 ^ Z.of_nat n))%Q).
  { apply inject_Z_pos. apply Z.pow_pos_nonneg; lia. }
  unfold Qdiv. apply Qmult_le_compat_r.
  - apply inject_Z_le, round_mono.
    apply Qmult_le_compat_r; [exact Hxy | now apply Qlt_le_weak].
  - apply Qlt_le_weak, Qinv_lt_0_compat, Hs.
Qed.

Lemma round_ndigits_Z (z : Z) (n : nat) :
  (Py.round_ndigits (inject_Z z) n == inject_Z z)%Q.
Proof.
  unfold Py.round_ndigits.
  assert (Hs : (0 < inject_Z (10 ^ Z.of_nat n))%Q).
  { apply inject_Z_pos. apply Z.pow_pos_nonneg; lia. }
  rewrite <- inject_Z_mult, round_Z, inject_Z_mult.
  apply Qdiv_mult_l. intros H. rewrite H in Hs. discriminate.
Qed.

Lemma truediv_between (lo hi a b : Z) :
  0 < b -> lo * b <= a <= hi * b ->
  (inject_Z lo <= Py.truediv a b <= inject_Z hi)%Q.
Proof.
  intros Hb H. unfold Py.truediv. split.
  - apply Qle_shift_div_l; [now apply inject_Z_pos|].
    rewrite <- inject_Z_mult. apply inject_Z_le. lia.
  - apply Qle_shift_div_r; [now apply inject_Z_pos|].
    rewrite <- inject_Z_mult. apply inject_Z_le. lia.
Qed.

Lemma round_ndigits_between (lo hi : Z) (x : Q) (n : nat) :
  (inject_Z lo <= x <= inject_Z hi)%Q ->
  (inject_Z lo <= Py.round_ndigits x n <= inject_Z hi)%Q.
Proof.
  intros (Hlo & Hhi). split.
  - eapply Qle_trans; [|apply round_ndigits_mono, Hlo].
    rewrite round_ndigits_Z. apply Qle_refl.
  - eapply Qle_trans; [apply round_ndigits_mono, Hhi|].
    rewrite round_ndigits_Z. apply Qle_refl.
Qed.

(** A quotient, and a rounded double, between two integers that a double
    holds exactly stay between them. *)
Lemma float_truediv_between (lo hi a b : Z) :
  0 <= lo -> hi < 2 ^ 53 -> 0 < b -> lo * b <= a <= hi * b ->
  (inject_Z lo <= Float64.truediv a b <= inject_Z hi)%Q.
Proof.
  intros Hlo Hhi Hb H. unfold Float64.truediv.
  apply b64_between; [exact Hlo | exact Hhi|].
  exact (truediv_between lo hi a b Hb H).
Qed.

Lemma float_round_ndigits_between (lo hi : Z) (x : Q) (n : nat) :
  0 <= lo -> hi < 2 ^ 53 ->
  (inject_Z lo <= x <= inject_Z hi)%Q ->
  (inject_Z lo <= Float64.round_ndigits x n <= inject_Z hi)%Q.
Proof.
  intros Hlo Hhi H. unfold Float64.round_ndigits.
  apply b64_between; [exact Hlo | exact Hhi|].
  now apply round_ndigits_between.
Qed.

(* ------------------------------------------------------------------ *)
(** ** The basic scorer *)

Lemma compute_similarity_bounds (vec1 vec2 : Vec) :
  (0 <= compute_similarity vec1 vec2 <= 1)%Q.
Proof.
  unfold compute_similarity. split.
  - apply Q.le_max_l.
  - apply Q.max_lub; [discriminate | apply Q.le_min_l].
Qed.


Lemma map_score_bounds (s : Q) (m : Z) :
  0 <= m -> 0 <= map_similarity_to_score s m <= m.
Proof.
  intros Hm. destruct (band_values m Hm) as (H4 & H7 & _).
  unfold map_similarity_to_score.
  destruct (Qle_bool 0.80 s); [lia|].
  destruct (Qle_bool 0.60 s); [lia|].
  destruct (Qle_bool 0.40 s); lia.
Qed.

(** X1: for a non-negative maximum [assess_answer] encodes the student
    answer and then the model answer; the similarity it returns is the
    cosine of the two vectors clamped to the interval from 0 to 1, with no
    rescaling, so a cosine of 0 or less counts as similarity 0 and scores
    0; the score is the band score of that similarity and lies between 0
    and the maximum. *)
Theorem X1_assess_answer_bounds (student_answer model_answer : string)
    (max_score : Z) (Hmax : 0 <= max_score) :
  let c := cosine (model_encode student_answer) (model_encode model_answer) in
  exists similarity score,
    assess_answer student_answer model_answer max_score
    = ([EncodeText student_answer; EncodeText model_answer],
       inr (similarity, score)) /\
    similarity = Qmax 0 (Qmin 1 c) /\
    score = map_similarity_to_score similarity max_score /\
    (0 <= similarity <= 1)%Q /\
    0 <= score <= max_score /\
    ((c <= 0)%Q -> (similarity == 0)%Q /\ score = 0) /\
    ((0 <= c <= 1)%Q -> (similarity == c)%Q) /\
    ((1 <= c)%Q -> (similarity == 1)%Q /\ score = max_score).
Proof.
  cbv zeta. eexists _, _. split; [reflexivity|].
  split; [reflexivity|]. split; [reflexivity|].
  split; [apply compute_similarity_bounds|].
  split; [now apply map_score_bounds|].
  unfold compute_similarity.
  set (c := cosine (model_encode student_answer) (model_encode model_answer)).
  assert (Hmin : (c <= 1 -> Qmin 1 c == c)%Q) by (intros; now apply Q.min_r).
  assert (Hmin' : (1 <= c -> Qmin 1 c == 1)%Q) by (intros; now apply Q.min_l).
  split; [|split].
  - intros Hc.
    assert (E : (Qmax 0 (Qmin 1 c) == 0)%Q).
    { apply Q.max_l. rewrite Hmin by lra. exact Hc. }
    split; [exact E|]. unfold map_similarity_to_score.
    repeat match goal with
    | |- context [Qle_bool ?a ?p] =>
        let F := fresh "F" in
        destruct (Qle_bool a p) eqn:F;
        [apply Qle_bool_iff in F; exfalso; lra | clear F]
    end.
    reflexivity.
  - intros [H0 H1]. rewrite (Q.max_r 0 (Qmin 1 c)); [now apply Hmin|].
    rewrite Hmin by exact H1. exact H0.
  - intros Hc.
    assert (E : (Qmax 0 (Qmin 1 c) == 1)%Q).
    { rewrite (Q.max_r 0 (Qmin 1 c)); [now apply Hmin'|].
      rewrite Hmin' by exact Hc. discriminate. }
    split; [exact E|]. unfold map_similarity_to_score.
    destruct (Qle_bool 0.80 _) eqn:F; [reflexivity|].
    apply Qle_bool_false in F. exfalso. lra.
Qed.

(** X2: for a non-negative maximum the basic score never decreases when
    the similarity increases. *)
Theorem X2_map_similarity_to_score_monotone (s1 s2 : Q) (max_score : Z)
    (Hmax : 0 <= max_score) (Hs : (s1 <= s2)%Q) :
  map_similarity_to_score s1 max_score <= map_similarity_to_score s2 max_score.
Proof.
  destruct (band_values max_score Hmax) as (H4 & H7 & _).
  unfold map_similarity_to_score.
  destruct (Qle_bool 0.80 s1) eqn:A1;
    [apply Qle_bool_iff in A1 | apply Qle_bool_false in A1];
  (destruct (Qle_bool 0.80 s2) eqn:A2;
    [apply Qle_bool_iff in A2 | apply Qle_bool_false in A2]);
  try lia; try (exfalso; lra);
  (destruct (Qle_bool 0.60 s1) eqn:B1;
    [apply Qle_bool_iff in B1 | apply Qle_bool_false in B1]);
  (destruct (Qle_bool 0.60 s2) eqn:B2;
    [apply Qle_bool_iff in B2 | apply Qle_bool_false in B2]);
  try lia; try (exfalso; lra);
  (destruct (Qle_bool 0.40 s1) eqn:C1;
    [apply Qle_bool_iff in C1 | apply Qle_bool_false in C1]);
  (destruct (Qle_bool 0.40 s2) eqn:C2;
    [apply Qle_bool_iff in C2 | apply Qle_bool_false in C2]);
  try lia; exfalso; lra.
Qed.

(** X3: for a positive maximum the basic scorer awards full marks exactly
    when the similarity is at least 0.80, which is exactly when the
    feedback is the "Excellent answer" template. *)
Theorem X3_full_marks_iff_excellent (s : Q) (max_score : Z)
    (Hmax : 0 < max_score) :
  (map_similarity_to_score s max_score = max_score <-> (0.80 <= s)%Q) /\
  (generate_feedback s
   = "Excellent answer. High semantic similarity to the model answer."
   <-> (0.80 <= s)%Q).
Proof.
  destruct (band_values max_score ltac:(lia)) as (H4 & H7 & Hlt).
  specialize (Hlt Hmax).
  unfold map_similarity_to_score, generate_feedback.
  destruct (Qle_bool 0.80 s) eqn:A;
    [apply Qle_bool_iff in A | apply Qle_bool_false in A].
  - split; split; auto.
  - split; (split; [|intros; exfalso; lra]).
    + destruct (Qle_bool 0.60 s); [lia|].
      destruct (Qle_bool 0.40 s); lia.
    + destruct (Qle_bool 0.60 s); [discriminate|].
      destruct (Qle_bool 0.40 s); discriminate.
Qed.

(* ------------------------------------------------------------------ *)
(** ** The batch services *)

Section BatchLoop.
Context {I : Type}.
Variable step :
  list BatchAssessmentResult.t * Z -> I -> M (list BatchAssessmentResult.t * Z).
Variable entry : I -> BatchAssessmentResult.t.
Variable entry_calls : I -> list call.
Hypothesis step_run : forall results total item,
  step (results, total) item
  = (entry_calls item,
     inr (results ++ [entry item],
          total + BatchAssessmentResult.awarded_score (entry item))).

Lemma batch_loop_run (items : list I) :
  forall results total,
    for_each items step (results, total)
    = (flat_map entry_calls items,
       inr (results ++ map entry items,
            total
            + sum_Z (map BatchAssessmentResult.awarded_score
                       (map entry items)))).
Proof.
  induction items as [|item t IH]; intros results total;
    cbn [for_each flat_map map].
  - unfold ret. now rewrite app_nil_r, Z.add_0_r.
  - rewrite (bind_value _ _ _ _ (step_run results total item)), IH.
    cbn [fst snd]. rewrite <- app_assoc, sum_Z_cons, Z.add_assoc.
    reflexivity.
Qed.

End BatchLoop.

Lemma batch_step_run (results : list BatchAssessmentResult.t) (total : Z)
    (item : BatchAnswerItem.t) :
  batch_step (results, total) item
  = (batch_calls item,
     inr (results ++ [batch_entry item],
          total + BatchAssessmentResult.awarded_score (batch_entry item))).
Proof.
  unfold batch_step, batch_calls, batch_entry, blank.
  destruct (_ || _).
  - cbn. now rewrite Z.add_0_r.
  - reflexivity.
Qed.

Lemma single_model_step_run (model_answer : string)
    (results : list BatchAssessmentResult.t) (total : Z)
    (item : StudentAnswerDict.t) :
  single_model_step (model_encode model_answer) (results, total) item
  = (single_calls item,
     inr (results ++ [single_entry model_answer item],
          total
          + BatchAssessmentResult.awarded_score
              (single_entry model_answer item))).
Proof.
  unfold single_model_step, single_calls, single_entry, as_batch_item, blank.
  cbn [BatchAnswerItem.student_answer BatchAnswerItem.student_id
       BatchAnswerItem.max_score].
  destruct (StudentAnswerDict.answer item) as [a|].
  - destruct (Str.is_empty (Str.strip a)).
    + cbn. now rewrite Z.add_0_r.
    + reflexivity.
  - cbn. now rewrite Z.add_0_r.
Qed.

Lemma process_batch_run (answers : list BatchAnswerItem.t) :
  process_batch_assessments answers
  = (flat_map batch_calls answers,
     inr (map batch_entry answers, batch_average (map batch_entry answers))).
Proof.
  unfold process_batch_assessments.
  rewrite (bind_value _ _ _ _
             (batch_loop_run batch_step batch_entry batch_calls
                batch_step_run answers [] 0)).
  cbn [fst snd ret app]. now rewrite app_nil_r.
Qed.

Lemma process_single_model_run (model_answer : string)
    (student_answers : list StudentAnswerDict.t) :
  process_single_model_batch model_answer student_answers
  = (EncodeText model_answer :: flat_map single_calls student_answers,
     inr (map (single_entry model_answer) student_answers,
          batch_average (map (single_entry model_answer) student_answers))).
Proof.
  unfold process_single_model_batch, encode_text.
  unfold bind at 1.
  rewrite (bind_value _ _ _ _
             (batch_loop_run (single_model_step (model_encode model_answer))
                (single_entry model_answer) single_calls
                (single_model_step_run model_answer) student_answers [] 0)).
  cbn [fst snd ret app]. now rewrite app_nil_r.
Qed.

Lemma batch_entry_id (item : BatchAnswerItem.t) :
  BatchAssessmentResult.student_id (batch_entry item)
  = BatchAnswerItem.student_id item.
Proof. unfold batch_entry. now destruct (_ || _). Qed.

Lemma batch_entry_score (item : BatchAnswerItem.t) :
  0 <= BatchAnswerItem.max_score item ->
  0 <= BatchAssessmentResult.awarded_score (batch_entry item)
  <= BatchAnswerItem.max_score item.
Proof.
  intros H. unfold batch_entry. destruct (_ || _); cbn; [lia|].
  now apply map_score_bounds.
Qed.

(** X4: the batch service returns one result per item, in the order of
    the request and under the item's student id; it encodes the model and
    the student answer of every item whose two texts are non-blank, and
    nothing for the other items, which get score 0 and the
    "Invalid answer" feedback. *)
Theorem X4_batch_results_in_order (answers : list BatchAnswerItem.t) :
  exists results average,
    process_batch_assessments answers
    = (flat_map batch_calls answers, inr (results, average)) /\
    map BatchAssessmentResult.student_id results
    = map BatchAnswerItem.student_id answers /\
    forall i item,
      nth_error answers i = Some item ->
      exists r,
        nth_error results i = Some r /\
        (blank (BatchAnswerItem.model_answer item)
         || blank (BatchAnswerItem.student_answer item) = true ->
         batch_calls item = [] /\
         BatchAssessmentResult.awarded_score r = 0 /\
         BatchAssessmentResult.feedback r
         = "Invalid answer: empty text provided") /\
        (blank (BatchAnswerItem.model_answer item)
         || blank (BatchAnswerItem.student_answer item) = false ->
         batch_calls item
         = [EncodeText (BatchAnswerItem.model_answer item);
            EncodeText (BatchAnswerItem.student_answer item)] /\
         BatchAssessmentResult.feedback r
         <> "Invalid answer: empty text provided").
Proof.
  rewrite process_batch_run. eexists _, _. split; [reflexivity|].
  split.
  - rewrite map_map. apply map_ext, batch_entry_id.
  - intros i item Hi. exists (batch_entry item).
    split; [now apply map_nth_error|].
    unfold batch_calls, batch_entry.
    split; intros ->; cbn; [auto|]. split; [reflexivity|].
    unfold generate_feedback.
    destruct (Qle_bool 0.80 _); [discriminate|].
    destruct (Qle_bool 0.60 _); [discriminate|].
    destruct (Qle_bool 0.40 _); discriminate.
Qed.

Lemma sum_scores_bounds (bound : Z) (answers : list BatchAnswerItem.t) :
  Forall (fun item => 0 <= BatchAnswerItem.max_score item <= bound) answers ->
  0 <= sum_Z (map BatchAssessmentResult.awarded_score
                (map batch_entry answers))
  <= bound * len answers.
Proof.
  induction 1 as [|item t Hitem _ IH]; cbn [map].
  - unfold len. cbn. lia.
  - rewrite sum_Z_cons.
    assert (Hs := batch_entry_score item ltac:(lia)).
    unfold len in *. cbn [List.length]. lia.
Qed.

(** X5: the average that the batch service reports is the sum of all
    awarded scores divided by the number of items, invalid items included,
    both steps in binary64: the quotient is rounded to a double, and that
    double to two decimals.  With every maximum between 0 and a common
    bound below 2^53, the average lies between 0 and that bound. *)
Theorem X5_batch_average (answers : list BatchAnswerItem.t) (bound : Z)
    (Hne : answers <> [])
    (Hmax : Forall (fun item => 0 <= BatchAnswerItem.max_score item <= bound)
              answers)
    (Hbound : bound < 2 ^ 53) :
  exists results average,
    outcome (process_batch_assessments answers) = inr (results, average) /\
    average
    = Float64.round_ndigits
        (Float64.truediv
           (sum_Z (map BatchAssessmentResult.awarded_score results))
           (len answers)) 2 /\
    (0 <= average <= inject_Z bound)%Q.
Proof.
  rewrite process_batch_run. cbn [outcome snd]. eexists _, _.
  split; [reflexivity|].
  assert (Havg : forall rs : list BatchAssessmentResult.t, rs <> [] ->
            batch_average rs
            = Float64.round_ndigits
                (Float64.truediv
                   (sum_Z (map BatchAssessmentResult.awarded_score rs))
                   (len rs)) 2).
  { intros [|r rs] H; [congruence | reflexivity]. }
  assert (Hlen : len (map batch_entry answers) = len answers)
    by (unfold len; now rewrite length_map).
  rewrite Havg by (destruct answers; [congruence | discriminate]).
  rewrite Hlen. split; [reflexivity|].
  destruct (sum_scores_bounds bound _ Hmax) as (Hlo & Hhi).
  assert (Hpos : 0 < len answers).
  { destruct answers; [congruence | apply len_pos]. }
  set (total := sum_Z _) in *. set (n := len answers) in *.
  apply (float_round_ndigits_between 0 bound); [lia | exact Hbound|].
  apply (float_truediv_between 0 bound); [lia | exact Hbound | exact Hpos|].
  lia.
Qed.

(** X6: the single-model batch encodes the model answer exactly once,
    first and even for an empty batch, then each non-blank student answer
    once in order, so it makes one encoder call more than there are
    non-blank answers; it returns one result per dict. *)
Theorem X6_single_model_encoded_once (model_answer : string)
    (student_answers : list StudentAnswerDict.t) :
  exists results average,
    process_single_model_batch model_answer student_answers
    = (EncodeText model_answer :: flat_map single_calls student_answers,
       inr (results, average)) /\
    List.length results = List.length student_answers /\
    List.length (calls (process_single_model_batch model_answer student_answers))
    = S (List.length
           (filter
              (fun item =>
                 match StudentAnswerDict.answer item with
                 | Some a => negb (blank a)
                 | None => false
                 end)
              student_answers)).
Proof.
  rewrite process_single_model_run. eexists _, _.
  split; [reflexivity|]. split; [now rewrite length_map|].
  cbn [calls fst List.length]. f_equal.
  induction student_answers as [|item t IH]; cbn [flat_map filter];
    [reflexivity|].
  rewrite length_app, IH. unfold single_calls.
  destruct (StudentAnswerDict.answer item) as [a|]; [|reflexivity].
  now destruct (blank a).
Qed.

(** X7: with a non-blank model answer the single-model batch returns the
    same results and the same average as the general batch run on the same
    answers, each paired with that model answer. *)
Theorem X7_single_model_agrees_with_batch (model_answer : string)
    (student_answers : list StudentAnswerDict.t)
    (Hmodel : blank model_answer = false) :
  outcome (process_single_model_batch model_answer student_answers)
  = outcome (process_batch_assessments
               (map (as_batch_item model_answer) student_answers)).
Proof.
  rewrite process_single_model_run, process_batch_run. cbn [outcome snd].
  rewrite map_map.
  assert (H : forall item,
            single_entry model_answer item
            = batch_entry (as_batch_item model_answer item)).
  { intros item. unfold single_entry, batch_entry.
    cbn [as_batch_item BatchAnswerItem.model_answer
         BatchAnswerItem.student_answer BatchAnswerItem.student_id
         BatchAnswerItem.max_score].
    now rewrite Hmodel. }
  now rewrite (map_ext _ _ H).
Qed.

(* ------------------------------------------------------------------ *)
(** ** The enhanced assessment *)

Lemma default_total_bounds (model_answer student_answer : string) :
  (0 <= default_total model_answer student_answer <= 1)%Q.
Proof.
  unfold default_total.
  assert (Ha := accuracy_bounds
                  (cosine (model_encode model_answer)
                     (model_encode student_answer))).
  assert (Hl := length_ratio_bounds model_answer student_answer).
  assert (Hc := concept_coverage_bounds model_answer student_answer).
  assert (Hk := clarity_bounds student_answer).
  lra.
Qed.

Lemma enhanced_assessment_default_run (model_answer student_answer : string)
    (max_score : Z) :
  exists a,
    enhanced_assessment model_answer student_answer max_score None
    = ([EncodeText model_answer; EncodeText student_answer]
       ++ match_calls (identify_key_concepts model_answer 5) student_answer
       ++ match_calls (identify_key_concepts model_answer 5) student_answer
       ++ match_calls (identify_key_concepts model_answer 5) student_answer,
       inr a) /\
    EnhancedAssessment.awarded_score a
    = Py.round (default_total model_answer student_answer
                * inject_Z max_score) /\
    EnhancedAssessment.max_score a = max_score /\
    EnhancedAssessment.percentage a
    = Py.round_ndigits (default_total model_answer student_answer * 100) 1 /\
    ConceptAnalysis.total_concepts (EnhancedAssessment.concept_analysis a)
    = len (identify_key_concepts model_answer 5) /\
    ConceptAnalysis.concepts_found (EnhancedAssessment.concept_analysis a)
    = matched_count
        (concept_matches_of (identify_key_concepts model_answer 5)
           student_answer).
Proof.
  unfold enhanced_assessment.
  rewrite (bind_value _ _ _ _ (score_with_rubric_default_run _ _)).
  match goal with
  | |- context [generate_detailed_feedback ?r _ _] =>
      destruct (generate_detailed_feedback_returns r model_answer
                  student_answer) as (fb & Hfb)
  end.
  rewrite (bind_value _ _ _ _ Hfb).
  rewrite (bind_value _ _ _ _ (match_concepts_run _ _)).
  cbn [RubricResult.rubric_weights]. unfold weight_of, default_rubric_weights.
  cbn [Dict.get String.eqb Ascii.eqb Bool.eqb].
  rewrite !bind_ret_l. cbn [fst snd ret].
  rewrite app_nil_r, <- !app_assoc.
  eexists. split; [reflexivity|]. repeat split.
Qed.

(** X8: with the default weights and a non-negative maximum the enhanced
    assessment returns an awarded score between 0 and the maximum and a
    percentage between 0 and 100. *)
Theorem X8_enhanced_score_bounds (model_answer student_answer : string)
    (max_score : Z) (Hmax : 0 <= max_score) :
  exists a,
    outcome (enhanced_assessment model_answer student_answer max_score None)
    = inr a /\
    0 <= EnhancedAssessment.awarded_score a <= max_score /\
    EnhancedAssessment.max_score a = max_score /\
    (0 <= EnhancedAssessment.percentage a <= 100)%Q.
Proof.
  destruct (enhanced_assessment_default_run model_answer student_answer
              max_score) as (a & Hrun & Haw & Hm & Hp & _).
  exists a. rewrite Hrun. split; [reflexivity|].
  assert (Ht := default_total_bounds model_answer student_answer).
  assert (Hq := inject_Z_nonneg max_score Hmax).
  set (t := default_total model_answer student_answer) in *.
  split; [|split; [exact Hm|]].
  - rewrite Haw. split.
    + change 0 with (Py.round (inject_Z 0)). apply round_mono.
      apply Qmult_le_0_compat; [apply Ht | exact Hq].
    + rewrite <- (round_Z max_score) at 2. apply round_mono.
      rewrite <- (Qmult_1_l (inject_Z max_score)) at 2.
      apply Qmult_le_compat_r; [apply Ht | exact Hq].
  - rewrite Hp. split.
    + eapply Qle_trans; [|apply (round_ndigits_mono 0); lra].
      rewrite (round_ndigits_zero 1). apply Qle_refl.
    + eapply Qle_trans.
      * apply (round_ndigits_mono _ (inject_Z 100)).
        change (inject_Z 100) with 100%Q. lra.
      * rewrite round_ndigits_Z. apply Qle_refl.
Qed.

Lemma weight_of_missing (weights : list (string * Q)) (key : string) :
  Dict.get String.eqb weights key = None ->
  weight_of weights key = raise (KeyError key).
Proof. unfold weight_of. now intros ->. Qed.

(** X9: custom rubric weights that lack a criterion make the rubric
    scorer and the enhanced assessment raise KeyError for the first
    missing one of "accuracy", "completeness", "clarity", and this only
    after both answers have been encoded and scored. *)
Theorem X9_missing_weight_raises (model_answer student_answer : string)
    (max_score : Z) (weights : list (string * Q)) (key : string)
    (Hkey :
       (key = "accuracy" /\ Dict.get String.eqb weights "accuracy" = None) \/
       (key = "completeness" /\
        Dict.get String.eqb weights "accuracy" <> None /\
        Dict.get String.eqb weights "completeness" = None) \/
       (key = "clarity" /\
        Dict.get String.eqb weights "accuracy" <> None /\
        Dict.get String.eqb weights "completeness" <> None /\
        Dict.get String.eqb weights "clarity" = None)) :
  let log :=
    [EncodeText model_answer; EncodeText student_answer]
    ++ match_calls (identify_key_concepts model_answer 5) student_answer in
  score_with_rubric model_answer student_answer (Some weights)
  = (log, inl (KeyError key)) /\
  enhanced_assessment model_answer student_answer max_score (Some weights)
  = (log, inl (KeyError key)).
Proof.
  cbv zeta.
  assert (Hs : score_with_rubric model_answer student_answer (Some weights)
               = ([EncodeText model_answer; EncodeText student_answer]
                  ++ match_calls (identify_key_concepts model_answer 5)
                       student_answer,
                  inl (KeyError key))).
  { unfold score_with_rubric.
    rewrite (bind_value _ _ _ _ (score_accuracy_run _ _)).
    rewrite (bind_value _ _ _ _ (score_completeness_run _ _)).
    destruct Hkey as [(-> & Ha)|[(-> & Ha & Hc)|(-> & Ha & Hc & Hk)]].
    - rewrite (weight_of_missing _ _ Ha). cbn. now rewrite app_nil_r.
    - destruct (weight_of_returns _ _ Ha) as (wa & ->).
      rewrite bind_ret_l, (weight_of_missing _ _ Hc). cbn.
      now rewrite app_nil_r.
    - destruct (weight_of_returns _ _ Ha) as (wa & ->).
      destruct (weight_of_returns _ _ Hc) as (wc & ->).
      rewrite !bind_ret_l, (weight_of_missing _ _ Hk). cbn.
      now rewrite app_nil_r. }
  split; [exact Hs|].
  unfold enhanced_assessment. rewrite Hs. reflexivity.
Qed.

(* ------------------------------------------------------------------ *)
(** ** Key concepts and their count *)

Lemma identify_key_concepts_length (model_answer : string) :
  len (identify_key_concepts model_answer 5) <= 5.
Proof.
  unfold identify_key_concepts, slice_to, len.
  destruct (5 <? Z.of_nat _) eqn:E.
  - cbn [Z.ltb Z.compare]. rewrite length_firstn. lia.
  - lia.
Qed.

Lemma distinct_from_NoDup (l ks : list string) :
  NoDup ks ->
  NoDup (fold_left
           (fun ks c => if existsb (String.eqb c) ks then ks else ks ++ [c])
           l ks).
Proof.
  revert ks. induction l as [|x l IH]; intros ks Hks; cbn; [exact Hks|].
  apply IH. destruct (existsb (String.eqb x) ks) eqn:E; [exact Hks|].
  apply NoDup_rev in Hks. rewrite <- (rev_involutive (ks ++ [x])).
  apply NoDup_rev. rewrite rev_app_distr. cbn. constructor; [|exact Hks].
  rewrite <- in_rev. intros Hin. apply existsb_eqb_In in Hin. congruence.
Qed.

Lemma distinct_keys_NoDup (l : list string) : NoDup (distinct_keys l).
Proof. apply distinct_from_NoDup. constructor. Qed.

Lemma distinct_from_shorter (l ks : list string) :
  (exists x, In x l /\ In x ks) \/ ~ NoDup l ->
  (List.length
     (fold_left
        (fun ks c => if existsb (String.eqb c) ks then ks else ks ++ [c])
        l ks)
   < List.length ks + List.length l)%nat.
Proof.
  revert ks. induction l as [|x l IH]; intros ks H.
  - destruct H as [(y & [] & _)|H]. exfalso. apply H. constructor.
  - cbn [fold_left List.length].
    destruct (existsb (String.eqb x) ks) eqn:E.
    + assert (Hle := distinct_from_length l ks). lia.
    + assert (Hx : ~ In x ks).
      { intros Hin. apply existsb_eqb_In in Hin. congruence. }
      assert (Hgoal : (exists y, In y l /\ In y (ks ++ [x])) \/ ~ NoDup l).
      { destruct H as [(y & [<-|Hy] & Hyk)|H].
        - contradiction.
        - left. exists y. split; [exact Hy|]. apply in_app_iff. now left.
        - destruct (in_dec string_dec x l) as [Hin|Hnin].
          + left. exists x. split; [exact Hin|].
            apply in_app_iff. right. now left.
          + right. intros Hnd. apply H. now constructor. }
      specialize (IH (ks ++ [x]) Hgoal). rewrite length_app in IH.
      cbn [List.length] in IH. lia.
Qed.

Lemma distinct_keys_shorter (l : list string) :
  ~ NoDup l -> (List.length (distinct_keys l) < List.length l)%nat.
Proof. intros H. apply (distinct_from_shorter l []). now right. Qed.

Lemma matched_count_distinct (g : string -> ConceptMatch.t) (l : list string) :
  0 <= matched_count (Dict.comprehension String.eqb (fun c => c) g l)
  <= len (distinct_keys l).
Proof.
  rewrite matched_count_comprehension. split; [apply len_nonneg|].
  unfold len. apply inj_le, filter_length_le.
Qed.

(** X10: the completeness breakdown counts each distinct key concept at
    most once: the concepts found are at most the distinct key concepts,
    which are at most the total, which is at most 5. *)
Theorem X10_concept_counts (model_answer student_answer : string) :
  exists c,
    outcome (score_completeness model_answer student_answer) = inr c /\
    Completeness.total_concepts c = len (identify_key_concepts model_answer 5) /\
    0 <= Completeness.concepts_found c /\
    Completeness.concepts_found c
    <= len (distinct_keys (identify_key_concepts model_answer 5)) /\
    len (distinct_keys (identify_key_concepts model_answer 5))
    <= Completeness.total_concepts c /\
    Completeness.total_concepts c <= 5.
Proof.
  rewrite score_completeness_run. cbn [outcome snd]. eexists.
  split; [reflexivity|].
  cbn [Completeness.total_concepts Completeness.concepts_found].
  split; [reflexivity|]. unfold concept_matches_of.
  split; [apply matched_count_distinct|].
  split; [apply matched_count_distinct|].
  split; [|apply identify_key_concepts_length].
  unfold len. apply inj_le. apply (distinct_from_length _ []).
Qed.

(** X11: when the key concepts of the model answer contain a repeated
    phrase, no student answer reaches full concept coverage: the coverage
    and the completeness score stay below 1. *)
Theorem X11_repeated_concept_caps_coverage (model_answer student_answer : string)
    (Hdup : ~ NoDup (identify_key_concepts model_answer 5)) :
  exists c,
    outcome (score_completeness model_answer student_answer) = inr c /\
    (Completeness.concept_coverage c < 1)%Q /\
    (Completeness.score c < 1)%Q.
Proof.
  rewrite score_completeness_run. cbn [outcome snd]. eexists.
  split; [reflexivity|].
  cbn [Completeness.concept_coverage Completeness.score].
  assert (Hl := length_ratio_bounds model_answer student_answer).
  assert (Hc : (concept_coverage_of model_answer student_answer < 1)%Q).
  { unfold concept_coverage_of.
    assert (Hlt := distinct_keys_shorter _ Hdup).
    destruct (identify_key_concepts model_answer 5) as [|c0 kc] eqn:E.
    { exfalso. apply Hdup. constructor. }
    unfold Py.truediv. apply Qlt_shift_div_r.
    - apply inject_Z_pos, len_pos.
    - rewrite Qmult_1_l. rewrite <- Zlt_Qlt.
      unfold concept_matches_of.
      destruct (matched_count_distinct
                  (match extract_key_phrases student_answer 2 with
                   | [] => fun _ => unmatched
                   | _ => concept_match_of (extract_key_phrases student_answer 2)
                   end) (c0 :: kc)) as (_ & Hm).
      unfold len in *. lia. }
  split; [exact Hc | lra].
Qed.

(** X12: [match_concepts] returns a dict with exactly one entry per
    distinct concept, in the order of first appearance; it calls the
    encoder not at all when there is no concept or no student phrase, and
    otherwise exactly twice, first with all concepts and then with all
    student phrases. *)
Theorem X12_match_concepts_keys_and_calls (key_concepts : list string)
    (student_answer : string) :
  let phrases := extract_key_phrases student_answer 2 in
  exists results,
    match_concepts key_concepts student_answer
    = (match_calls key_concepts student_answer, inr results) /\
    Dict.keys results = distinct_keys key_concepts /\
    NoDup (Dict.keys results) /\
    (forall c, In c (Dict.keys results) <-> In c key_concepts) /\
    (key_concepts = [] \/ phrases = [] ->
     match_calls key_concepts student_answer = []) /\
    (key_concepts <> [] -> phrases <> [] ->
     match_calls key_concepts student_answer
     = [EncodeTexts key_concepts; EncodeTexts phrases]).
Proof.
  cbv zeta. rewrite match_concepts_run. eexists. split; [reflexivity|].
  assert (Hkeys : Dict.keys (concept_matches_of key_concepts student_answer)
                  = distinct_keys key_concepts).
  { unfold concept_matches_of. rewrite comprehension_distinct.
    unfold Dict.keys. rewrite map_map. cbn [fst]. apply map_id. }
  rewrite Hkeys.
  split; [reflexivity|]. split; [apply distinct_keys_NoDup|].
  split; [apply distinct_keys_In|].
  unfold match_calls. split.
  - intros [->| ->]; [reflexivity|]. now destruct key_concepts.
  - intros Hk Hp. destruct key_concepts; [congruence|].
    destruct (extract_key_phrases student_answer 2); [congruence|].
    reflexivity.
Qed.

(* ------------------------------------------------------------------ *)
(** ** Strengths *)



(* ------------------------------------------------------------------ *)
(** ** Further properties of paper grading *)

Lemma filter_m_zero_marks (f : Q -> bool) (xs : list QuestionResult.t) :
  Exists (fun q => QuestionResult.marks_allocated q = 0) xs ->
  filter_m (fun q => r <- score_ratio q ;; ret (f r)) xs
  = ([], inl ZeroDivisionError).
Proof.
  induction xs as [|x xs IH]; intros H; [inversion H|].
  cbn [filter_m].
  destruct (Z.eq_dec (QuestionResult.marks_allocated x) 0) as [E|E].
  - unfold score_ratio, truediv_m. rewrite E. reflexivity.
  - rewrite (score_ratio_run x E), !bind_ret_l.
    rewrite IH; [reflexivity|].
    inversion H; subst; [contradiction | assumption].
Qed.

Lemma overall_feedback_raises (percentage : Q)
    (question_results : list QuestionResult.t) :
  Exists (fun q => QuestionResult.marks_allocated q = 0) question_results ->
  _generate_overall_feedback percentage question_results
  = ([], inl ZeroDivisionError).
Proof.
  intros H. unfold _generate_overall_feedback.
  now rewrite (filter_m_zero_marks _ _ H).
Qed.

Lemma overall_feedback_enhanced_raises (percentage : Q)
    (question_results : list QuestionResult.t) :
  Exists (fun q => QuestionResult.marks_allocated q = 0) question_results ->
  _generate_overall_feedback_enhanced percentage question_results
  = ([], inl ZeroDivisionError).
Proof.
  intros H. unfold _generate_overall_feedback_enhanced.
  now rewrite (overall_feedback_raises _ _ H).
Qed.

(** X15: the two builders of the overall feedback divide the awarded
    score of every result by its mark allocation: when some result carries
    the allocation 0, be it an unanswered question, both raise
    ZeroDivisionError, and when none does, both return; neither calls the
    encoder. *)
Theorem X15_zero_marks_raise (percentage : Q)
    (question_results : list QuestionResult.t) :
  (Exists (fun q => QuestionResult.marks_allocated q = 0) question_results ->
   _generate_overall_feedback percentage question_results
   = ([], inl ZeroDivisionError) /\
   _generate_overall_feedback_enhanced percentage question_results
   = ([], inl ZeroDivisionError)) /\
  (Forall (fun q => QuestionResult.marks_allocated q <> 0) question_results ->
   (exists fb,
      _generate_overall_feedback percentage question_results
      = ([], inr fb)) /\
   (exists fb,
      _generate_overall_feedback_enhanced percentage question_results
      = ([], inr fb))).
Proof.
  split.
  - intros Hzero. split;
      [now apply overall_feedback_raises
      | now apply overall_feedback_enhanced_raises].
  - intros Hmarks. split;
      [now apply overall_feedback_returns
      | now apply overall_feedback_enhanced_returns].
Qed.

(** X16: the basic scoring of one question always returns, after encoding
    the model answer and then the student answer; the result repeats the
    question's number, text and mark allocation and the answer it was
    given; for a non-negative allocation the awarded score lies between 0
    and the allocation; the similarity it reports lies between 0 and 1;
    and it carries no rubric breakdown and no concept analysis. *)
Theorem X16_score_question_basic (q : Question.t) (student_answer : string)
    (Hmarks : 0 <= Question.marks_allocated q) :
  exists r,
    _score_question_basic q student_answer
    = ([EncodeText (Question.model_answer q); EncodeText student_answer],
       inr r) /\
    QuestionResult.question_number r = Question.question_number q /\
    QuestionResult.question_text r = Question.question_text q /\
    QuestionResult.marks_allocated r = Question.marks_allocated q /\
    QuestionResult.student_answer r = student_answer /\
    0 <= QuestionResult.awarded_score r <= Question.marks_allocated q /\
    (exists similarity,
       QuestionResult.similarity_score r = Some similarity /\
       (0 <= similarity <= 1)%Q) /\
    QuestionResult.rubric_breakdown r = None /\
    QuestionResult.concept_analysis r = None.
Proof.
  rewrite score_question_basic_run. eexists. split; [reflexivity|].
  cbn [QuestionResult.question_number QuestionResult.question_text
       QuestionResult.marks_allocated QuestionResult.student_answer
       QuestionResult.awarded_score QuestionResult.similarity_score
       QuestionResult.rubric_breakdown QuestionResult.concept_analysis].
  repeat (split; [reflexivity|]).
  split; [now apply map_score_bounds|].
  split; [|split; reflexivity].
  eexists. split; [reflexivity|].
  apply (round_ndigits_between 0 1), compute_similarity_bounds.
Qed.

Lemma enhanced_default_awarded_bounds (model_answer student_answer : string)
    (max_score : Z) (a : EnhancedAssessment.t) :
  0 <= max_score ->
  outcome (enhanced_assessment model_answer student_answer max_score None)
  = inr a ->
  0 <= EnhancedAssessment.awarded_score a <= max_score.
Proof.
  intros Hmax.
  destruct (enhanced_assessment_default_run model_answer student_answer
              max_score) as (a' & Hrun & Haw & _).
  rewrite Hrun. cbn [outcome snd]. intros [= <-]. rewrite Haw.
  assert (Ht := default_total_bounds model_answer student_answer).
  assert (Hq := inject_Z_nonneg max_score Hmax).
  split.
  - change 0 with (Py.round (inject_Z 0)). apply round_mono.
    apply Qmult_le_0_compat; [apply Ht | exact Hq].
  - rewrite <- (round_Z max_score) at 2. apply round_mono.
    rewrite <- (Qmult_1_l (inject_Z max_score)) at 2.
    apply Qmult_le_compat_r; [apply Ht | exact Hq].
Qed.

(** X17: with the default weights the enhanced scoring of one question
    always returns; it encodes the two whole answers and then matches the
    key concepts of the model answer three times over; the result repeats
    the question's number, text and mark allocation and the answer it was
    given; for a non-negative allocation the awarded score lies between 0
    and the allocation and the percentage between 0 and 100; and it
    reports no similarity. *)
Theorem X17_score_question_enhanced (q : Question.t) (student_answer : string)
    (Hmarks : 0 <= Question.marks_allocated q) :
  let matching :=
    match_calls (identify_key_concepts (Question.model_answer q) 5)
      student_answer in
  exists r,
    _score_question_enhanced q student_answer None
    = ([EncodeText (Question.model_answer q); EncodeText student_answer]
       ++ matching ++ matching ++ matching,
       inr r) /\
    QuestionResult.question_number r = Question.question_number q /\
    QuestionResult.question_text r = Question.question_text q /\
    QuestionResult.marks_allocated r = Question.marks_allocated q /\
    QuestionResult.student_answer r = student_answer /\
    0 <= QuestionResult.awarded_score r <= Question.marks_allocated q /\
    QuestionResult.similarity_score r = None /\
    (exists percentage,
       QuestionResult.percentage r = Some percentage /\
       (0 <= percentage <= 100)%Q).
Proof.
  cbv zeta.
  destruct (enhanced_assessment_default_run (Question.model_answer q)
              student_answer (Question.marks_allocated q))
    as (a & Hrun & Haw & _ & Hp & _).
  unfold _score_question_enhanced.
  rewrite (bind_value _ _ _ _ Hrun). cbn [fst snd ret].
  rewrite app_nil_r. eexists. split; [reflexivity|].
  cbn [QuestionResult.question_number QuestionResult.question_text
       QuestionResult.marks_allocated QuestionResult.student_answer
       QuestionResult.awarded_score QuestionResult.similarity_score
       QuestionResult.percentage].
  repeat (split; [reflexivity|]).
  assert (Ht := default_total_bounds (Question.model_answer q) student_answer).
  split; [|split; [reflexivity|]].
  - apply (enhanced_default_awarded_bounds (Question.model_answer q)
             student_answer _ a Hmarks).
    now rewrite Hrun.
  - eexists. split; [reflexivity|]. rewrite Hp.
    apply (round_ndigits_between 0 100).
    change (inject_Z 0) with 0%Q. change (inject_Z 100) with 100%Q. lra.
Qed.

(* ------------------------------------------------------------------ *)
(** ** Dictionaries: writing and reading a key *)

Section DictSetGet.
Context {K A : Type}.
Variable eqb : K -> K -> bool.
Hypothesis eqb_spec : forall a b, eqb a b = true <-> a = b.

Lemma get_set_same (d : list (K * A)) (k : K) (v : A) :
  Dict.get eqb (Dict.set eqb d k v) k = Some v.
Proof.
  assert (Hrefl : eqb k k = true) by now apply eqb_spec.
  induction d as [|(k', v') d IH]; cbn.
  - now rewrite Hrefl.
  - destruct (eqb k k') eqn:E; cbn; rewrite E; [reflexivity | exact IH].
Qed.

Lemma get_set_other (d : list (K * A)) (k k' : K) (v : A) :
  k' <> k ->
  Dict.get eqb (Dict.set eqb d k v) k' = Dict.get eqb d k'.
Proof.
  intros Hne.
  assert (Hf : eqb k' k = false).
  { destruct (eqb k' k) eqn:E; [|reflexivity].
    apply eqb_spec in E. contradiction. }
  induction d as [|(k0, v0) d IH]; cbn.
  - now rewrite Hf.
  - destruct (eqb k k0) eqn:E; cbn.
    + apply eqb_spec in E. subst k0. now rewrite Hf.
    + now rewrite IH.
Qed.

End DictSetGet.

Lemma answer_map_fold (answers : list AnswerSubmission.t)
    (d : list (Z * string)) (n : Z) :
  (forall b, In b answers -> AnswerSubmission.question_number b <> n) ->
  Dict.get Z.eqb
    (fold_left
       (fun d x =>
          Dict.set Z.eqb d (AnswerSubmission.question_number x)
            (AnswerSubmission.answer x))
       answers d) n
  = Dict.get Z.eqb d n.
Proof.
  revert d. induction answers as [|x t IH]; intros d H; cbn; [reflexivity|].
  rewrite IH by (intros b Hb; apply H; now right).
  apply (get_set_other Z.eqb Z.eqb_eq).
  intros E. apply (H x (or_introl eq_refl)). now symmetry.
Qed.

(** X18: the answer graded for a question is the last one submitted under
    its number, and a question under whose number nothing was submitted
    has no entry in the answer map. *)
Theorem X18_last_answer_wins :
  (forall (earlier later : list AnswerSubmission.t) (a : AnswerSubmission.t),
     (forall b, In b later ->
        AnswerSubmission.question_number b
        <> AnswerSubmission.question_number a) ->
     Dict.get Z.eqb (answer_map_of (earlier ++ a :: later))
       (AnswerSubmission.question_number a)
     = Some (AnswerSubmission.answer a)) /\
  (forall (answers : list AnswerSubmission.t) (n : Z),
     (forall b, In b answers -> AnswerSubmission.question_number b <> n) ->
     Dict.get Z.eqb (answer_map_of answers) n = None).
Proof.
  split.
  - intros earlier later a Hlater.
    unfold answer_map_of, Dict.comprehension.
    rewrite fold_left_app. cbn [fold_left].
    rewrite answer_map_fold by exact Hlater.
    apply (get_set_same Z.eqb Z.eqb_eq).
  - intros answers n H. unfold answer_map_of, Dict.comprehension.
    now rewrite answer_map_fold.
Qed.

(* ------------------------------------------------------------------ *)
(** ** The areas of the overall feedback *)

Lemma In_firstn {A} (n : nat) (l : list A) (x : A) :
  In x (firstn n l) -> In x l.
Proof.
  intros H. rewrite <- (firstn_skipn n l). apply in_app_iff. now left.
Qed.

Lemma slice_to_3 {A} (l : list A) : slice_to l 3 = firstn 3 l.
Proof. reflexivity. Qed.

(** X19: for results without a zero mark allocation the overall feedback
    is produced without any encoder call; it counts all questions, counts
    as attempted only those with a positive score, lists at most three
    strong questions, each with awarded/allocated at least 0.75, and at
    most three weak ones, each with that ratio below 0.5, and no question
    is listed as both. *)
Theorem X19_overall_feedback_areas (percentage : Q)
    (question_results : list QuestionResult.t)
    (Hmarks : Forall (fun q => QuestionResult.marks_allocated q <> 0)
                question_results) :
  let ratio (q : QuestionResult.t) :=
    Py.truediv (QuestionResult.awarded_score q)
      (QuestionResult.marks_allocated q) in
  exists fb,
    _generate_overall_feedback percentage question_results = ([], inr fb) /\
    OverallFeedback.total_questions fb = len question_results /\
    OverallFeedback.attempted fb
    = len (filter (fun q => 0 <? QuestionResult.awarded_score q)
             question_results) /\
    0 <= OverallFeedback.attempted fb <= OverallFeedback.total_questions fb /\
    (List.length (OverallFeedback.strong_areas fb) <= 3)%nat /\
    (List.length (OverallFeedback.weak_areas fb) <= 3)%nat /\
    (forall q, In q (OverallFeedback.strong_areas fb) ->
       In q question_results /\ (0.75 <= ratio q)%Q) /\
    (forall q, In q (OverallFeedback.weak_areas fb) ->
       In q question_results /\ (ratio q < 0.5)%Q) /\
    (forall q, In q (OverallFeedback.strong_areas fb) ->
       ~ In q (OverallFeedback.weak_areas fb)).
Proof.
  cbv zeta. unfold _generate_overall_feedback.
  rewrite (filter_m_pure _
             (fun q => Qle_bool 0.75
                         (Py.truediv (QuestionResult.awarded_score q)
                            (QuestionResult.marks_allocated q)))).
  2:{ eapply Forall_impl; [|exact Hmarks]. intros q Hq. cbn beta.
      now rewrite (score_ratio_run q Hq), bind_ret_l. }
  rewrite bind_ret_l.
  rewrite (filter_m_pure _
             (fun q => negb (Qle_bool 0.5
                               (Py.truediv (QuestionResult.awarded_score q)
                                  (QuestionResult.marks_allocated q))))).
  2:{ eapply Forall_impl; [|exact Hmarks]. intros q Hq. cbn beta.
      now rewrite (score_ratio_run q Hq), bind_ret_l. }
  rewrite bind_ret_l. eexists. split; [reflexivity|].
  cbn [OverallFeedback.total_questions OverallFeedback.attempted
       OverallFeedback.strong_areas OverallFeedback.weak_areas].
  rewrite !slice_to_3.
  assert (Hstrong : forall q,
            In q (firstn 3
                    (filter
                       (fun q => Qle_bool 0.75
                                   (Py.truediv (QuestionResult.awarded_score q)
                                      (QuestionResult.marks_allocated q)))
                       question_results)) ->
            In q question_results /\
            (0.75 <= Py.truediv (QuestionResult.awarded_score q)
                       (QuestionResult.marks_allocated q))%Q).
  { intros q Hq. apply In_firstn, filter_In in Hq.
    destruct Hq as (Hin & Hr). split; [exact Hin | now apply Qle_bool_iff]. }
  assert (Hweak : forall q,
            In q (firstn 3
                    (filter
                       (fun q => negb
                                   (Qle_bool 0.5
                                      (Py.truediv
                                         (QuestionResult.awarded_score q)
                                         (QuestionResult.marks_allocated q))))
                       question_results)) ->
            In q question_results /\
            (Py.truediv (QuestionResult.awarded_score q)
               (QuestionResult.marks_allocated q) < 0.5)%Q).
  { intros q Hq. apply In_firstn, filter_In in Hq.
    destruct Hq as (Hin & Hr). split; [exact Hin|].
    apply negb_true_iff in Hr. now apply Qle_bool_false. }
  split; [reflexivity|]. split; [reflexivity|].
  split.
  { split; [apply len_nonneg|]. unfold len. apply inj_le, filter_length_le. }
  split; [apply firstn_le_length|]. split; [apply firstn_le_length|].
  split; [exact Hstrong|]. split; [exact Hweak|].
  intros q Hs Hw. destruct (Hstrong q Hs) as (_ & H1).
  destruct (Hweak q Hw) as (_ & H2). lra.
Qed.

(* ------------------------------------------------------------------ *)
(** ** The submission route and the stored totals *)

(** X20: the paper submission route never answers 200.  It answers 404
    when the paper is unknown, and 500 with the AttributeError of the
    fetch for every stored paper, whatever the answers, the scoring mode
    and the weights; in both cases nothing is encoded. *)
Theorem X20_submission_route_never_succeeds (submission : PaperSubmitRequest.t)
    (paper : option Paper.t) (paper_questions : list Question.t) :
  let answer := submit_and_grade_paper submission paper paper_questions in
  (paper = None ->
   answer
   = ([],
      HTTPException 404
        (StrOf (ValueError
                  ("Paper "
                   ++ Py.str_of_int (PaperSubmitRequest.paper_id submission)
                   ++ " not found"))))) /\
  (paper <> None ->
   answer = ([], HTTPException 500 (StrOf (AttributeError "is_active")))) /\
  (forall log body, answer <> (log, Ok200 body)).
Proof.
  cbv zeta. unfold submit_and_grade_paper.
  destruct (PaperSubmitRequest.use_enhanced_scoring submission);
    rewrite ?grade_paper_basic_run, ?grade_paper_enhanced_run;
    destruct paper as [p|]; cbn [grading_response];
    (split; [try discriminate; reflexivity|]);
    (split; [try congruence; reflexivity|]);
    discriminate.
Qed.

Lemma percentage_between (total_score total_marks : Z) (lo hi : Z) :
  0 < total_marks -> 0 <= lo -> hi <= 1 ->
  lo * total_marks <= total_score <= hi * total_marks ->
  let percentage :=
    Float64.mul (Float64.truediv total_score total_marks)
      (Float64.of_int 100) in
  (inject_Z (100 * lo) <= percentage <= inject_Z (100 * hi))%Q /\
  (inject_Z (100 * lo) <= Float64.round_ndigits percentage 2
   <= inject_Z (100 * hi))%Q.
Proof.
  intros Hm Hlo Hhi H. cbv zeta.
  assert (Hq := float_truediv_between lo hi total_score total_marks Hlo
                  ltac:(lia) Hm H).
  assert (H100 := b64_int 100 ltac:(lia)).
  assert (Hp : (inject_Z (100 * lo)
                <= Float64.mul (Float64.truediv total_score total_marks)
                     (Float64.of_int 100)
                <= inject_Z (100 * hi))%Q).
  { unfold Float64.mul. apply b64_between; [lia | lia|].
    unfold Float64.of_int. rewrite H100, !inject_Z_mult.
    change (inject_Z 100) with 100%Q.
    set (x := Float64.truediv total_score total_marks) in *. lra. }
  split; [exact Hp|].
  apply float_round_ndigits_between; [lia | lia | exact Hp].
Qed.

(** X21: finalising an unknown submission raises ValueError.  For a
    stored row it returns, without calling the encoder; it stores the
    total score and the feedback it was given and keeps the row's total
    marks; the stored percentage is 0 with grade "F" when the total marks
    are not positive or the total score is 0, it is 100 with grade "A+"
    when the total score equals positive total marks, and it lies between
    0 and 100 whenever the total score lies between 0 and the total
    marks. *)
Theorem X21_finalize_paper_submission (submission_id : Z)
    (row : PaperSubmission.t) (total_score : Z) (feedback : OverallFeedback.t) :
  let total_marks := PaperSubmission.total_marks row in
  finalize_paper_submission submission_id None total_score feedback
  = ([],
     inl (ValueError
            ("Submission " ++ Py.str_of_int submission_id ++ " not found"))) /\
  exists stored percentage grade,
    finalize_paper_submission submission_id (Some row) total_score feedback
    = ([], inr stored) /\
    PaperSubmission.total_score stored = Some total_score /\
    PaperSubmission.total_marks stored = total_marks /\
    PaperSubmission.overall_feedback stored = Some feedback /\
    PaperSubmission.percentage stored = Some percentage /\
    PaperSubmission.grade stored = Some grade /\
    (total_marks <= 0 \/ total_score = 0 ->
     (percentage == 0)%Q /\ grade = "F") /\
    (0 < total_marks -> total_score = total_marks ->
     (percentage == 100)%Q /\ grade = "A+") /\
    (0 <= total_score <= total_marks -> (0 <= percentage <= 100)%Q).
Proof.
  cbv zeta. split; [reflexivity|].
  unfold finalize_paper_submission. eexists _, _, _.
  split; [reflexivity|].
  cbn [PaperSubmission.total_score PaperSubmission.total_marks
       PaperSubmission.overall_feedback PaperSubmission.percentage
       PaperSubmission.grade].
  repeat (split; [reflexivity|]).
  set (m := PaperSubmission.total_marks row).
  destruct (Z.ltb_spec 0 m) as [Hm|Hm].
  - split; [|split].
    + intros [H| ->]; [lia|].
      destruct (percentage_between 0 m 0 0 Hm ltac:(lia) ltac:(lia)
                  ltac:(lia)) as (Hp & Hr).
      cbv zeta in Hp, Hr. change (inject_Z (100 * 0)) with 0%Q in Hp, Hr.
      split; [lra|].
      unfold assign_grade.
      repeat match goal with
      | |- context [Qle_bool ?a ?p] =>
          let E := fresh "E" in
          destruct (Qle_bool a p) eqn:E;
          [apply Qle_bool_iff in E; exfalso; lra | clear E]
      end.
      reflexivity.
    + intros _ ->.
      destruct (percentage_between m m 1 1 Hm ltac:(lia) ltac:(lia)
                  ltac:(lia)) as (Hp & Hr).
      cbv zeta in Hp, Hr. change (inject_Z (100 * 1)) with 100%Q in Hp, Hr.
      split; [lra|].
      unfold assign_grade.
      destruct (Qle_bool 90 _) eqn:E; [reflexivity|].
      apply Qle_bool_false in E. exfalso. lra.
    + intros H.
      destruct (percentage_between total_score m 0 1 Hm ltac:(lia) ltac:(lia)
                  ltac:(lia)) as (_ & Hr).
      cbv zeta in Hr. exact Hr.
  - split; [|split].
    + intros _. split; reflexivity.
    + intros H. lia.
    + intros H. split; discriminate.
Qed.

(* ------------------------------------------------------------------ *)
(** ** Paper statistics *)

Lemma grade_eqb_spec (a b : option string) : grade_eqb a b = true <-> a = b.
Proof.
  destruct a as [x|], b as [y|]; cbn; try (split; congruence).
  rewrite String.eqb_eq. split; congruence.
Qed.

Lemma count_grade_cons (grade : option string) (s : PaperSubmission.t)
    (t : list PaperSubmission.t) :
  count_grade grade (s :: t)
  = (if grade_eqb grade (PaperSubmission.grade s) then 1 else 0)
    + count_grade grade t.
Proof.
  unfold count_grade, count_if, len. cbn [filter].
  destruct (grade_eqb grade (PaperSubmission.grade s)); cbn [List.length]; lia.
Qed.

Lemma count_grade_nonneg (grade : option string)
    (submissions : list PaperSubmission.t) :
  0 <= count_grade grade submissions.
Proof. unfold count_grade, count_if. apply len_nonneg. Qed.

Lemma grade_distribution_from (submissions : list PaperSubmission.t)
    (grades : list (option string * Z)) (grade : option string) :
  Dict.get grade_eqb
    (fold_left
       (fun grades sub =>
          let grade := PaperSubmission.grade sub in
          Dict.set grade_eqb grades grade
            (match Dict.get grade_eqb grades grade with
             | Some n => n
             | None => 0
             end + 1))
       submissions grades)
    grade
  = if count_grade grade submissions =? 0
    then Dict.get grade_eqb grades grade
    else Some (match Dict.get grade_eqb grades grade with
               | Some n => n
               | None => 0
               end + count_grade grade submissions).
Proof.
  revert grades. induction submissions as [|s t IH]; intros grades.
  - reflexivity.
  - cbn [fold_left]. rewrite IH, count_grade_cons. clear IH.
    assert (Hc := count_grade_nonneg grade t).
    set (c := count_grade grade t) in *.
    destruct (grade_eqb grade (PaperSubmission.grade s)) eqn:E.
    + apply grade_eqb_spec in E. subst grade.
      rewrite (get_set_same grade_eqb grade_eqb_spec).
      destruct (Z.eqb_spec (1 + c) 0); [lia|].
      destruct (Z.eqb_spec c 0) as [->|_]; f_equal; lia.
    + rewrite (get_set_other grade_eqb grade_eqb_spec); [reflexivity|].
      intros ->. rewrite (proj2 (grade_eqb_spec _ _) eq_refl) in E.
      discriminate.
Qed.

Lemma grade_distribution_get (submissions : list PaperSubmission.t)
    (grade : option string) :
  Dict.get grade_eqb (calculate_grade_distribution submissions) grade
  = if count_grade grade submissions =? 0 then None
    else Some (count_grade grade submissions).
Proof. exact (grade_distribution_from submissions [] grade). Qed.

(** X22: the grade distribution maps every grade that occurs among the
    submissions to the number of submissions carrying it, which is
    positive, and has no entry for a grade that does not occur. *)
Theorem X22_grade_distribution_counts (submissions : list PaperSubmission.t)
    (grade : option string) :
  let count := count_grade grade submissions in
  0 <= count <= len submissions /\
  (count = 0 ->
   Dict.get grade_eqb (calculate_grade_distribution submissions) grade = None) /\
  (0 < count ->
   Dict.get grade_eqb (calculate_grade_distribution submissions) grade
   = Some count) /\
  (count = 0 <->
   ~ exists s, In s submissions /\ PaperSubmission.grade s = grade).
Proof.
  cbv zeta. rewrite grade_distribution_get.
  split.
  { unfold count_grade, count_if, len. split; [lia|].
    apply inj_le, filter_length_le. }
  split.
  { intros ->. reflexivity. }
  split.
  { intros H. destruct (Z.eqb_spec (count_grade grade submissions) 0); [lia|].
    reflexivity. }
  unfold count_grade, count_if, len. split.
  - intros H (s & Hin & Hs).
    assert (Hf : In s (filter
                         (fun s => grade_eqb grade (PaperSubmission.grade s))
                         submissions)).
    { apply filter_In. split; [exact Hin|]. now apply grade_eqb_spec. }
    destruct (filter _ submissions); [destruct Hf | cbn in H; lia].
  - intros H.
    destruct (filter (fun s => grade_eqb grade (PaperSubmission.grade s))
                submissions) as [|s l] eqn:E; [reflexivity|].
    exfalso. apply H. exists s.
    assert (Hf : In s (filter
                         (fun s => grade_eqb grade (PaperSubmission.grade s))
                         submissions)) by (rewrite E; now left).
    apply filter_In in Hf. destruct Hf as (Hin & Hg).
    split; [exact Hin|]. symmetry. now apply grade_eqb_spec.
Qed.

Lemma percentages_of_run (completed : list PaperSubmission.t) :
  Forall (fun s => PaperSubmission.percentage s <> None) completed ->
  exists ps,
    percentages_of completed = ([], inr ps) /\
    List.length ps = List.length completed.
Proof.
  induction 1 as [|s t Hs _ (ps & IH & Hlen)]; cbn [percentages_of].
  - exists []. split; reflexivity.
  - destruct (PaperSubmission.percentage s) as [p|]; [|congruence].
    rewrite IH. exists (p :: ps). split; [reflexivity|]. cbn. now rewrite Hlen.
Qed.

Lemma band_partition (ps : list Q) :
  count_if (fun p => Qle_bool 85 p) ps
  + count_if (fun p => Qle_bool 70 p && negb (Qle_bool 85 p)) ps
  + count_if (fun p => Qle_bool 50 p && negb (Qle_bool 70 p)) ps
  + count_if (fun p => negb (Qle_bool 50 p)) ps
  = len ps.
Proof.
  unfold count_if, len. induction ps as [|p ps IH]; [reflexivity|].
  cbn [filter List.length].
  destruct (Qle_bool 85 p) eqn:A;
    [apply Qle_bool_iff in A | apply Qle_bool_false in A];
  (destruct (Qle_bool 70 p) eqn:B;
    [apply Qle_bool_iff in B | apply Qle_bool_false in B]);
  (destruct (Qle_bool 50 p) eqn:C;
    [apply Qle_bool_iff in C | apply Qle_bool_false in C]);
  cbn [andb negb List.length]; try lia; exfalso; lra.
Qed.

Lemma insert_sorted_In (x y : Z) (xs : list Z) :
  In y (insert_sorted x xs) <-> y = x \/ In y xs.
Proof.
  induction xs as [|z t IH]; cbn.
  - intuition.
  - destruct (x <=? z); cbn; [intuition | rewrite IH; intuition].
Qed.

Lemma sorted_In (y : Z) (xs : list Z) : In y (sorted xs) <-> In y xs.
Proof.
  unfold sorted. induction xs as [|x t IH]; cbn; [tauto|].
  rewrite insert_sorted_In, IH. intuition.
Qed.

Lemma insert_sorted_length (x : Z) (xs : list Z) :
  List.length (insert_sorted x xs) = S (List.length xs).
Proof.
  induction xs as [|z t IH]; cbn; [reflexivity|].
  destruct (x <=? z); cbn; [reflexivity | now rewrite IH].
Qed.

Lemma sorted_length (xs : list Z) : List.length (sorted xs) = List.length xs.
Proof.
  unfold sorted. induction xs as [|x t IH]; cbn; [reflexivity|].
  now rewrite insert_sorted_length, IH.
Qed.

Lemma min_of_le (x : Z) (xs : list Z) (y : Z) :
  In y (x :: xs) -> min_of x xs <= y.
Proof.
  unfold min_of. revert x y. induction xs as [|z t IH]; intros x y; cbn.
  - intros [->|[]]. lia.
  - intros [->|[->|H]].
    + etransitivity; [apply (IH (Z.min y z) _ (or_introl eq_refl))|]. lia.
    + etransitivity; [apply (IH (Z.min x y) _ (or_introl eq_refl))|]. lia.
    + apply IH. now right.
Qed.

Lemma max_of_ge (x : Z) (xs : list Z) (y : Z) :
  In y (x :: xs) -> y <= max_of x xs.
Proof.
  unfold max_of. revert x y. induction xs as [|z t IH]; intros x y; cbn.
  - intros [->|[]]. lia.
  - intros [->|[->|H]].
    + etransitivity; [|apply (IH (Z.max y z) _ (or_introl eq_refl))]. lia.
    + etransitivity; [|apply (IH (Z.max x y) _ (or_introl eq_refl))]. lia.
    + apply IH. now right.
Qed.

Lemma sum_between (lo hi : Z) (l : list Z) :
  (forall y, In y l -> lo <= y <= hi) ->
  lo * len l <= sum_Z l <= hi * len l.
Proof.
  unfold len. induction l as [|x t IH]; intros H.
  - cbn. lia.
  - rewrite sum_Z_cons. cbn [List.length].
    assert (Hx := H x (or_introl eq_refl)).
    assert (Ht := IH (fun y Hy => H y (or_intror Hy))). lia.
Qed.

Lemma getitem_lt {A} (l : list A) (i : nat) :
  (i < List.length l)%nat ->
  exists x, getitem l i = ret x /\ In x l.
Proof.
  intros H. unfold getitem.
  destruct (nth_error l i) as [x|] eqn:E.
  - exists x. split; [reflexivity | eapply nth_error_In, E].
  - apply nth_error_None in E. lia.
Qed.

(** The median that the statistics compute is returned and lies between
    the smallest and the largest score. *)
Lemma median_between (first : Z) (others : list Z) :
  let sorted_scores := sorted (first :: others) in
  let n := List.length sorted_scores in
  exists median,
    (if (n mod 2 =? 1)%nat then
       m <- getitem sorted_scores (n / 2) ;; ret (inject_Z m)
     else
       a <- getitem sorted_scores (n / 2 - 1) ;;
       b <- getitem sorted_scores (n / 2) ;;
       ret (Py.truediv (a + b) 2))
    = ([], inr median) /\
    (inject_Z (min_of first others) <= median
     <= inject_Z (max_of first others))%Q.
Proof.
  cbv zeta.
  assert (Hlen : List.length (sorted (first :: others))
                 = S (List.length others)).
  { rewrite sorted_length. reflexivity. }
  assert (Hin : forall y, In y (sorted (first :: others)) ->
                  min_of first others <= y <= max_of first others).
  { intros y Hy. apply (proj1 (sorted_In y (first :: others))) in Hy.
    split; [now apply min_of_le | now apply max_of_ge]. }
  set (l := sorted (first :: others)) in *.
  set (n := List.length l) in *.
  assert (Hhalf : (n / 2 < n)%nat) by (apply Nat.div_lt; lia).
  destruct (n mod 2 =? 1)%nat eqn:E.
  - destruct (getitem_lt l (n / 2) Hhalf) as (m & -> & Hm).
    rewrite bind_ret_l. eexists. split; [reflexivity|].
    destruct (Hin m Hm). split; now apply inject_Z_le.
  - assert (Hprev : (n / 2 - 1 < n)%nat) by lia.
    destruct (getitem_lt l (n / 2 - 1) Hprev) as (a & -> & Ha).
    destruct (getitem_lt l (n / 2) Hhalf) as (b & -> & Hb).
    rewrite !bind_ret_l. eexists. split; [reflexivity|].
    destruct (Hin a Ha), (Hin b Hb).
    apply truediv_between; lia.
Qed.

(** X23: for a known paper whose graded submissions all carry a
    percentage, the statistics are returned and are consistent: graded and
    pending submissions add up to all submissions; the four performance
    bands (from 85, from 70, from 50, below 50) partition the graded
    submissions; and the lowest score is at most the median and the
    average score, which are at most the highest score. *)
Theorem X23_paper_statistics (paper_id : Z) (paper : Paper.t)
    (submissions : list PaperSubmission.t)
    (Hpct : Forall
              (fun s =>
                 PaperSubmission.total_score s <> None ->
                 PaperSubmission.percentage s <> None)
              submissions) :
  exists st,
    get_paper_statistics paper_id (Some paper) submissions
    = ([], inr (Some st)) /\
    PaperStatistics.total_submissions st = len submissions /\
    0 <= PaperStatistics.graded_submissions st /\
    0 <= PaperStatistics.pending_submissions st /\
    PaperStatistics.graded_submissions st
    + PaperStatistics.pending_submissions st
    = PaperStatistics.total_submissions st /\
    PaperStatistics.excellent_count st + PaperStatistics.good_count st
    + PaperStatistics.satisfactory_count st
    + PaperStatistics.needs_improvement_count st
    = PaperStatistics.graded_submissions st /\
    PaperStatistics.lowest_score st <= PaperStatistics.highest_score st /\
    (inject_Z (PaperStatistics.lowest_score st)
     <= PaperStatistics.median_score st
     <= inject_Z (PaperStatistics.highest_score st))%Q /\
    (inject_Z (PaperStatistics.lowest_score st)
     <= PaperStatistics.average_score st
     <= inject_Z (PaperStatistics.highest_score st))%Q.
Proof.
  unfold get_paper_statistics.
  destruct submissions as [|s0 subs].
  { eexists. split; [reflexivity|]. cbn.
    repeat split; try lia; try apply Qle_refl. }
  set (all := s0 :: subs) in *.
  set (completed :=
         filter
           (fun s =>
              match PaperSubmission.total_score s with
              | Some _ => true
              | None => false
              end) all).
  assert (Hclen : (List.length completed <= List.length all)%nat)
    by apply filter_length_le.
  destruct (flat_map
              (fun s =>
                 match PaperSubmission.total_score s with
                 | Some x => [x]
                 | None => []
                 end) completed) as [|first others] eqn:Es.
  { eexists. split; [reflexivity|].
    unfold empty_statistics.
    cbn [PaperStatistics.total_submissions PaperStatistics.graded_submissions
         PaperStatistics.pending_submissions PaperStatistics.excellent_count
         PaperStatistics.good_count PaperStatistics.satisfactory_count
         PaperStatistics.needs_improvement_count PaperStatistics.lowest_score
         PaperStatistics.highest_score PaperStatistics.median_score
         PaperStatistics.average_score].
    assert (H := len_nonneg all).
    repeat split; try lia; try apply Qle_refl. }
  assert (Hall : Forall (fun s => PaperSubmission.percentage s <> None)
                   completed).
  { apply Forall_forall. intros s Hs. apply filter_In in Hs.
    destruct Hs as (Hin & Hsome).
    rewrite Forall_forall in Hpct. apply (Hpct s Hin).
    destruct (PaperSubmission.total_score s); [discriminate|discriminate]. }
  destruct (percentages_of_run completed Hall) as (ps & Hps & Hlen).
  destruct (median_between first others) as (median & Hmed & Hbounds).
  rewrite (bind_value _ _ _ _ Hps), (bind_value _ _ _ _ Hmed).
  cbn [fst snd ret app]. eexists. split; [reflexivity|].
  cbn [PaperStatistics.total_submissions PaperStatistics.graded_submissions
       PaperStatistics.pending_submissions PaperStatistics.excellent_count
       PaperStatistics.good_count PaperStatistics.satisfactory_count
       PaperStatistics.needs_improvement_count PaperStatistics.lowest_score
       PaperStatistics.highest_score PaperStatistics.median_score
       PaperStatistics.average_score].
  assert (Hfirst : min_of first others <= first <= max_of first others).
  { split; [apply min_of_le | apply max_of_ge]; now left. }
  split; [reflexivity|].
  split; [apply len_nonneg|].
  split; [unfold len; lia|].
  split; [lia|].
  split.
  { rewrite band_partition. unfold len. now rewrite Hlen. }
  split; [lia|].
  split.
  { now apply round_ndigits_between. }
  apply round_ndigits_between, truediv_between; [apply len_pos|].
  apply sum_between. intros y Hy.
  split; [now apply min_of_le | now apply max_of_ge].
Qed.

(* ------------------------------------------------------------------ *)
(** ** Method comparison and the single-answer route *)

(** X24: for a non-negative maximum [compare_assessment_methods] returns;
    it encodes the two whole answers twice, once for each method; both
    scores lie between 0 and the maximum, and the reported difference is
    the enhanced score minus the basic one, so it lies between minus the
    maximum and the maximum. *)
Theorem X24_compare_methods (model_answer student_answer : string)
    (max_score : Z) (Hmax : 0 <= max_score) :
  exists log c,
    compare_assessment_methods model_answer student_answer max_score
    = (EncodeText model_answer :: EncodeText student_answer
       :: EncodeText model_answer :: EncodeText student_answer :: log,
       inr c) /\
    0 <= MethodComparison.basic_score c <= max_score /\
    0 <= EnhancedAssessment.awarded_score (MethodComparison.enhanced_method c)
    <= max_score /\
    MethodComparison.score_difference c
    = EnhancedAssessment.awarded_score (MethodComparison.enhanced_method c)
      - MethodComparison.basic_score c /\
    - max_score <= MethodComparison.score_difference c <= max_score.
Proof.
  destruct (enhanced_assessment_default_run model_answer student_answer
              max_score) as (a & Hrun & _).
  assert (Ha : 0 <= EnhancedAssessment.awarded_score a <= max_score).
  { apply (enhanced_default_awarded_bounds model_answer student_answer
             max_score a Hmax). now rewrite Hrun. }
  assert (Hb := map_score_bounds
                  (compute_similarity (model_encode model_answer)
                     (model_encode student_answer)) max_score Hmax).
  unfold compare_assessment_methods, encode_text.
  unfold bind at 1. unfold bind at 1.
  rewrite (bind_value _ _ _ _ Hrun). cbn [fst snd ret app].
  eexists _, _. split; [reflexivity|].
  cbn [MethodComparison.basic_score MethodComparison.enhanced_method
       MethodComparison.score_difference].
  repeat split; lia.
Qed.

(** X25: the single-answer route never answers 200: it answers 400
    without calling the encoder when the model answer is blank, and
    otherwise encodes both answers and answers 500 with the TypeError of
    the service, whatever the student answer, the maximum and the response
    validator. *)
Theorem X25_single_answer_route_never_succeeds
    (validate_response : pyval -> option AssessmentResponse.t)
    (data : AnswerRequest.t) :
  (blank (AnswerRequest.model_answer data) = true ->
   assess_answer_endpoint validate_response data
   = ([], HTTPException 400 (Message "model_answer cannot be empty"))) /\
  (blank (AnswerRequest.model_answer data) = false ->
   assess_answer_endpoint validate_response data
   = ([EncodeText (AnswerRequest.model_answer data);
       EncodeText (AnswerRequest.student_answer data)],
      HTTPException 500 (StrOf TypeError))) /\
  (forall log body,
     assess_answer_endpoint validate_response data <> (log, Ok200 body)).
Proof.
  unfold assess_answer_endpoint, blank.
  destruct (Str.is_empty (Str.strip (AnswerRequest.model_answer data))).
  - repeat split; try discriminate.
  - repeat split; try discriminate.
Qed.

(* ------------------------------------------------------------------ *)
(** ** Blank answers in the rubric scorer *)

Lemma rstrip_empty (s : string) : Str.rstrip s = "" -> all_space s = true.
Proof.
  induction s as [|c r IH]; cbn; [reflexivity|].
  destruct (Str.is_space c); cbn; [|discriminate].
  destruct (Str.rstrip r); cbn; [auto | discriminate].
Qed.

Lemma lstrip_all_space (s : string) :
  all_space (Str.lstrip s) = true -> all_space s = true.
Proof.
  induction s as [|c r IH]; cbn; [reflexivity|].
  destruct (Str.is_space c) eqn:E; cbn; [exact IH|].
  now rewrite E.
Qed.

Lemma strip_empty (s : string) : Str.strip s = "" -> all_space s = true.
Proof. intros H. now apply lstrip_all_space, rstrip_empty. Qed.

Lemma all_space_split (s : string) : all_space s = true -> Str.split s = [].
Proof.
  intros H. unfold Str.split.
  enough (E : Str.split_scan s = ("", [])) by now rewrite E.
  induction s as [|c r IH]; cbn in *; [reflexivity|].
  apply andb_true_iff in H. destruct H as (Hc & Hr).
  now rewrite (IH Hr), Hc.
Qed.

Lemma space_is_no_separator (c : ascii) :
  Str.is_space c = true -> Ascii.eqb c "." = false.
Proof.
  intros H. destruct (Ascii.eqb_spec c "."); [|reflexivity].
  subst c. discriminate H.
Qed.

Lemma all_space_split_on (s : string) :
  all_space s = true -> Str.split_on "." s = [s].
Proof.
  induction s as [|c r IH]; cbn; [reflexivity|]. intros H.
  apply andb_true_iff in H. destruct H as (Hc & Hr).
  now rewrite (space_is_no_separator c Hc), (IH Hr).
Qed.

Lemma space_is_no_punctuation (c : ascii) :
  Str.is_space c = true -> is_punctuation c = false.
Proof.
  intros H. unfold is_punctuation. cbn [existsb].
  repeat match goal with
  | |- context [Ascii.eqb c ?d] =>
      destruct (Ascii.eqb_spec c d); [subst c; discriminate H|]
  end.
  reflexivity.
Qed.

Lemma all_space_no_punctuation (s : string) :
  all_space s = true -> Str.existsb_char is_punctuation s = false.
Proof.
  induction s as [|c r IH]; cbn [Str.existsb_char all_space];
    [reflexivity|]. intros H.
  apply andb_true_iff in H. destruct H as (Hc & Hr).
  now rewrite (space_is_no_punctuation c Hc), (IH Hr).
Qed.

Lemma blank_no_phrases (s : string) :
  Str.strip s = "" -> extract_key_phrases s 2 = [].
Proof.
  intros H. unfold extract_key_phrases.
  rewrite (all_space_split_on s (strip_empty s H)). cbn [filter].
  now rewrite H.
Qed.

Lemma blank_clarity (s : string) :
  Str.strip s = "" ->
  (Clarity.score (score_clarity s) == 0.35)%Q /\
  Clarity.word_count (score_clarity s) = 0.
Proof.
  intros H. assert (Hs := strip_empty s H). unfold score_clarity.
  rewrite (all_space_split_on s Hs), (all_space_split s Hs),
    (all_space_no_punctuation s Hs).
  cbn [filter]. rewrite H. split; reflexivity.
Qed.

Lemma unmatched_count (l : list string) :
  matched_count
    (Dict.comprehension String.eqb (fun c => c) (fun _ => unmatched) l)
  = 0.
Proof.
  rewrite matched_count_comprehension. unfold len. cbn [ConceptMatch.matched unmatched].
  induction (distinct_keys l); [reflexivity | exact IHl0].
Qed.

Lemma truediv_zero (b : Z) : (Py.truediv 0 b == 0)%Q.
Proof. unfold Py.truediv, Qdiv. apply Qmult_0_l. Qed.

(** X26: for a student answer that strips to blank the rubric scorer,
    which does not validate its input, encodes the two whole answers and
    nothing else, and returns completeness 0, clarity 0.35 and, with the
    default weights, the total 0.5 * accuracy + 0.0525. *)
Theorem X26_blank_answer_rubric (model_answer student_answer : string)
    (Hblank : Str.strip student_answer = "") :
  exists r,
    score_with_rubric model_answer student_answer None
    = ([EncodeText model_answer; EncodeText student_answer], inr r) /\
    let components := RubricResult.components r in
    (Completeness.score (Components.completeness components) == 0)%Q /\
    Completeness.concepts_found (Components.completeness components) = 0 /\
    (Clarity.score (Components.clarity components) == 0.35)%Q /\
    (RubricResult.total_score r
     == 0.5 * Accuracy.score (Components.accuracy components) + 0.0525)%Q.
Proof.
  rewrite score_with_rubric_default_run.
  assert (Hp := blank_no_phrases student_answer Hblank).
  assert (Hcalls : match_calls (identify_key_concepts model_answer 5)
                     student_answer = []).
  { unfold match_calls. rewrite Hp.
    now destruct (identify_key_concepts model_answer 5). }
  rewrite Hcalls, app_nil_r. eexists. split; [reflexivity|].
  cbn [RubricResult.components RubricResult.total_score Components.accuracy
       Components.completeness Components.clarity Accuracy.score
       Completeness.score Completeness.concepts_found].
  destruct (blank_clarity student_answer Hblank) as (Hk & Hw).
  assert (Hm : matched_count
                 (concept_matches_of (identify_key_concepts model_answer 5)
                    student_answer) = 0).
  { unfold concept_matches_of. rewrite Hp. apply unmatched_count. }
  assert (Hl : (length_ratio_of model_answer student_answer == 0)%Q).
  { assert (Hwc : Str.word_count student_answer = 0).
    { unfold Str.word_count.
      now rewrite (all_space_split _ (strip_empty _ Hblank)). }
    unfold length_ratio_of. rewrite Hwc.
    destruct (0 <? Str.word_count model_answer); [|reflexivity].
    assert (H0 := truediv_zero (Str.word_count model_answer)).
    destruct (Q.min_spec (Py.truediv 0 (Str.word_count model_answer)) 1.0)
      as [(_ & E)|(Hge & E)]; rewrite E; [exact H0|].
    exfalso. rewrite H0 in Hge. apply (Qle_not_lt _ _ Hge). reflexivity. }
  assert (Hc : (concept_coverage_of model_answer student_answer == 0)%Q).
  { unfold concept_coverage_of. rewrite Hm.
    destruct (identify_key_concepts model_answer 5);
      [reflexivity | apply truediv_zero]. }
  cbv zeta. split; [rewrite Hl, Hc; reflexivity|].
  split; [exact Hm|]. split; [exact Hk|].
  rewrite Hl, Hc, Hk. ring.
Qed.


(* ------------------------------------------------------------------ *)
(** ** Model answers of a single clause *)

Lemma split_on_no_sep (sep : ascii) (s : string) :
  Str.existsb_char (fun c => Ascii.eqb c sep) s = false ->
  Str.split_on sep s = [s].
Proof.
  induction s as [|c r IH]; cbn [Str.existsb_char Str.split_on];
    [reflexivity|].
  intros H. apply orb_false_iff in H. destruct H as (Hc & Hr).
  rewrite Hc, (IH Hr). reflexivity.
Qed.

Lemma split_on_app_sep (sep : ascii) (s r : string) :
  Str.existsb_char (fun c => Ascii.eqb c sep) s = false ->
  Str.split_on sep (s ++ String sep r) = s :: Str.split_on sep r.
Proof.
  induction s as [|c s IH]; cbn [Str.existsb_char Str.split_on append].
  - intros _. now rewrite Ascii.eqb_refl.
  - intros H. apply orb_false_iff in H. destruct H as (Hc & Hr).
    rewrite Hc, (IH Hr). reflexivity.
Qed.

Lemma rstrip_idempotent (s : string) :
  Str.rstrip (Str.rstrip s) = Str.rstrip s.
Proof.
  induction s as [|c r IH]; cbn [Str.rstrip]; [reflexivity|].
  destruct (Str.is_space c && Str.is_empty (Str.rstrip r)) eqn:E;
    [reflexivity|].
  cbn [Str.rstrip]. now rewrite IH, E.
Qed.

Lemma lstrip_head (s : string) :
  Str.lstrip s = "" \/
  exists c r, Str.lstrip s = String c r /\ Str.is_space c = false.
Proof.
  induction s as [|c r IH]; cbn [Str.lstrip]; [now left|].
  destruct (Str.is_space c) eqn:E; [exact IH|]. right. now exists c, r.
Qed.

Lemma strip_idempotent (s : string) : Str.strip (Str.strip s) = Str.strip s.
Proof.
  unfold Str.strip.
  destruct (lstrip_head s) as [-> | (c & r & -> & Hc)]; [reflexivity|].
  cbn [Str.rstrip]. rewrite Hc. cbn [andb Str.lstrip]. rewrite Hc.
  cbn [Str.rstrip]. rewrite Hc. cbn [andb]. now rewrite rstrip_idempotent.
Qed.

Lemma split_lstrip (s : string) : Str.split (Str.lstrip s) = Str.split s.
Proof.
  induction s as [|c r IH]; cbn [Str.lstrip]; [reflexivity|].
  destruct (Str.is_space c) eqn:E; [|reflexivity].
  rewrite IH. unfold Str.split. cbn [Str.split_scan].
  destruct (Str.split_scan r) as (w, ws). rewrite E. reflexivity.
Qed.

Lemma split_scan_rstrip (s : string) :
  Str.split_scan (Str.rstrip s) = Str.split_scan s.
Proof.
  induction s as [|c r IH]; cbn [Str.rstrip]; [reflexivity|].
  destruct (Str.is_space c) eqn:Ec; cbn [andb].
  - destruct (Str.is_empty (Str.rstrip r)) eqn:Ee.
    + cbn [Str.split_scan]. rewrite <- IH.
      destruct (Str.rstrip r); [|discriminate]. cbn [Str.split_scan].
      now rewrite Ec.
    + cbn [Str.split_scan]. now rewrite IH.
  - cbn [Str.split_scan]. now rewrite IH.
Qed.

Lemma word_count_strip (s : string) :
  Str.word_count (Str.strip s) = Str.word_count s.
Proof.
  unfold Str.word_count, Str.strip. rewrite <- (split_lstrip s).
  unfold Str.split. now rewrite split_scan_rstrip.
Qed.

(** The phrases of a text that is one clause, with or without its full
    stop: the clause, twice. *)
Lemma single_clause_phrases (sentence text : string) :
  Str.existsb_char (fun c => Ascii.eqb c ".") sentence = false ->
  Str.existsb_char (fun c => Ascii.eqb c ",") sentence = false ->
  2 <= Str.word_count sentence <= 15 ->
  text = sentence \/ text = (sentence ++ ".")%string ->
  extract_key_phrases text 2 = [Str.strip sentence; Str.strip sentence].
Proof.
  intros Hperiod Hcomma Hwords Htext.
  assert (Hne : Str.is_empty (Str.strip sentence) = false).
  { destruct (Str.strip sentence) eqn:E; [|reflexivity].
    rewrite <- word_count_strip, E in Hwords. cbn in Hwords. lia. }
  assert (Hsentences :
            map Str.strip
              (filter (fun s => negb (Str.is_empty (Str.strip s)))
                 (Str.split_on "." text))
            = [Str.strip sentence]).
  { destruct Htext as [-> | ->].
    - rewrite (split_on_no_sep _ _ Hperiod). cbn [filter]. rewrite Hne.
      reflexivity.
    - rewrite (split_on_app_sep _ _ "" Hperiod). cbn [filter Str.split_on].
      rewrite Hne. reflexivity. }
  unfold extract_key_phrases. rewrite Hsentences. cbn [fold_left].
  rewrite (split_on_no_sep _ _ (strip_no_char _ _ Hcomma)).
  cbn [fold_left]. rewrite strip_idempotent, word_count_strip.
  destruct (Z.leb_spec (Str.word_count sentence) 15); [|lia].
  destruct (Z.leb_spec 2 (Str.word_count sentence)); [|lia].
  reflexivity.
Qed.

(** X27: a model answer that is a single clause of 2 to 15 words (no
    comma, no period other than an optional final one) yields the same key
    concept twice, so no student answer, not even the model answer itself,
    is credited with more than one concept out of two: the concept
    coverage is at most 0.5 and the completeness score at most 0.65. *)
Theorem X27_single_clause_model_answer
    (sentence model_answer student_answer : string)
    (Hperiod : Str.existsb_char (fun c => Ascii.eqb c ".") sentence = false)
    (Hcomma : Str.existsb_char (fun c => Ascii.eqb c ",") sentence = false)
    (Hwords : 2 <= Str.word_count sentence <= 15)
    (Htext : model_answer = sentence \/
             model_answer = (sentence ++ ".")%string) :
  identify_key_concepts model_answer 5
  = [Str.strip sentence; Str.strip sentence] /\
  exists c,
    outcome (score_completeness model_answer student_answer) = inr c /\
    Completeness.total_concepts c = 2 /\
    Completeness.concepts_found c <= 1 /\
    (Completeness.concept_coverage c <= 0.5)%Q /\
    (Completeness.score c <= 0.65)%Q.
Proof.
  assert (Hconcepts : identify_key_concepts model_answer 5
                      = [Str.strip sentence; Str.strip sentence]).
  { unfold identify_key_concepts.
    rewrite (single_clause_phrases sentence model_answer Hperiod Hcomma
               Hwords Htext).
    reflexivity. }
  split; [exact Hconcepts|].
  rewrite score_completeness_run. cbn [outcome snd]. eexists.
  split; [reflexivity|].
  cbn [Completeness.total_concepts Completeness.concepts_found
       Completeness.concept_coverage Completeness.score].
  assert (Hl := length_ratio_bounds model_answer student_answer).
  unfold concept_coverage_of. rewrite Hconcepts.
  set (found := matched_count
                  (concept_matches_of
                     [Str.strip sentence; Str.strip sentence] student_answer)).
  assert (Hfound : 0 <= found <= 1).
  { subst found. unfold concept_matches_of.
    destruct (matched_count_distinct
                (match extract_key_phrases student_answer 2 with
                 | [] => fun _ => unmatched
                 | _ => concept_match_of (extract_key_phrases student_answer 2)
                 end) [Str.strip sentence; Str.strip sentence]) as (H0 & H1).
    unfold distinct_keys in H1. cbn [fold_left existsb app] in H1.
    rewrite String.eqb_refl in H1. cbn [orb] in H1.
    split; [exact H0 | exact H1]. }
  assert (Hcov : (Py.truediv found
                    (len [Str.strip sentence; Str.strip sentence]) <= 0.5)%Q).
  { unfold Py.truediv. change (len [Str.strip sentence; Str.strip sentence])
      with 2. apply Qle_shift_div_r; [reflexivity|].
    assert (Hq := inject_Z_le found 1 (proj2 Hfound)).
    change (inject_Z 1) with 1%Q in Hq. change (inject_Z 2) with 2%Q. lra. }
  split; [reflexivity|]. split; [lia|]. split; [exact Hcov | lra].
Qed.

End Engine.

(* ================================================================== *)
(** * Concrete runs with the test double *)
(* ================================================================== *)


Lemma C5_match_concepts_witness :
  exists results,
    outcome (match_concepts TestEncoder.Vec TestEncoder.encode
               TestEncoder.cosine ["movement of water"]
               "Osmosis, movement of water.")
    = inr results.
Proof.
  assert (Hne : ["movement of water"] <> []) by discriminate.
  destruct (C5_match_concepts TestEncoder.Vec TestEncoder.encode
              TestEncoder.cosine ["movement of water"]
              "Osmosis, movement of water." Hne) as (results & H & _).
  exists results. exact H.
Defined.

Lemma C6_extract_key_phrases_order_witness :
  extract_key_phrases "Yes. Osmosis moves water, across a membrane." 2
  = flat_map (phrases_of_sentence 2)
      (sentences_of "Yes. Osmosis moves water, across a membrane.").
Proof.
  exact (proj1 (C6_extract_key_phrases_order
                  "Yes. Osmosis moves water, across a membrane." eq_refl)).
Defined.

Lemma C7_concept_coverage_monotone_witness :
  exists c1 c2,
    outcome (score_completeness TestEncoder.Vec TestEncoder.encode
               TestEncoder.cosine "Osmosis moves water, across a membrane."
               "Osmosis moves water.") = inr c1 /\
    outcome (score_completeness TestEncoder.Vec TestEncoder.encode
               TestEncoder.cosine "Osmosis moves water, across a membrane."
               "Osmosis moves water, across a membrane.") = inr c2 /\
    (Completeness.concept_coverage c1 <= Completeness.concept_coverage c2)%Q.
Proof.
  apply C7_concept_coverage_monotone.
  intros p Hp. vm_compute in Hp. vm_compute.
  destruct Hp as [<-|[<-|[]]]; tauto.
Defined.

Lemma C8_unanswered_question_not_recorded_witness :
  grade_paper_basic TestEncoder.Vec TestEncoder.encode TestEncoder.cosine 1
    (Some (Paper.make "Transport quiz" "Biology" 13))
    [Sample.osmosis; Sample.diffusion] Sample.blank_second_answer
  = ([], inl (AttributeError "is_active")).
Proof.
  assert (Hq : In Sample.diffusion [Sample.osmosis; Sample.diffusion])
    by (right; left; reflexivity).
  assert (Hblank :
            Dict.get Z.eqb (answer_map_of Sample.blank_second_answer)
              (Question.question_number Sample.diffusion) = None \/
            exists a,
              Dict.get Z.eqb (answer_map_of Sample.blank_second_answer)
                (Question.question_number Sample.diffusion) = Some a /\
              Str.strip a = "").
  { right. exists "   ". split; reflexivity. }
  destruct (C8_unanswered_question_not_recorded TestEncoder.Vec
              TestEncoder.encode TestEncoder.cosine 1
              (Paper.make "Transport quiz" "Biology" 13)
              [Sample.osmosis; Sample.diffusion] Sample.blank_second_answer
              None Sample.diffusion Hq Hblank)
    as (_ & _ & _ & _ & _ & H & _).
  exact H.
Defined.

(* ------------------------------------------------------------------ *)
(** ** Runs of the further properties *)

Lemma X1_assess_answer_bounds_witness :
  exists similarity score,
    outcome (assess_answer TestEncoder.Vec TestEncoder.encode
               TestEncoder.cosine "Water moves." "Osmosis moves water." 10)
    = inr (similarity, score) /\
    0 <= score <= 10.
Proof.
  destruct (X1_assess_answer_bounds TestEncoder.Vec TestEncoder.encode
              TestEncoder.cosine "Water moves." "Osmosis moves water." 10
              ltac:(lia))
    as (similarity & score & Hrun & _ & _ & _ & Hscore & _).
  exists similarity, score. rewrite Hrun. split; [reflexivity | exact Hscore].
Defined.

Lemma X2_map_similarity_to_score_monotone_witness :
  map_similarity_to_score 0.5 10 <= map_similarity_to_score 0.7 10.
Proof.
  apply X2_map_similarity_to_score_monotone; [lia | discriminate].
Defined.

Lemma X3_full_marks_iff_excellent_witness :
  map_similarity_to_score 0.9 10 = 10 <-> (0.80 <= 0.9)%Q.
Proof.
  apply (X3_full_marks_iff_excellent 0.9 10). lia.
Defined.

Lemma X5_batch_average_witness :
  exists results average,
    outcome (process_batch_assessments TestEncoder.Vec TestEncoder.encode
               TestEncoder.cosine
               [BatchAnswerItem.make "s0" "Osmosis moves water."
                  "Water moves." 10;
                Sample.blank_item])
    = inr (results, average) /\
    (0 <= average <= 10)%Q.
Proof.
  assert (Hne : [BatchAnswerItem.make "s0" "Osmosis moves water."
                   "Water moves." 10;
                 Sample.blank_item] <> []) by discriminate.
  assert (Hmax : Forall
                   (fun item => 0 <= BatchAnswerItem.max_score item <= 10)
                   [BatchAnswerItem.make "s0" "Osmosis moves water."
                      "Water moves." 10;
                    Sample.blank_item]).
  { repeat constructor; vm_compute; discriminate. }
  assert (Hbound : 10 < 2 ^ 53) by reflexivity.
  destruct (X5_batch_average TestEncoder.Vec TestEncoder.encode
              TestEncoder.cosine _ 10 Hne Hmax Hbound)
    as (results & average & Hrun & _ & Hb).
  exists results, average. split; assumption.
Defined.

Lemma X7_single_model_agrees_with_batch_witness :
  outcome (process_single_model_batch TestEncoder.Vec TestEncoder.encode
             TestEncoder.cosine "Osmosis moves water."
             [StudentAnswerDict.make (Some "s1") (Some "Water moves.") None])
  = outcome (process_batch_assessments TestEncoder.Vec TestEncoder.encode
               TestEncoder.cosine
               [BatchAnswerItem.make "s1" "Osmosis moves water."
                  "Water moves." 10]).
Proof.
  apply (X7_single_model_agrees_with_batch TestEncoder.Vec TestEncoder.encode
           TestEncoder.cosine "Osmosis moves water."
           [StudentAnswerDict.make (Some "s1") (Some "Water moves.") None]).
  reflexivity.
Defined.

Lemma X8_enhanced_score_bounds_witness :
  exists a,
    outcome (enhanced_assessment TestEncoder.Vec TestEncoder.encode
               TestEncoder.cosine "Osmosis moves water." "Water moves." 10
               None) = inr a /\
    0 <= EnhancedAssessment.awarded_score a <= 10.
Proof.
  destruct (X8_enhanced_score_bounds TestEncoder.Vec TestEncoder.encode
              TestEncoder.cosine "Osmosis moves water." "Water moves." 10
              ltac:(lia)) as (a & Hrun & Hb & _).
  exists a. split; assumption.
Defined.

Lemma X9_missing_weight_raises_witness :
  outcome (enhanced_assessment TestEncoder.Vec TestEncoder.encode
             TestEncoder.cosine "Osmosis moves water." "Water moves." 10
             (Some [("accuracy", 0.5%Q)]))
  = inl (KeyError "completeness").
Proof.
  assert (Hkey :
            ("completeness" = "accuracy" /\
             Dict.get String.eqb [("accuracy", 0.5%Q)] "accuracy" = None) \/
            ("completeness" = "completeness" /\
             Dict.get String.eqb [("accuracy", 0.5%Q)] "accuracy" <> None /\
             Dict.get String.eqb [("accuracy", 0.5%Q)] "completeness" = None) \/
            ("completeness" = "clarity" /\
             Dict.get String.eqb [("accuracy", 0.5%Q)] "accuracy" <> None /\
             Dict.get String.eqb [("accuracy", 0.5%Q)] "completeness" <> None /\
             Dict.get String.eqb [("accuracy", 0.5%Q)] "clarity" = None)).
  { right. left. split; [reflexivity|]. split; [discriminate | reflexivity]. }
  destruct (X9_missing_weight_raises TestEncoder.Vec TestEncoder.encode
              TestEncoder.cosine "Osmosis moves water." "Water moves." 10
              [("accuracy", 0.5%Q)] "completeness" Hkey) as (_ & H).
  now rewrite H.
Defined.

Lemma X11_repeated_concept_caps_coverage_witness :
  exists c,
    outcome (score_completeness TestEncoder.Vec TestEncoder.encode
               TestEncoder.cosine "Plants make food." "Plants make food.")
    = inr c /\
    (Completeness.concept_coverage c < 1)%Q.
Proof.
  assert (Hdup : ~ NoDup (identify_key_concepts "Plants make food." 5)).
  { intros H. vm_compute in H. inversion H as [|x l Hnot _]. apply Hnot.
    now left. }
  destruct (X11_repeated_concept_caps_coverage TestEncoder.Vec
              TestEncoder.encode TestEncoder.cosine "Plants make food."
              "Plants make food." Hdup) as (c & Hrun & Hc & _).
  exists c. split; assumption.
Defined.

Lemma X16_score_question_basic_witness :
  exists r,
    outcome (_score_question_basic TestEncoder.Vec TestEncoder.encode
               TestEncoder.cosine Sample.osmosis "Water moves.") = inr r /\
    0 <= QuestionResult.awarded_score r <= 3.
Proof.
  assert (Hmarks : 0 <= Question.marks_allocated Sample.osmosis)
    by (vm_compute; discriminate).
  destruct (X16_score_question_basic TestEncoder.Vec TestEncoder.encode
              TestEncoder.cosine Sample.osmosis "Water moves." Hmarks)
    as (r & Hrun & _ & _ & _ & _ & Hb & _).
  exists r. rewrite Hrun. split; [reflexivity | exact Hb].
Defined.

Lemma X17_score_question_enhanced_witness :
  exists r,
    outcome (_score_question_enhanced TestEncoder.Vec TestEncoder.encode
               TestEncoder.cosine Sample.osmosis "Water moves." None)
    = inr r /\
    0 <= QuestionResult.awarded_score r <= 3.
Proof.
  assert (Hmarks : 0 <= Question.marks_allocated Sample.osmosis)
    by (vm_compute; discriminate).
  destruct (X17_score_question_enhanced TestEncoder.Vec TestEncoder.encode
              TestEncoder.cosine Sample.osmosis "Water moves." Hmarks)
    as (r & Hrun & _ & _ & _ & _ & Hb & _).
  exists r. rewrite Hrun. split; [reflexivity | exact Hb].
Defined.

Lemma X19_overall_feedback_areas_witness :
  exists fb,
    _generate_overall_feedback 0 [_create_unanswered_result Sample.osmosis]
    = ([], inr fb) /\
    OverallFeedback.attempted fb = 0.
Proof.
  assert (Hmarks : Forall (fun q => QuestionResult.marks_allocated q <> 0)
                     [_create_unanswered_result Sample.osmosis]).
  { repeat constructor. vm_compute. discriminate. }
  destruct (X19_overall_feedback_areas 0
              [_create_unanswered_result Sample.osmosis] Hmarks)
    as (fb & Hrun & _ & Hatt & _).
  exists fb. split; [exact Hrun | exact Hatt].
Defined.

Lemma X23_paper_statistics_witness :
  exists st,
    get_paper_statistics 1 (Some (Paper.make "Transport quiz" "Biology" 10))
      [PaperSubmission.make (Some 7) 10 (Some 70%Q) (Some "B") None;
       PaperSubmission.make None 10 None None None]
    = ([], inr (Some st)) /\
    PaperStatistics.graded_submissions st
    + PaperStatistics.pending_submissions st
    = PaperStatistics.total_submissions st.
Proof.
  assert (Hpct : Forall
                   (fun s =>
                      PaperSubmission.total_score s <> None ->
                      PaperSubmission.percentage s <> None)
                   [PaperSubmission.make (Some 7) 10 (Some 70%Q) (Some "B")
                      None;
                    PaperSubmission.make None 10 None None None]).
  { constructor; [cbn; intros _; discriminate |].
    constructor; [cbn; intros H; now contradiction H | constructor]. }
  destruct (X23_paper_statistics 1 (Paper.make "Transport quiz" "Biology" 10)
              _ Hpct) as (st & Hrun & _ & _ & _ & Hsum & _).
  exists st. split; assumption.
Defined.

Lemma X24_compare_methods_witness :
  exists log c,
    compare_assessment_methods TestEncoder.Vec TestEncoder.encode
      TestEncoder.cosine "Osmosis moves water." "Water moves." 10
    = (EncodeText "Osmosis moves water." :: EncodeText "Water moves."
       :: EncodeText "Osmosis moves water." :: EncodeText "Water moves."
       :: log, inr c) /\
    - 10 <= MethodComparison.score_difference c <= 10.
Proof.
  destruct (X24_compare_methods TestEncoder.Vec TestEncoder.encode
              TestEncoder.cosine "Osmosis moves water." "Water moves." 10
              ltac:(lia)) as (log & c & Hrun & _ & _ & _ & Hd).
  exists log, c. split; assumption.
Defined.

Lemma X26_blank_answer_rubric_witness :
  exists r,
    score_with_rubric TestEncoder.Vec TestEncoder.encode TestEncoder.cosine
      "Osmosis moves water." "   " None
    = ([EncodeText "Osmosis moves water."; EncodeText "   "], inr r) /\
    (Clarity.score (Components.clarity (RubricResult.components r))
     == 0.35)%Q.
Proof.
  destruct (X26_blank_answer_rubric TestEncoder.Vec TestEncoder.encode
              TestEncoder.cosine "Osmosis moves water." "   " eq_refl)
    as (r & Hrun & _ & _ & Hk & _).
  exists r. split; assumption.
Defined.

Lemma X27_single_clause_model_answer_witness :
  exists c,
    outcome (score_completeness TestEncoder.Vec TestEncoder.encode
               TestEncoder.cosine "Plants make food." "Plants make food.")
    = inr c /\
    (Completeness.concept_coverage c <= 0.5)%Q.
Proof.
  assert (Hwords : 2 <= Str.word_count "Plants make food" <= 15).
  { split; vm_compute; discriminate. }
  destruct (X27_single_clause_model_answer TestEncoder.Vec TestEncoder.encode
              TestEncoder.cosine "Plants make food" "Plants make food."
              "Plants make food." eq_refl eq_refl Hwords
              (or_intror eq_refl)) as (_ & c & Hrun & _ & _ & Hc & _).
  exists c. split; assumption.
Defined.
